(** * PV / battery dispatch as a MILP: the model builder, the tariff mapper
      and the solve / extraction workflow

    A shallow embedding of [data_loader.py], [config.py], [model_builder.py],
    [solver.py] and the solve branch of [main.py].

    Modelling conventions.
    - Python floats are idealised as exact rationals ([Q]); rounding is not
      modelled.  Numeric facts are stated up to [Qeq] ([==]), structural facts
      (which object is built) up to Leibniz equality.
    - Python dictionaries are [gmap]s; a failed subscript raises [KeyError].
    - Exceptions are values of [exn]; a computation that may raise returns a
      [result].  Only subclasses of Python's [Exception] are modelled.
    - Code that mutates an object threads that object through the state of
      the monad [M]; the state reached when an exception is raised is kept,
      as it is in Python.
    - Gurobi is a black box: the engine that [solver.py] calls
      ([solver.Engine]) and, for the builder, the license and the refusal of
      a constraint ([Gurobi]).  The module [model_builder] is the builder
      with a Gurobi that starts and refuses nothing, the module [guarded]
      the builder with any Gurobi. *)

From Stdlib Require Import QArith Lqa.
From stdpp Require Import base option list gmap strings pretty.

Local Open Scope string_scope.

(** ** Exceptions and results *)

Inductive exn : Type :=
| KeyError (key : string)          (* dict[str] on an absent key *)
| KeyErrorInt (key : nat)          (* dict[int] / tupledict[int] on an absent key *)
| IndexError                       (* sequence[int] out of range *)
| ZeroDivisionError
| ValueError                       (* max() of an empty sequence *)
| TypeError                        (* a timestamp used as a number *)
| AttributeError                   (* an attribute that the object does not have *)
| SystemError                      (* a reference that the store does not hold *)
| GurobiError (errno : Z).         (* gp.GurobiError *)

Inductive result (A : Type) : Type :=
| Ok (a : A)
| Raise (e : exn).
Arguments Ok {A} a.
Arguments Raise {A} e.

Definition is_Ok {A} (r : result A) : Prop :=
  match r with Ok _ => True | Raise _ => False end.

Definition raises {A} (r : result A) : Prop :=
  match r with Ok _ => False | Raise _ => True end.

#[global] Instance result_ret : MRet result := fun A a => Ok a.
#[global] Instance result_bind : MBind result := fun A B k r =>
  match r with
  | Ok a => k a
  | Raise e => Raise e
  end.

(** ** State and exceptions: the monad of the imperative fragments *)

Definition M (S A : Type) : Type := S -> S * result A.

#[global] Instance M_ret {S} : MRet (M S) := fun A a s => (s, Ok a).
#[global] Instance M_bind {S} : MBind (M S) := fun A B k m s =>
  match m s with
  | (s', Ok a) => k a s'
  | (s', Raise e) => (s', Raise e)
  end.

(** An expression without effect on the state, which may raise. *)
Definition lift {S A} (r : result A) : M S A := fun s => (s, r).

(** A statement that updates the state and cannot raise. *)
Definition modify {S} (f : S -> S) : M S unit := fun s => (f s, Ok tt).

(** [try: body except Exception as e: handler(e)] *)
Definition try_except {S A} (body : M S A) (handler : exn -> M S A) : M S A :=
  fun s =>
    match body s with
    | (s', Ok a) => (s', Ok a)
    | (s', Raise e) => handler e s'
    end.

(** [for t in l: body(t)] *)
Fixpoint for_ {S} (l : list nat) (body : nat -> M S unit) : M S unit :=
  match l with
  | [] => mret tt
  | t :: l' => body t ≫= fun _ => for_ l' body
  end.

(** [range(n)] *)
Definition range (n : nat) : list nat := seq 0 n.

(** ** Python values that the program handles *)

(** A [pandas.Timestamp]; the program reads its [hour] only. *)
Record Timestamp : Type := mkTimestamp { hour : Z; minute : Z }.

(** The sequences held by the [data] dictionary: the list of timestamps
    under ['time'] and the numeric arrays under ['solar_production'] and
    ['load_demand']. *)
Inductive pyobj : Type :=
| Times (l : list Timestamp)
| Nums (l : list Q).

(** [len(o)] *)
Definition len (o : pyobj) : nat :=
  match o with
  | Times l => length l
  | Nums l => length l
  end.

(** [d[k]] for a dictionary with string keys *)
Definition getitem {V} (d : gmap string V) (k : string) : result V :=
  match d !! k with
  | Some v => Ok v
  | None => Raise (KeyError k)
  end.

(** [d[t]] for a dictionary (or a gurobipy tupledict) with integer keys *)
Definition getitem_int {V} (d : gmap nat V) (t : nat) : result V :=
  match d !! t with
  | Some v => Ok v
  | None => Raise (KeyErrorInt t)
  end.

(** [o[t].hour]: subscript, then attribute access. *)
Definition hour_at (o : pyobj) (t : nat) : result Z :=
  match o with
  | Times l =>
      match l !! t with
      | Some ts => Ok (hour ts)
      | None => Raise IndexError
      end
  | Nums l =>
      match l !! t with
      | Some _ => Raise AttributeError
      | None => Raise IndexError
      end
  end.

(** [o[t]] used as a number. *)
Definition num_at (o : pyobj) (t : nat) : result Q :=
  match o with
  | Nums l =>
      match l !! t with
      | Some q => Ok q
      | None => Raise IndexError
      end
  | Times l =>
      match l !! t with
      | Some _ => Raise TypeError
      | None => Raise IndexError
      end
  end.

(** ** data_loader.py *)

Module data_loader.

(** The body of the loop of [get_time_of_use_rates]; the state is the
    dictionary [buy_rates]. *)
Definition get_time_of_use_rates_body
    (data : gmap string pyobj) (cost_params : gmap string Q) (t : nat)
  : M (gmap nat Q) unit :=
  time ← lift (getitem data "time");
  hour ← lift (hour_at time t);
  if ((2 <=? hour) && (hour <? 4))%Z then
    r ← lift (getitem cost_params "boost_rate");
    modify (fun buy_rates => <[t := r]> buy_rates)
  else if ((23 <=? hour) || (hour <? 8))%Z then
    r ← lift (getitem cost_params "night_rate");
    modify (fun buy_rates => <[t := r]> buy_rates)
  else
    r ← lift (getitem cost_params "day_rate");
    modify (fun buy_rates => <[t := r]> buy_rates).

Definition get_time_of_use_rates
    (data : gmap string pyobj) (cost_params : gmap string Q)
  : result (gmap nat Q) :=
  let buy_rates : gmap nat Q := ∅ in
  match
    (time ← lift (getitem data "time");
     for_ (range (len time)) (get_time_of_use_rates_body data cost_params))
      buy_rates
  with
  | (buy_rates', Ok _) => Ok buy_rates'
  | (_, Raise e) => Raise e
  end.

End data_loader.

(** ** config.py *)

Module config.

(** [GUROBI_LICENSE_FILE] is read once from the process environment when
    the module is imported; [os.getenv] gives [None] for an unset name. *)
Definition setup_gurobi_env
    (GUROBI_LICENSE_FILE : option string) (environ : gmap string string)
  : gmap string string :=
  match GUROBI_LICENSE_FILE with
  | Some path =>
      if decide (path = "") then environ
      else <["GRB_LICENSE_FILE" := path]> environ
  | None => environ
  end.

End config.

(** ** The objects of gurobipy that the builder creates *)

(** A decision variable, as [addVars(..., name=n)] names it: [n[t]]. *)
Record Var : Type := mkVar { vname : string; vidx : nat }.

#[global] Instance Var_eq_dec : EqDecision Var.
Proof. solve_decision. Defined.

Inductive vtype : Type := CONTINUOUS | BINARY.

(** A declared variable with its lower bound and its type; the upper bound
    is gurobipy's default (infinite, or 1 for a binary variable). *)
Record VarDecl : Type := mkVarDecl { dvar : Var; dlb : Q; dvtype : vtype }.

(** Linear expressions, built by the overloaded operators of gurobipy.  The
    program multiplies and divides expressions by constants only. *)
Inductive LinExpr : Type :=
| EVar (v : Var)
| EConst (k : Q)
| EAdd (a b : LinExpr)
| ESub (a b : LinExpr)
| EMul (a : LinExpr) (k : Q)
| EDiv (a : LinExpr) (k : Q).

Inductive sense : Type := LESS_EQUAL | GREATER_EQUAL | EQUAL.

Record Constr : Type :=
  mkConstr { clhs : LinExpr; csense : sense; crhs : LinExpr; cname : string }.

Inductive objsense : Type := MINIMIZE | MAXIMIZE.

(** The part of a [gp.Model] that the builder writes. *)
Record Model : Type := mkModel {
  mname : string;
  variables : list VarDecl;
  objective : LinExpr;
  modelsense : objsense;
  constrs : list Constr
}.

(** The model object that [gp.Model(name)] creates when it returns: no
    variable, no constraint, objective 0 to minimize. *)
Definition new_Model (name : string) : Model :=
  mkModel name [] (EConst 0%Q) MINIMIZE [].

(** [e / k] on a linear expression *)
Definition ediv (e : LinExpr) (k : Q) : result LinExpr :=
  if Qeq_bool k 0%Q then Raise ZeroDivisionError else Ok (EDiv e k).

(** [gp.quicksum(terms)] *)
Definition quicksum (terms : list LinExpr) : LinExpr :=
  fold_left EAdd terms (EConst 0%Q).

(** Python's [max] on a sequence: the first of the largest elements. *)
Definition py_max_list (x : Q) (l : list Q) : Q :=
  fold_left (fun m y => match (y ?= m)%Q with Gt => y | _ => m end) l x.

(** [max(o)] used as a number *)
Definition py_max (o : pyobj) : result Q :=
  match o with
  | Nums [] => Raise ValueError
  | Nums (x :: l) => Ok (py_max_list x l)
  | Times [] => Raise ValueError
  | Times (_ :: _) => Raise TypeError
  end.

(** *** Meaning of a model *)

Fixpoint eval (a : Var -> Q) (e : LinExpr) : Q :=
  match e with
  | EVar v => a v
  | EConst k => k
  | EAdd x y => (eval a x + eval a y)%Q
  | ESub x y => (eval a x - eval a y)%Q
  | EMul x k => (eval a x * k)%Q
  | EDiv x k => (eval a x / k)%Q
  end.

Definition sat (a : Var -> Q) (c : Constr) : Prop :=
  match csense c with
  | LESS_EQUAL => (eval a (clhs c) <= eval a (crhs c))%Q
  | GREATER_EQUAL => (eval a (crhs c) <= eval a (clhs c))%Q
  | EQUAL => (eval a (clhs c) == eval a (crhs c))%Q
  end.

Definition in_domain (a : Var -> Q) (d : VarDecl) : Prop :=
  match dvtype d with
  | CONTINUOUS => (dlb d <= a (dvar d))%Q
  | BINARY => (a (dvar d) == 0)%Q \/ (a (dvar d) == 1)%Q
  end.

(** The feasible region: the assignments within the declared domains that
    satisfy every constraint. *)
Definition feasible (m : Model) (a : Var -> Q) : Prop :=
  (forall d, In d (variables m) -> in_domain a d) /\
  (forall c, In c (constrs m) -> sat a c).

(** ** model_builder.py *)

Module model_builder.

(** The variables that [addVars] declares, in the order of the indices,
    and the tupledict index -> variable that it returns. *)
Definition declared (indices : list nat) (lb : Q) (vt : vtype) (name : string)
  : list VarDecl :=
  map (fun t => mkVarDecl (mkVar name t) lb vt) indices.

Definition tupledict (indices : list nat) (name : string) : gmap nat Var :=
  list_to_map (map (fun t => (t, mkVar name t)) indices).

(** [model.addVars(indices, lb=lb, vtype=vt, name=name)] *)
Definition addVars (indices : list nat) (lb : Q) (vt : vtype) (name : string)
  : M Model (gmap nat Var) :=
  fun m =>
    (mkModel (mname m) (variables m ++ declared indices lb vt name)
       (objective m) (modelsense m) (constrs m),
     Ok (tupledict indices name)).

(** [model.setObjective(obj, sense)] *)
Definition setObjective (obj : LinExpr) (sense : objsense) : M Model unit :=
  modify (fun m => mkModel (mname m) (variables m) obj sense (constrs m)).

(** [model.addConstr(c)] *)
Definition addConstr (c : Constr) : M Model unit :=
  modify (fun m =>
    mkModel (mname m) (variables m) (objective m) (modelsense m)
      (constrs m ++ [c])).

(** [(5/60)/1000]: 5 minutes in hours, then watts in kilowatts. *)
Definition conversion_factor : Q := ((5 / 60) / 1000)%Q.

Section Expressions.

Variable data : gmap string pyobj.
Variables battery_params cost_params : gmap string Q.
Variable buy_rates : gmap nat Q.
Variables P_solar_household P_solar_battery P_solar_grid
          P_battery_household P_grid_battery P_grid_household
          SE BC BD GF : gmap nat Var.

(** The summand of the objective for step [t]. *)
Definition objective_term (t : nat) : result LinExpr :=
  gh ← getitem_int P_grid_household t;
  gb ← getitem_int P_grid_battery t;
  rate ← getitem_int buy_rates t;
  sg ← getitem_int P_solar_grid t;
  sell_price ← getitem cost_params "sell_price";
  mret (ESub
          (EMul (EMul (EAdd (EVar gh) (EVar gb)) conversion_factor) rate)
          (EMul (EMul (EVar sg) conversion_factor) sell_price)).

(** 1. Solar power balance *)
Definition solar_balance (t : nat) : result Constr :=
  sh ← getitem_int P_solar_household t;
  sb ← getitem_int P_solar_battery t;
  sg ← getitem_int P_solar_grid t;
  solar_production ← getitem data "solar_production";
  p ← num_at solar_production t;
  mret (mkConstr (EAdd (EAdd (EVar sh) (EVar sb)) (EVar sg)) EQUAL
          (EConst p) ("solar_balance_" +:+ pretty t)).

(** 2. Load demand satisfaction *)
Definition load_balance (t : nat) : result Constr :=
  sh ← getitem_int P_solar_household t;
  bh ← getitem_int P_battery_household t;
  gh ← getitem_int P_grid_household t;
  load_demand ← getitem data "load_demand";
  d ← num_at load_demand t;
  mret (mkConstr (EAdd (EAdd (EVar sh) (EVar bh)) (EVar gh)) EQUAL
          (EConst d) ("load_balance_" +:+ pretty t)).

(** 3. Battery dynamics *)
Definition battery_dynamics (t : nat) : result Constr :=
  if decide (t = 0) then
    se ← getitem_int SE t;
    initial_soc ← getitem battery_params "initial_soc";
    capacity_kwh ← getitem battery_params "capacity_kwh";
    sb ← getitem_int P_solar_battery t;
    gb ← getitem_int P_grid_battery t;
    charge_efficiency ← getitem battery_params "charge_efficiency";
    bh ← getitem_int P_battery_household t;
    discharge_efficiency ← getitem battery_params "discharge_efficiency";
    discharged ← ediv (EMul (EVar bh) conversion_factor) discharge_efficiency;
    mret (mkConstr (EVar se) EQUAL
            (ESub
               (EAdd (EConst (initial_soc * capacity_kwh)%Q)
                  (EMul (EMul (EAdd (EVar sb) (EVar gb)) conversion_factor)
                     charge_efficiency))
               discharged)
            ("battery_dynamics_" +:+ pretty t))
  else
    se ← getitem_int SE t;
    se_prev ← getitem_int SE (t - 1);
    sb ← getitem_int P_solar_battery t;
    gb ← getitem_int P_grid_battery t;
    charge_efficiency ← getitem battery_params "charge_efficiency";
    bh ← getitem_int P_battery_household t;
    discharge_efficiency ← getitem battery_params "discharge_efficiency";
    discharged ← ediv (EMul (EVar bh) conversion_factor) discharge_efficiency;
    mret (mkConstr (EVar se) EQUAL
            (ESub
               (EAdd (EVar se_prev)
                  (EMul (EMul (EAdd (EVar sb) (EVar gb)) conversion_factor)
                     charge_efficiency))
               discharged)
            ("battery_dynamics_" +:+ pretty t)).

(** 4. Battery capacity limits *)
Definition soc_min (t : nat) : result Constr :=
  se ← getitem_int SE t;
  min_soc ← getitem battery_params "min_soc";
  capacity_kwh ← getitem battery_params "capacity_kwh";
  mret (mkConstr (EVar se) GREATER_EQUAL
          (EConst (min_soc * capacity_kwh)%Q) ("soc_min_" +:+ pretty t)).

Definition soc_max (t : nat) : result Constr :=
  se ← getitem_int SE t;
  max_soc ← getitem battery_params "max_soc";
  capacity_kwh ← getitem battery_params "capacity_kwh";
  mret (mkConstr (EVar se) LESS_EQUAL
          (EConst (max_soc * capacity_kwh)%Q) ("soc_max_" +:+ pretty t)).

(** 5. Charging rate limit *)
Definition charge_limit (t : nat) : result Constr :=
  sb ← getitem_int P_solar_battery t;
  gb ← getitem_int P_grid_battery t;
  max_charge_rate ← getitem battery_params "max_charge_rate";
  mret (mkConstr (EAdd (EVar sb) (EVar gb)) LESS_EQUAL
          (EConst max_charge_rate) ("charge_limit_" +:+ pretty t)).

(** 6. Discharging rate limit *)
Definition discharge_limit (t : nat) : result Constr :=
  bh ← getitem_int P_battery_household t;
  max_discharge_rate ← getitem battery_params "max_discharge_rate";
  mret (mkConstr (EVar bh) LESS_EQUAL
          (EConst max_discharge_rate) ("discharge_limit_" +:+ pretty t)).

(** 7. Charging / discharging linked to the binary indicators *)
Definition charge_binary (t : nat) : result Constr :=
  sb ← getitem_int P_solar_battery t;
  gb ← getitem_int P_grid_battery t;
  bc ← getitem_int BC t;
  max_charge_rate ← getitem battery_params "max_charge_rate";
  mret (mkConstr (EAdd (EVar sb) (EVar gb)) LESS_EQUAL
          (EMul (EVar bc) max_charge_rate) ("charge_binary_" +:+ pretty t)).

Definition discharge_binary (t : nat) : result Constr :=
  bh ← getitem_int P_battery_household t;
  bd ← getitem_int BD t;
  max_discharge_rate ← getitem battery_params "max_discharge_rate";
  mret (mkConstr (EVar bh) LESS_EQUAL
          (EMul (EVar bd) max_discharge_rate)
          ("discharge_binary_" +:+ pretty t)).

(** 8. No simultaneous charge and discharge *)
Definition no_simultaneous (t : nat) : result Constr :=
  bc ← getitem_int BC t;
  bd ← getitem_int BD t;
  mret (mkConstr (EAdd (EVar bc) (EVar bd)) LESS_EQUAL
          (EConst 1%Q) ("no_simultaneous_" +:+ pretty t)).

(** 9. Grid flow direction *)
Definition grid_flow_from (t : nat) : result Constr :=
  gh ← getitem_int P_grid_household t;
  gb ← getitem_int P_grid_battery t;
  gf ← getitem_int GF t;
  max_charge_rate ← getitem battery_params "max_charge_rate";
  load_demand ← getitem data "load_demand";
  max_load ← py_max load_demand;
  mret (mkConstr (EAdd (EVar gh) (EVar gb)) LESS_EQUAL
          (EMul (EVar gf) (max_charge_rate + max_load)%Q)
          ("grid_flow_from_" +:+ pretty t)).

Definition grid_flow_to (t : nat) : result Constr :=
  sg ← getitem_int P_solar_grid t;
  gf ← getitem_int GF t;
  solar_production ← getitem data "solar_production";
  max_solar ← py_max solar_production;
  mret (mkConstr (EVar sg) LESS_EQUAL
          (EMul (ESub (EConst 1%Q) (EVar gf)) max_solar)
          ("grid_flow_to_" +:+ pretty t)).

End Expressions.

(** The body of [create_milp_model] after [gp.Model(...)]; the state is
    the model under construction. *)
Definition build_model
    (data : gmap string pyobj) (battery_params cost_params : gmap string Q)
    (buy_rates : gmap nat Q)
  : M Model (gmap string (gmap nat Var)) :=
  time ← lift (getitem data "time");
  let T := len time in
  let time_steps := range T in
  P_solar_household ← addVars time_steps 0%Q CONTINUOUS "P_solar_household";
  P_solar_battery ← addVars time_steps 0%Q CONTINUOUS "P_solar_battery";
  P_solar_grid ← addVars time_steps 0%Q CONTINUOUS "P_solar_grid";
  P_battery_household ← addVars time_steps 0%Q CONTINUOUS "P_battery_household";
  P_grid_battery ← addVars time_steps 0%Q CONTINUOUS "P_grid_battery";
  P_grid_household ← addVars time_steps 0%Q CONTINUOUS "P_grid_household";
  SE ← addVars time_steps 0%Q CONTINUOUS "SE";
  BC ← addVars time_steps 0%Q BINARY "BC";
  BD ← addVars time_steps 0%Q BINARY "BD";
  GF ← addVars time_steps 0%Q BINARY "GF";
  terms ← lift (mapM (objective_term cost_params buy_rates
                        P_solar_grid P_grid_battery P_grid_household)
                  time_steps);
  setObjective (quicksum terms) MINIMIZE;;
  for_ time_steps (fun t =>
    c ← lift (solar_balance data P_solar_household P_solar_battery
                P_solar_grid t);
    addConstr c);;
  for_ time_steps (fun t =>
    c ← lift (load_balance data P_solar_household P_battery_household
                P_grid_household t);
    addConstr c);;
  for_ time_steps (fun t =>
    c ← lift (battery_dynamics battery_params P_solar_battery
                P_battery_household P_grid_battery SE t);
    addConstr c);;
  for_ time_steps (fun t =>
    c ← lift (soc_min battery_params SE t);
    addConstr c;;
    c ← lift (soc_max battery_params SE t);
    addConstr c);;
  for_ time_steps (fun t =>
    c ← lift (charge_limit battery_params P_solar_battery P_grid_battery t);
    addConstr c);;
  for_ time_steps (fun t =>
    c ← lift (discharge_limit battery_params P_battery_household t);
    addConstr c);;
  for_ time_steps (fun t =>
    c ← lift (charge_binary battery_params P_solar_battery P_grid_battery
                BC t);
    addConstr c;;
    c ← lift (discharge_binary battery_params P_battery_household BD t);
    addConstr c);;
  for_ time_steps (fun t =>
    c ← lift (no_simultaneous BC BD t);
    addConstr c);;
  for_ time_steps (fun t =>
    c ← lift (grid_flow_from data battery_params P_grid_battery
                P_grid_household GF t);
    addConstr c;;
    c ← lift (grid_flow_to data P_solar_grid GF t);
    addConstr c);;
  mret ({[ "P_solar_household" := P_solar_household;
           "P_solar_battery" := P_solar_battery;
           "P_solar_grid" := P_solar_grid;
           "P_battery_household" := P_battery_household;
           "P_grid_battery" := P_grid_battery;
           "P_grid_household" := P_grid_household;
           "SE" := SE;
           "BC" := BC;
           "BD" := BD;
           "GF" := GF ]} : gmap string (gmap nat Var)).

(** What a call leaves behind: the process environment, the model object
    in the state that the call reached, and either the dictionary of the
    variables (the model is then returned with it) or the exception. *)
Record outcome : Type := mkOutcome {
  environ_after : gmap string string;
  model_after : Model;
  returned : result (gmap string (gmap nat Var))
}.

(** [create_milp_model] with a Gurobi that opens a license and refuses no
    constraint; [guarded.create_milp_model] is the call with the failures
    of Gurobi itself. *)
Definition create_milp_model
    (GUROBI_LICENSE_FILE : option string) (environ : gmap string string)
    (data : gmap string pyobj) (battery_params cost_params : gmap string Q)
    (buy_rates : gmap nat Q)
  : outcome :=
  let environ' := config.setup_gurobi_env GUROBI_LICENSE_FILE environ in
  let model := new_Model "PV_Battery_Optimization" in
  let (model', r) :=
    build_model data battery_params cost_params buy_rates model in
  mkOutcome environ' model' r.

End model_builder.

(** ** solver.py and the solve branch of main.py *)

Module solver.

(** Status codes of [gurobipy.GRB]. *)
Definition OPTIMAL : Z := 2.
Definition INFEASIBLE : Z := 3.
Definition INF_OR_UNBD : Z := 4.
Definition UNBOUNDED : Z := 5.
Definition TIME_LIMIT : Z := 9.
Definition NUMERIC : Z := 12.

(** The model object as the solver sees it: the formulation, the
    parameters set so far, and the attributes that [optimize] fills in.
    Reading [objVal] or a variable's [X] raises when the engine holds no
    solution. *)
Record GModel : Type := mkGModel {
  formulation : Model;
  params : gmap string Q;
  status : Z;
  SolCount : Z;
  objVal : result Q;
  X : Var -> result Q
}.

(** The optimization engine, a black box: both calls update the model
    object and may raise. *)
Record Engine : Type := mkEngine {
  setParam : string -> Q -> M GModel unit;
  optimize : M GModel unit
}.

(** The lines that the program itself prints, by their format string.  What
    Gurobi writes to the terminal during [setParam] and [optimize] (its log)
    is not among them. *)
Inductive line : Type :=
| Optimal_solution_found (objVal : Q)
| Time_limit_reached (objVal : Q)
| Optimization_failed (status : Z)
| Gurobi_error (e : exn)
| Error_solving_model (e : exn)
| Model_solved_successfully
| Failed_to_solve_the_model.

(** Locations of the objects of the Python store. *)
Definition loc : Type := nat.

(** The values of the [results] dictionary: a reference to a sequence of
    the store, or a float. *)
Inductive pyval : Type :=
| VRef (l : loc)
| VFloat (q : Q).

(** The state that [solver.py] acts on: the model object, the lines that
    the [print] statements of the program wrote so far ([stdout]; Gurobi's
    own log is left out) and the store of the sequences. *)
Record PyState : Type := mkPyState {
  model : GModel;
  stdout : list line;
  heap : gmap loc pyobj
}.

(** A call on the model object. *)
Definition on_model {A} (op : M GModel A) : M PyState A :=
  fun s =>
    let (m', r) := op (model s) in
    (mkPyState m' (stdout s) (heap s), r).

(** Reading an attribute of the model object. *)
Definition attr {A} (f : GModel -> result A) : M PyState A :=
  fun s => (s, f (model s)).

Definition print (l : line) : M PyState unit :=
  modify (fun s => mkPyState (model s) (stdout s ++ [l]) (heap s)).

(** The object that a reference designates. *)
Definition deref (l : loc) : M PyState pyobj :=
  fun s =>
    (s, match heap s !! l with
        | Some o => Ok o
        | None => Raise SystemError
        end).

(** A new object of the store, at a location not yet in use. *)
Definition alloc (o : pyobj) : M PyState loc :=
  fun s =>
    let l := fresh (dom (heap s)) in
    (mkPyState (model s) (stdout s) (<[l := o]> (heap s)), Ok l).

(** [x / y] on floats *)
Definition pydiv (x y : Q) : result Q :=
  if Qeq_bool y 0%Q then Raise ZeroDivisionError else Ok (x / y)%Q.

(** The statements of the [try] block up to [model.optimize()]. *)
Definition set_params_and_optimize
    (engine : Engine) (time_limit gap : option Q) (verbose : bool)
  : M PyState unit :=
  match time_limit with
  | Some time_limit => on_model (setParam engine "TimeLimit" time_limit)
  | None => mret tt
  end;;
  match gap with
  | Some gap => on_model (setParam engine "MIPGap" gap)
  | None => mret tt
  end;;
  (if verbose then on_model (setParam engine "OutputFlag" 1%Q)
   else on_model (setParam engine "OutputFlag" 0%Q));;
  on_model (optimize engine).

(** The rest of the [try] block: the test of the status. *)
Definition check_status : M PyState bool :=
  st ← attr (fun m => Ok (status m));
  if decide (st = OPTIMAL) then
    v ← attr objVal;
    print (Optimal_solution_found v);;
    mret true
  else
    st ← attr (fun m => Ok (status m));
    if decide (st = TIME_LIMIT) then
      v ← attr objVal;
      print (Time_limit_reached v);;
      n ← attr (fun m => Ok (SolCount m));
      mret (if (0 <? n)%Z then true else false)
    else
      st ← attr (fun m => Ok (status m));
      print (Optimization_failed st);;
      mret false.

(** The two [except] clauses. *)
Definition report_exception (e : exn) : M PyState bool :=
  match e with
  | GurobiError _ => print (Gurobi_error e);; mret false
  | _ => print (Error_solving_model e);; mret false
  end.

Definition solve_milp
    (engine : Engine) (time_limit gap : option Q) (verbose : bool)
  : M PyState bool :=
  try_except
    (set_params_and_optimize engine time_limit gap verbose;;
     check_status)
    report_exception.

(** [[vars_dict[name][t].X for t in time_steps]] *)
Definition solved_values
    (vars_dict : gmap string (gmap nat Var)) (name : string)
    (time_steps : list nat) : M PyState loc :=
  xs ← attr (fun m =>
         mapM (fun t =>
                 vars ← getitem vars_dict name;
                 v ← getitem_int vars t;
                 X m v)
           time_steps);
  alloc (Nums xs).

Definition extract_results
    (vars_dict : gmap string (gmap nat Var)) (data : gmap string loc)
    (battery_params : gmap string Q)
  : M PyState (gmap string pyval) :=
  let results : gmap string pyval := ∅ in
  time ← lift (getitem data "time");
  time ← deref time;
  let time_steps := range (len time) in
  time ← lift (getitem data "time");
  let results := <["time" := VRef time]> results in
  solar_production ← lift (getitem data "solar_production");
  let results := <["solar_production" := VRef solar_production]> results in
  load_demand ← lift (getitem data "load_demand");
  let results := <["load_demand" := VRef load_demand]> results in
  l ← solved_values vars_dict "P_solar_household" time_steps;
  let results := <["P_solar_household" := VRef l]> results in
  l ← solved_values vars_dict "P_solar_battery" time_steps;
  let results := <["P_solar_battery" := VRef l]> results in
  l ← solved_values vars_dict "P_solar_grid" time_steps;
  let results := <["P_solar_grid" := VRef l]> results in
  l ← solved_values vars_dict "P_battery_household" time_steps;
  let results := <["P_battery_household" := VRef l]> results in
  l ← solved_values vars_dict "P_grid_battery" time_steps;
  let results := <["P_grid_battery" := VRef l]> results in
  l ← solved_values vars_dict "P_grid_household" time_steps;
  let results := <["P_grid_household" := VRef l]> results in
  l ← solved_values vars_dict "SE" time_steps;
  let results := <["SE" := VRef l]> results in
  xs ← attr (fun m =>
         mapM (fun t =>
                 vars ← getitem vars_dict "SE";
                 v ← getitem_int vars t;
                 x ← X m v;
                 capacity_kwh ← getitem battery_params "capacity_kwh";
                 q ← pydiv x capacity_kwh;
                 mret (q * 100)%Q)
           time_steps);
  l ← alloc (Nums xs);
  let results := <["SoC" := VRef l]> results in
  l ← solved_values vars_dict "BC" time_steps;
  let results := <["BC" := VRef l]> results in
  l ← solved_values vars_dict "BD" time_steps;
  let results := <["BD" := VRef l]> results in
  l ← solved_values vars_dict "GF" time_steps;
  let results := <["GF" := VRef l]> results in
  total_cost ← attr objVal;
  let results := <["total_cost" := VFloat total_cost]> results in
  mret results.

(** main.py, lines 59-75: the solve, and the extraction on success.
    [save_results] and [print_summary], which only report the result
    set, are left out. *)
Definition main_solve
    (engine : Engine) (vars_dict : gmap string (gmap nat Var))
    (data : gmap string loc) (battery_params : gmap string Q)
  : M PyState (option (gmap string pyval)) :=
  ok ← solve_milp engine (Some 300%Q) (Some (1 # 100)%Q) true;
  if (ok : bool) then
    print Model_solved_successfully;;
    results ← extract_results vars_dict data battery_params;
    mret (Some results)
  else
    print Failed_to_solve_the_model;;
    mret None.

End solver.

(** ** Straight-line forms of the loops *)

(** A loop of the builder evaluates, step after step, expressions that may
    raise and adds each constraint obtained; [run_stmts] is that run on the
    list of the evaluations. *)
Fixpoint run_stmts (rs : list (result Constr)) (m : Model) : Model * result unit :=
  match rs with
  | [] => (m, Ok tt)
  | Ok c :: rs' =>
      run_stmts rs'
        (mkModel (mname m) (variables m) (objective m) (modelsense m)
           (constrs m ++ [c]))
  | Raise e :: _ => (m, Raise e)
  end.

(** The sum of [f t] over the steps [t] of [l]. *)
Definition Qsum (f : nat -> Q) (l : list nat) : Q :=
  fold_right (fun t acc => (f t + acc)%Q) 0%Q l.

(** Python's [max] of a non-empty list (0 stands for the empty case, where
    Python raises). *)
Definition max_of (l : list Q) : Q :=
  match l with
  | [] => 0%Q
  | x :: l' => py_max_list x l'
  end.

(** A step of the builder that leaves the declared variables as they are,
    whether it raises or not. *)
Definition keeps_variables {A} (c : M Model A) : Prop :=
  forall m, variables (fst (c m)) = variables m.

(** The variables that the builder declares for a horizon of [T] steps. *)
Definition declared_variables (T : nat) : list VarDecl :=
  model_builder.declared (range T) 0%Q CONTINUOUS "P_solar_household" ++
  model_builder.declared (range T) 0%Q CONTINUOUS "P_solar_battery" ++
  model_builder.declared (range T) 0%Q CONTINUOUS "P_solar_grid" ++
  model_builder.declared (range T) 0%Q CONTINUOUS "P_battery_household" ++
  model_builder.declared (range T) 0%Q CONTINUOUS "P_grid_battery" ++
  model_builder.declared (range T) 0%Q CONTINUOUS "P_grid_household" ++
  model_builder.declared (range T) 0%Q CONTINUOUS "SE" ++
  model_builder.declared (range T) 0%Q BINARY "BC" ++
  model_builder.declared (range T) 0%Q BINARY "BD" ++
  model_builder.declared (range T) 0%Q BINARY "GF".

(** ** Conditions on the input of the builder *)

(** The configuration keys that the builder reads. *)
Definition battery_keys : list string :=
  [ "capacity_kwh"; "min_soc"; "max_soc"; "initial_soc";
    "charge_efficiency"; "discharge_efficiency";
    "max_charge_rate"; "max_discharge_rate" ].

(** What the subscripts and the division of the builder need when the
    horizon has [T] steps: numeric series with an entry for each step, a
    rate for each step, the configuration keys, and a discharge efficiency
    other than 0. *)
Definition builder_input_ok
    (data : gmap string pyobj) (battery_params cost_params : gmap string Q)
    (buy_rates : gmap nat Q) (T : nat) : Prop :=
  (exists solar, data !! "solar_production" = Some (Nums solar) /\
                 (T <= length solar)%nat) /\
  (exists load, data !! "load_demand" = Some (Nums load) /\
                (T <= length load)%nat) /\
  (forall t, (t < T)%nat -> is_Some (buy_rates !! t)) /\
  is_Some (cost_params !! "sell_price") /\
  (forall k, In k battery_keys -> is_Some (battery_params !! k)) /\
  (forall e, battery_params !! "discharge_efficiency" = Some e ->
             ~ (e == 0)%Q).

(** The invariant of the data model, [T = len(solar_production) =
    len(load_demand) = len(buy_rate_map)], and the presence of the
    configuration keys. *)
Definition series_lengths_consistent
    (data : gmap string pyobj) (buy_rates : gmap nat Q) : Prop :=
  exists time solar load,
    data !! "time" = Some time /\
    data !! "solar_production" = Some solar /\
    data !! "load_demand" = Some load /\
    len solar = len time /\ len load = len time /\
    size buy_rates = len time.

Definition config_keys_present
    (battery_params cost_params : gmap string Q) : Prop :=
  (forall k, In k battery_keys -> is_Some (battery_params !! k)) /\
  is_Some (cost_params !! "sell_price").

(** ** The calls that [solve_milp] makes on the engine *)

(** The parameter settings and the optimization, in the order of
    [solve_milp], as one computation on the model object. *)
Definition engine_calls
    (engine : solver.Engine) (time_limit gap : option Q) (verbose : bool)
  : M solver.GModel unit :=
  match time_limit with
  | Some time_limit => solver.setParam engine "TimeLimit" time_limit
  | None => mret tt
  end;;
  match gap with
  | Some gap => solver.setParam engine "MIPGap" gap
  | None => mret tt
  end;;
  (if verbose then solver.setParam engine "OutputFlag" 1%Q
   else solver.setParam engine "OutputFlag" 0%Q);;
  solver.optimize engine.

(** A computation of [solver.py] that acts on the model object only, as
    the computation [c] on model objects does. *)
Definition on_model_only {A} (c : M solver.GModel A) (C : M solver.PyState A)
  : Prop :=
  forall s,
    C s =
    (solver.mkPyState (fst (c (solver.model s))) (solver.stdout s)
       (solver.heap s),
     snd (c (solver.model s))).

(** The names of the ten families of decision variables. *)
Definition families : list string :=
  [ "P_solar_household"; "P_solar_battery"; "P_solar_grid";
    "P_battery_household"; "P_grid_battery"; "P_grid_household";
    "SE"; "BC"; "BD"; "GF" ].

(** The keys of [data] that [extract_results] copies into the result set. *)
Definition input_keys : list string :=
  [ "time"; "solar_production"; "load_demand" ].

(** The content of a result set in the store [h]: the references to the
    three input series, one list of solved values [x name t] per family of
    variables, the list of the percentages [x "SE" t / capacity * 100], and
    the total cost. *)
Definition holds_result_set
    (h : gmap solver.loc pyobj) (results : gmap string solver.pyval)
    (l_time l_solar l_load : solver.loc) (T : nat)
    (x : string -> nat -> Q) (capacity_kwh total_cost : Q) : Prop :=
  results !! "time" = Some (solver.VRef l_time) /\
  results !! "solar_production" = Some (solver.VRef l_solar) /\
  results !! "load_demand" = Some (solver.VRef l_load) /\
  (forall name, In name families ->
     exists l, results !! name = Some (solver.VRef l) /\
       h !! l = Some (Nums (map (x name) (range T)))) /\
  (exists l, results !! "SoC" = Some (solver.VRef l) /\
     h !! l =
     Some (Nums (map (fun t => (x "SE" t / capacity_kwh * 100)%Q) (range T)))) /\
  results !! "total_cost" = Some (solver.VFloat total_cost).

(** A computation of [solver.py] that leaves the objects of the store where
    they are, whether it raises or not. *)
Definition keeps_store {A} (c : M solver.PyState A) : Prop :=
  forall s, solver.heap s ⊆ solver.heap (fst (c s)).

(** ** gurobipy's own failures *)

(** What the builder meets of the Gurobi library besides the construction
    itself, as two black boxes.  [gp.Model(...)] starts Gurobi's default
    environment, which opens the license that the process environment
    selects: [start] gives the error number when that fails.
    [model.addConstr(...)] refuses a constraint with a number that is not
    finite, as the float sum [max_charge_rate + max(load_demand)] is when it
    overflows; the numbers of this embedding are exact, so which constraints
    are refused is left to [rejects], which gives the error number of a
    refusal.  Either failure raises [gp.GurobiError]. *)
Record Gurobi : Type := mkGurobi {
  start : gmap string string -> option Z;
  rejects : Constr -> option Z
}.

(** [gp.Model(name)] *)
Definition gp_Model
    (gurobi : Gurobi) (environ : gmap string string) (name : string)
  : result Model :=
  match start gurobi environ with
  | Some errno => Raise (GurobiError errno)
  | None => Ok (new_Model name)
  end.

(** [model_builder.py] with these failures: the module [model_builder]
    above is the same code for a Gurobi that starts and refuses nothing. *)
Module guarded.

(** [model.addConstr(c)] *)
Definition addConstr (gurobi : Gurobi) (c : Constr) : M Model unit :=
  fun m =>
    match rejects gurobi c with
    | Some errno => (m, Raise (GurobiError errno))
    | None => model_builder.addConstr c m
    end.

(** The body of [create_milp_model] after [gp.Model(...)]. *)
Definition build_model
    (gurobi : Gurobi)
    (data : gmap string pyobj) (battery_params cost_params : gmap string Q)
    (buy_rates : gmap nat Q)
  : M Model (gmap string (gmap nat Var)) :=
  time ← lift (getitem data "time");
  let T := len time in
  let time_steps := range T in
  P_solar_household ←
    model_builder.addVars time_steps 0%Q CONTINUOUS "P_solar_household";
  P_solar_battery ←
    model_builder.addVars time_steps 0%Q CONTINUOUS "P_solar_battery";
  P_solar_grid ←
    model_builder.addVars time_steps 0%Q CONTINUOUS "P_solar_grid";
  P_battery_household ←
    model_builder.addVars time_steps 0%Q CONTINUOUS "P_battery_household";
  P_grid_battery ←
    model_builder.addVars time_steps 0%Q CONTINUOUS "P_grid_battery";
  P_grid_household ←
    model_builder.addVars time_steps 0%Q CONTINUOUS "P_grid_household";
  SE ← model_builder.addVars time_steps 0%Q CONTINUOUS "SE";
  BC ← model_builder.addVars time_steps 0%Q BINARY "BC";
  BD ← model_builder.addVars time_steps 0%Q BINARY "BD";
  GF ← model_builder.addVars time_steps 0%Q BINARY "GF";
  terms ← lift (mapM (model_builder.objective_term cost_params buy_rates
                        P_solar_grid P_grid_battery P_grid_household)
                  time_steps);
  model_builder.setObjective (quicksum terms) MINIMIZE;;
  for_ time_steps (fun t =>
    c ← lift (model_builder.solar_balance data P_solar_household
                P_solar_battery P_solar_grid t);
    addConstr gurobi c);;
  for_ time_steps (fun t =>
    c ← lift (model_builder.load_balance data P_solar_household
                P_battery_household P_grid_household t);
    addConstr gurobi c);;
  for_ time_steps (fun t =>
    c ← lift (model_builder.battery_dynamics battery_params P_solar_battery
                P_battery_household P_grid_battery SE t);
    addConstr gurobi c);;
  for_ time_steps (fun t =>
    c ← lift (model_builder.soc_min battery_params SE t);
    addConstr gurobi c;;
    c ← lift (model_builder.soc_max battery_params SE t);
    addConstr gurobi c);;
  for_ time_steps (fun t =>
    c ← lift (model_builder.charge_limit battery_params P_solar_battery
                P_grid_battery t);
    addConstr gurobi c);;
  for_ time_steps (fun t =>
    c ← lift (model_builder.discharge_limit battery_params
                P_battery_household t);
    addConstr gurobi c);;
  for_ time_steps (fun t =>
    c ← lift (model_builder.charge_binary battery_params P_solar_battery
                P_grid_battery BC t);
    addConstr gurobi c;;
    c ← lift (model_builder.discharge_binary battery_params
                P_battery_household BD t);
    addConstr gurobi c);;
  for_ time_steps (fun t =>
    c ← lift (model_builder.no_simultaneous BC BD t);
    addConstr gurobi c);;
  for_ time_steps (fun t =>
    c ← lift (model_builder.grid_flow_from data battery_params P_grid_battery
                P_grid_household GF t);
    addConstr gurobi c;;
    c ← lift (model_builder.grid_flow_to data P_solar_grid GF t);
    addConstr gurobi c);;
  mret ({[ "P_solar_household" := P_solar_household;
           "P_solar_battery" := P_solar_battery;
           "P_solar_grid" := P_solar_grid;
           "P_battery_household" := P_battery_household;
           "P_grid_battery" := P_grid_battery;
           "P_grid_household" := P_grid_household;
           "SE" := SE;
           "BC" := BC;
           "BD" := BD;
           "GF" := GF ]} : gmap string (gmap nat Var)).

(** What a call leaves behind: the process environment, the model object
    in the state that the call reached, if [gp.Model(...)] created one, and
    either the dictionary of the variables or the exception. *)
Record run : Type := mkRun {
  environ_of : gmap string string;
  model_of : option Model;
  result_of : result (gmap string (gmap nat Var))
}.

Definition create_milp_model
    (gurobi : Gurobi)
    (GUROBI_LICENSE_FILE : option string) (environ : gmap string string)
    (data : gmap string pyobj) (battery_params cost_params : gmap string Q)
    (buy_rates : gmap nat Q)
  : run :=
  let environ' := config.setup_gurobi_env GUROBI_LICENSE_FILE environ in
  match gp_Model gurobi environ' "PV_Battery_Optimization" with
  | Raise e => mkRun environ' None (Raise e)
  | Ok model =>
      let (model', r) :=
        build_model gurobi data battery_params cost_params buy_rates model in
      mkRun environ' (Some model') r
  end.

End guarded.

(** Gurobi refuses none of the constraints of the model [m]. *)
Definition accepts_model (gurobi : Gurobi) (m : Model) : Prop :=
  forall k, In k (constrs m) -> rejects gurobi k = None.

(** The computation [cg], which meets Gurobi's refusals, follows the
    computation [ci], which meets none: [ci] only adds constraints, [cg] does
    what [ci] does when all of them pass [acc], and [cg] returns only then. *)
Definition follows {A} (acc : Constr -> Prop) (cg ci : M Model A) : Prop :=
  forall m,
    exists added,
      constrs (fst (ci m)) = (constrs m ++ added)%list /\
      (Forall acc added -> cg m = ci m) /\
      (is_Ok (snd (cg m)) -> Forall acc added).

(** The two balances of step [t], for the series [solar] and [load]. *)
Definition solar_balance_of (solar : list Q) (t : nat) : Constr :=
  mkConstr
    (EAdd (EAdd (EVar (mkVar "P_solar_household" t))
             (EVar (mkVar "P_solar_battery" t)))
       (EVar (mkVar "P_solar_grid" t)))
    EQUAL (EConst (nth t solar 0%Q)) ("solar_balance_" +:+ pretty t).

Definition load_balance_of (load : list Q) (t : nat) : Constr :=
  mkConstr
    (EAdd (EAdd (EVar (mkVar "P_solar_household" t))
             (EVar (mkVar "P_battery_household" t)))
       (EVar (mkVar "P_grid_household" t)))
    EQUAL (EConst (nth t load 0%Q)) ("load_balance_" +:+ pretty t).

(** ** A dispatch that does not use the battery *)

(** Solar power serves the load first; what is left of it is exported, what
    is missing is bought; the battery keeps the energy [stored]. *)
Definition grid_only_dispatch (solar load : list Q) (stored : Q) (v : Var) : Q :=
  let p := nth (vidx v) solar 0%Q in
  let d := nth (vidx v) load 0%Q in
  if decide (vname v = "P_solar_household") then
    (if Qlt_le_dec p d then p else d)
  else if decide (vname v = "P_solar_grid") then
    (if Qlt_le_dec p d then 0 else p - d)%Q
  else if decide (vname v = "P_grid_household") then
    (if Qlt_le_dec p d then d - p else 0)%Q
  else if decide (vname v = "SE") then stored
  else if decide (vname v = "GF") then
    (if Qlt_le_dec p d then 1 else 0)%Q
  else 0%Q.

(** ** The key of the rate table that an hour reads *)

Definition band_key (h : Z) : string :=
  if ((2 <=? h) && (h <? 4))%Z then "boost_rate"
  else if ((23 <=? h) || (h <? 8))%Z then "night_rate"
  else "day_rate".

(** ** main.py: the constants, and the steps up to the model *)

Module main.

(** Lines 24-33 *)
Definition battery_params : gmap string Q :=
  {[ "capacity_kwh" := (48 # 10)%Q;
     "min_soc" := (11 # 100)%Q;
     "max_soc" := 1%Q;
     "initial_soc" := (22 # 100)%Q;
     "charge_efficiency" := (95 # 100)%Q;
     "discharge_efficiency" := (95 # 100)%Q;
     "max_charge_rate" := 2780%Q;
     "max_discharge_rate" := 2370%Q ]}.

(** Lines 37-42 *)
Definition cost_params : gmap string Q :=
  {[ "day_rate" := (3634 # 10000)%Q;
     "night_rate" := (1792 # 10000)%Q;
     "boost_rate" := (1052 # 10000)%Q;
     "sell_price" := (195 # 1000)%Q ]}.

(** Lines 47-53: the rates, then the model, for the loaded [data]. *)
Definition rates_and_model
    (gurobi : Gurobi)
    (GUROBI_LICENSE_FILE : option string) (environ : gmap string string)
    (data : gmap string pyobj)
  : result guarded.run :=
  buy_rates ← data_loader.get_time_of_use_rates data cost_params;
  mret (guarded.create_milp_model gurobi GUROBI_LICENSE_FILE environ
          data battery_params cost_params buy_rates).

End main.

(** ** Reading the result set *)

(** The report of an exception, by its class. *)
Definition report_of (e : exn) : solver.line :=
  match e with
  | GurobiError _ => solver.Gurobi_error e
  | _ => solver.Error_solving_model e
  end.

(** The keys of the result set, in the order of their assignment. *)
Definition result_keys : list string :=
  [ "time"; "solar_production"; "load_demand";
    "P_solar_household"; "P_solar_battery"; "P_solar_grid";
    "P_battery_household"; "P_grid_battery"; "P_grid_household";
    "SE"; "SoC"; "BC"; "BD"; "GF"; "total_cost" ].

(** The state [cur] was reached from [s0] by allocations only. *)
Definition extends (s0 cur : solver.PyState) : Prop :=
  solver.heap s0 ⊆ solver.heap cur /\
  solver.model cur = solver.model s0 /\
  solver.stdout cur = solver.stdout s0.

(** ** Concrete inputs, used to exercise the statements below *)

Module sample.

(** Two steps, at 03:00 and at 12:05. *)
Definition data : gmap string pyobj :=
  {[ "time" := Times [mkTimestamp 3 0; mkTimestamp 12 5];
     "solar_production" := Nums [100%Q; 200%Q];
     "load_demand" := Nums [50%Q; 300%Q] ]}.

(** The battery and the tariff of [main.py]. *)
Definition battery_params : gmap string Q :=
  {[ "capacity_kwh" := (48 # 10)%Q;
     "min_soc" := (11 # 100)%Q;
     "max_soc" := 1%Q;
     "initial_soc" := (22 # 100)%Q;
     "charge_efficiency" := (95 # 100)%Q;
     "discharge_efficiency" := (95 # 100)%Q;
     "max_charge_rate" := 2780%Q;
     "max_discharge_rate" := 2370%Q ]}.

Definition cost_params : gmap string Q :=
  {[ "day_rate" := (3634 # 10000)%Q;
     "night_rate" := (1792 # 10000)%Q;
     "boost_rate" := (1052 # 10000)%Q;
     "sell_price" := (195 # 1000)%Q ]}.

Definition buy_rates : gmap nat Q :=
  {[ 0%nat := (1052 # 10000)%Q; 1%nat := (3634 # 10000)%Q ]}.

Definition rate (t : nat) : Q :=
  match t with
  | O => (1052 # 10000)%Q
  | _ => (3634 # 10000)%Q
  end.

Definition built : model_builder.outcome :=
  model_builder.create_milp_model None ∅
    data battery_params cost_params buy_rates.

(** An engine that records the parameters and reports an optimum of
    cost 0 in which every variable is 0. *)
Definition engine : solver.Engine :=
  solver.mkEngine
    (fun name value =>
       modify (fun m =>
         solver.mkGModel (solver.formulation m)
           (<[name := value]> (solver.params m))
           (solver.status m) (solver.SolCount m) (solver.objVal m)
           (solver.X m)))
    (modify (fun m =>
       solver.mkGModel (solver.formulation m) (solver.params m)
         solver.OPTIMAL 1%Z (Ok 0%Q) (fun _ => Ok 0%Q))).

(** The model of [built] before the solve, nothing printed, and the three
    input series at the locations 0, 1 and 2 of the store. *)
Definition state : solver.PyState :=
  solver.mkPyState
    (solver.mkGModel (model_builder.model_after built) ∅ 1%Z 0%Z
       (Raise AttributeError) (fun _ => Raise AttributeError))
    []
    {[ 0%nat := Times [mkTimestamp 3 0; mkTimestamp 12 5];
       1%nat := Nums [100%Q; 200%Q];
       2%nat := Nums [50%Q; 300%Q] ]}.

Definition data_refs : gmap string solver.loc :=
  {[ "time" := 0%nat; "solar_production" := 1%nat; "load_demand" := 2%nat ]}.

(** The variables that the builder returned. *)
Definition vars_dict : gmap string (gmap nat Var) :=
  match model_builder.returned built with
  | Ok vars => vars
  | Raise _ => ∅
  end.

(** The state after the solve of [main.py]. *)
Definition solved : solver.PyState :=
  fst (solver.solve_milp engine (Some 300%Q) (Some (1 # 100)%Q) true state).

(** The same two steps, with a third entry in [solar_production]. *)
Definition longer_data : gmap string pyobj :=
  {[ "time" := Times [mkTimestamp 3 0; mkTimestamp 12 5];
     "solar_production" := Nums [100%Q; 200%Q; 400%Q];
     "load_demand" := Nums [50%Q; 300%Q] ]}.


(** The dispatch of [data] without battery, from the initial energy
    [0.22 * 4.8]. *)
Definition dispatch : Var -> Q :=
  grid_only_dispatch [100%Q; 200%Q] [50%Q; 300%Q] ((22 # 100) * (48 # 10))%Q.

(** No time step at all. *)
Definition no_step : gmap string pyobj := {[ "time" := Times [] ]}.

(** Three steps, with two entries of solar production only. *)
Definition three_steps : gmap string pyobj :=
  {[ "time" := Times [mkTimestamp 3 0; mkTimestamp 12 5; mkTimestamp 23 10];
     "solar_production" := Nums [100%Q; 200%Q];
     "load_demand" := Nums [50%Q; 300%Q; 80%Q] ]}.

Definition three_rates : gmap nat Q :=
  {[ 0%nat := (1052 # 10000)%Q; 1%nat := (3634 # 10000)%Q;
     2%nat := (1792 # 10000)%Q ]}.

(** One step at 12:05, and a rate table with the day rate only. *)
Definition noon : gmap string pyobj := {[ "time" := Times [mkTimestamp 12 5] ]}.

Definition day_only : gmap string Q := {[ "day_rate" := (3634 # 10000)%Q ]}.

(** The model object after a solve that found [dispatch], the input series
    in the store as in [state]. *)
Definition dispatched : solver.PyState :=
  solver.mkPyState
    (solver.mkGModel (model_builder.model_after built) ∅ solver.OPTIMAL 1%Z
       (Ok 0%Q) (fun v => Ok (dispatch v)))
    []
    {[ 0%nat := Times [mkTimestamp 3 0; mkTimestamp 12 5];
       1%nat := Nums [100%Q; 200%Q];
       2%nat := Nums [50%Q; 300%Q] ]}.

(** A Gurobi that starts with any environment and refuses no constraint. *)
Definition gurobi : Gurobi := mkGurobi (fun _ => None) (fun _ => None).


Definition unlicensed : Gurobi :=
  mkGurobi (fun _ => Some 10009%Z) (fun _ => None).

(** The battery of [battery_params] without capacity, the dispatch
    without battery for it, and the model object after a solve that found
    this dispatch. *)
Definition flat_params : gmap string Q :=
  <["capacity_kwh" := 0%Q]> battery_params.

Definition flat_built : model_builder.outcome :=
  model_builder.create_milp_model None ∅ data flat_params cost_params
    buy_rates.

Definition flat_dispatch : Var -> Q :=
  grid_only_dispatch [100%Q; 200%Q] [50%Q; 300%Q] ((22 # 100) * 0)%Q.

Definition flat_engine : solver.Engine :=
  solver.mkEngine
    (fun name value =>
       modify (fun m =>
         solver.mkGModel (solver.formulation m)
           (<[name := value]> (solver.params m))
           (solver.status m) (solver.SolCount m) (solver.objVal m)
           (solver.X m)))
    (modify (fun m =>
       solver.mkGModel (solver.formulation m) (solver.params m)
         solver.OPTIMAL 1%Z
         (Ok (eval flat_dispatch (objective (solver.formulation m))))
         (fun v => Ok (flat_dispatch v)))).

Definition flat_state : solver.PyState :=
  solver.mkPyState
    (solver.mkGModel (model_builder.model_after flat_built) ∅ 1%Z 0%Z
       (Raise AttributeError) (fun _ => Raise AttributeError))
    []
    {[ 0%nat := Times [mkTimestamp 3 0; mkTimestamp 12 5];
       1%nat := Nums [100%Q; 200%Q];
       2%nat := Nums [50%Q; 300%Q] ]}.

Definition flat_vars_dict : gmap string (gmap nat Var) :=
  match model_builder.returned flat_built with
  | Ok vars => vars
  | Raise _ => ∅
  end.
End sample.

(** * Properties *)

(** ** The monad *)

Lemma bind_run {S A B} (m : M S A) (k : A -> M S B) (s : S) :
  (m ≫= k) s =
  match m s with
  | (s', Ok a) => k a s'
  | (s', Raise e) => (s', Raise e)
  end.
Proof. reflexivity. Qed.

Lemma bind_lift_Ok {S A B} (r : result A) (a : A) (k : A -> M S B) (s : S) :
  r = Ok a -> (lift r ≫= k) s = k a s.
Proof. intros ->. reflexivity. Qed.

(** A loop whose body never raises folds the bodies' updates. *)
Lemma for_updates {S} (g : nat -> S -> S) (body : nat -> M S unit) (l : list nat) :
  (forall t, In t l -> forall s, body t s = (g t s, Ok tt)) ->
  forall s, for_ l body s = (fold_left (fun s t => g t s) l s, Ok tt).
Proof.
  induction l as [|t l IH]; intros Hbody s.
  - reflexivity.
  - cbn [for_ fold_left]. rewrite bind_run, (Hbody t (or_introl eq_refl)).
    apply IH. intros t' Ht'. apply Hbody. now right.
Qed.

(** ** data_loader.py *)

Section TariffMapper.

Variable data : gmap string pyobj.
Variable cost_params : gmap string Q.
Variable times : list Timestamp.
Variables boost night day : Q.

Hypothesis Htime : data !! "time" = Some (Times times).
Hypothesis Hboost : cost_params !! "boost_rate" = Some boost.
Hypothesis Hnight : cost_params !! "night_rate" = Some night.
Hypothesis Hday : cost_params !! "day_rate" = Some day.

(** The rate that the loop stores for a timestamp. *)
Let rate_of (ts : Timestamp) : Q :=
  if ((2 <=? hour ts) && (hour ts <? 4))%Z then boost
  else if ((23 <=? hour ts) || (hour ts <? 8))%Z then night
  else day.

Let rate_at (t : nat) : Q :=
  match times !! t with
  | Some ts => rate_of ts
  | None => day
  end.

Lemma tou_body_step (t : nat) (ts : Timestamp) (buy_rates : gmap nat Q) :
  times !! t = Some ts ->
  data_loader.get_time_of_use_rates_body data cost_params t buy_rates =
  (<[t := rate_at t]> buy_rates, Ok tt).
Proof using Htime Hboost Hnight Hday.
  intros Ht. unfold data_loader.get_time_of_use_rates_body.
  rewrite (bind_lift_Ok _ (Times times)) by (unfold getitem; now rewrite Htime).
  rewrite (bind_lift_Ok _ (hour ts)) by (cbn; now rewrite Ht).
  unfold rate_at, rate_of. rewrite Ht.
  destruct ((2 <=? hour ts) && (hour ts <? 4))%Z.
  - rewrite (bind_lift_Ok _ boost) by (unfold getitem; now rewrite Hboost).
    reflexivity.
  - destruct ((23 <=? hour ts) || (hour ts <? 8))%Z.
    + rewrite (bind_lift_Ok _ night) by (unfold getitem; now rewrite Hnight).
      reflexivity.
    + rewrite (bind_lift_Ok _ day) by (unfold getitem; now rewrite Hday).
      reflexivity.
Qed.

Lemma lookup_fold_insert (f : nat -> Q) (l : list nat) (m : gmap nat Q) (t : nat) :
  fold_left (fun m t => <[t := f t]> m) l m !! t =
  if decide (t ∈ l) then Some (f t) else m !! t.
Proof.
  revert m. induction l as [|u l IH]; intros m; cbn [fold_left].
  - rewrite decide_False; [reflexivity | apply not_elem_of_nil].
  - rewrite IH. destruct (decide (t ∈ l)) as [Hin|Hnin].
    + rewrite decide_True; [reflexivity | apply elem_of_cons; now right].
    + destruct (decide (u = t)) as [->|Hne].
      * rewrite lookup_insert_eq, decide_True; [reflexivity | apply elem_of_cons; now left].
      * rewrite lookup_insert_ne by assumption.
        rewrite decide_False; [reflexivity|].
        intros [?|?]%elem_of_cons; congruence.
Qed.

Lemma get_time_of_use_rates_run :
  data_loader.get_time_of_use_rates data cost_params =
  Ok (fold_left (fun m t => <[t := rate_at t]> m) (range (length times)) ∅).
Proof using Htime Hboost Hnight Hday.
  unfold data_loader.get_time_of_use_rates.
  rewrite (bind_lift_Ok _ (Times times)) by (unfold getitem; now rewrite Htime).
  cbn [len].
  rewrite (for_updates (fun t m => <[t := rate_at t]> m)); [reflexivity|].
  intros t Hin s. apply in_seq in Hin.
  destruct (times !! t) as [ts|] eqn:Ht.
  - now apply tou_body_step with ts.
  - apply lookup_ge_None in Ht. lia.
Qed.

(** C5. For a timestamp sequence and a rate table holding the boost, the
    night and the day rate, [get_time_of_use_rates] returns (it does not
    raise) a mapping defined on the step indices [0 <= t < T] exactly,
    which gives step [t] the boost rate when the hour [h] of its timestamp
    satisfies [2 <= h < 4], otherwise the night rate when [h >= 23] or
    [h < 8], otherwise the day rate. *)
Theorem get_time_of_use_rates_bands :
  exists buy_rates : gmap nat Q,
    data_loader.get_time_of_use_rates data cost_params = Ok buy_rates /\
    (forall t, (length times <= t)%nat -> buy_rates !! t = None) /\
    (forall t ts, times !! t = Some ts ->
       exists r, buy_rates !! t = Some r /\
         ((2 <= hour ts < 4)%Z -> r = boost) /\
         (~ (2 <= hour ts < 4)%Z -> (23 <= hour ts \/ hour ts < 8)%Z ->
          r = night) /\
         (~ (2 <= hour ts < 4)%Z -> ~ (23 <= hour ts \/ hour ts < 8)%Z ->
          r = day)).
Proof using Htime Hboost Hnight Hday.
  eexists. split; [apply get_time_of_use_rates_run|]. split.
  - intros t Hle. rewrite lookup_fold_insert, decide_False.
    + apply lookup_empty.
    + unfold range. rewrite elem_of_seq. lia.
  - intros t ts Ht. exists (rate_of ts). split.
    + rewrite lookup_fold_insert, decide_True.
      * unfold rate_at. now rewrite Ht.
      * unfold range. rewrite elem_of_seq. apply lookup_lt_Some in Ht. lia.
    + unfold rate_of. repeat split; intros;
        destruct (Z.leb_spec 2 (hour ts)), (Z.ltb_spec (hour ts) 4),
          (Z.leb_spec 23 (hour ts)), (Z.ltb_spec (hour ts) 8);
        cbn; try reflexivity; lia.
Qed.

End TariffMapper.

(** The two steps of [sample.data]: 03:00 is in the boost band, which lies
    inside the night band; 12:05 is in the day band. *)
Lemma get_time_of_use_rates_bands_sample :
  exists buy_rates : gmap nat Q,
    data_loader.get_time_of_use_rates sample.data sample.cost_params =
    Ok buy_rates /\
    buy_rates !! 0%nat = Some (1052 # 10000)%Q /\
    buy_rates !! 1%nat = Some (3634 # 10000)%Q /\
    buy_rates !! 2%nat = None.
Proof.
  destruct (get_time_of_use_rates_bands sample.data sample.cost_params
              [mkTimestamp 3 0; mkTimestamp 12 5]
              (1052 # 10000)%Q (1792 # 10000)%Q (3634 # 10000)%Q
              eq_refl eq_refl eq_refl eq_refl)
    as (buy_rates & Hrun & Hout & Hin).
  exists buy_rates. split; [exact Hrun|]. split; [|split].
  - destruct (Hin 0%nat _ eq_refl) as (r & Hr & Hb & _).
    rewrite Hr. f_equal. apply Hb. cbn. lia.
  - destruct (Hin 1%nat _ eq_refl) as (r & Hr & _ & _ & Hd).
    rewrite Hr. f_equal. apply Hd; cbn; lia.
  - apply Hout. cbn. lia.
Defined.

(** ** Loops that add constraints *)

Lemma for_addConstr (e : nat -> result Constr) (l : list nat) (m : Model) :
  for_ l (fun t => c ← lift (e t); model_builder.addConstr c) m =
  run_stmts (map e l) m.
Proof.
  revert m. induction l as [|t l IH]; intros m; [reflexivity|].
  cbn [for_ map run_stmts]. rewrite bind_run, bind_run. unfold lift.
  destruct (e t) as [c|x]; [|reflexivity]. apply IH.
Qed.

Lemma for_addConstr2 (e1 e2 : nat -> result Constr) (l : list nat) (m : Model) :
  for_ l (fun t =>
            c ← lift (e1 t); model_builder.addConstr c;;
            c ← lift (e2 t); model_builder.addConstr c) m =
  run_stmts (flat_map (fun t => [e1 t; e2 t]) l) m.
Proof.
  revert m. induction l as [|t l IH]; intros m; [reflexivity|].
  cbn [for_ flat_map app run_stmts]. rewrite bind_run, bind_run. unfold lift at 1.
  destruct (e1 t) as [c1|x]; [|reflexivity].
  rewrite bind_run. cbn [model_builder.addConstr modify]. rewrite bind_run.
  unfold lift at 1.
  destruct (e2 t) as [c2|x]; [|reflexivity]. apply IH.
Qed.

Lemma run_stmts_Ok (cs : list Constr) (m : Model) :
  run_stmts (map Ok cs) m =
  (mkModel (mname m) (variables m) (objective m) (modelsense m)
     (constrs m ++ cs), Ok tt).
Proof.
  revert m. induction cs as [|c cs IH]; intros m; cbn [map run_stmts].
  - rewrite app_nil_r. now destruct m.
  - rewrite IH. cbn. now rewrite <- app_assoc.
Qed.

Lemma run_stmts_Ok_inv (rs : list (result Constr)) (m m' : Model) (u : unit) :
  run_stmts rs m = (m', Ok u) -> forall r, In r rs -> is_Ok r.
Proof.
  revert m. induction rs as [|r0 rs IH]; intros m Hrun r Hin; [destruct Hin|].
  destruct r0 as [c|x]; cbn [run_stmts] in Hrun; [|discriminate].
  destruct Hin as [<-|Hin]; [exact I|]. eapply IH; eassumption.
Qed.

Lemma mapM_Ok {A B} (f : A -> result B) (g : A -> B) (l : list A) :
  (forall x, In x l -> f x = Ok (g x)) -> mapM f l = Ok (map g l).
Proof.
  induction l as [|x l IH]; intros Hf; [reflexivity|].
  cbn [mapM map]. rewrite (Hf x (or_introl eq_refl)).
  rewrite IH by (intros y Hy; apply Hf; now right). reflexivity.
Qed.

Lemma mapM_Ok_inv {A B} (f : A -> result B) (l : list A) (ys : list B) :
  mapM f l = Ok ys -> forall x, In x l -> is_Ok (f x).
Proof.
  revert ys. induction l as [|x0 l IH]; intros ys Hm x Hin; [destruct Hin|].
  cbn [mapM] in Hm. destruct (f x0) as [y|e] eqn:Hx0; [|discriminate].
  destruct Hin as [<-|Hin]; [now rewrite Hx0|].
  destruct (mapM f l) as [k|e] eqn:Hl; [|discriminate].
  eapply IH; [reflexivity|assumption].
Qed.

Lemma bind_addVars {B} (l : list nat) (lb : Q) (vt : vtype) (name : string)
    (k : gmap nat Var -> M Model B) (m : Model) :
  (model_builder.addVars l lb vt name ≫= k) m =
  k (model_builder.tupledict l name)
    (mkModel (mname m) (variables m ++ model_builder.declared l lb vt name)
       (objective m) (modelsense m) (constrs m)).
Proof. reflexivity. Qed.

Lemma tupledict_lookup_seq (name : string) (a n t : nat) :
  model_builder.tupledict (seq a n) name !! t =
  if decide (a <= t < a + n)%nat then Some (mkVar name t) else None.
Proof.
  unfold model_builder.tupledict. revert a.
  induction n as [|n IH]; intros a; cbn [seq map].
  - rewrite list_to_map_nil, lookup_empty, decide_False; [reflexivity | lia].
  - rewrite list_to_map_cons. cbn [fst snd]. destruct (decide (a = t)) as [->|Hne].
    + rewrite lookup_insert_eq, decide_True; [reflexivity | lia].
    + rewrite lookup_insert_ne, IH by assumption.
      destruct (decide (S a <= t < S a + n)%nat);
        [rewrite decide_True | rewrite decide_False]; (reflexivity || lia).
Qed.

Lemma tupledict_getitem (name : string) (T t : nat) :
  (t < T)%nat ->
  getitem_int (model_builder.tupledict (range T) name) t = Ok (mkVar name t).
Proof.
  intros Ht. unfold getitem_int, range.
  rewrite tupledict_lookup_seq, decide_True; [reflexivity | lia].
Qed.

Lemma getitem_Some {V} (d : gmap string V) (k : string) (v : V) :
  d !! k = Some v -> getitem d k = Ok v.
Proof. unfold getitem. now intros ->. Qed.

Lemma getitem_Ok_inv {V} (d : gmap string V) (k : string) :
  is_Ok (getitem d k) -> is_Some (d !! k).
Proof. unfold getitem. destruct (d !! k); [eauto | intros []]. Qed.

Lemma num_at_nth (l : list Q) (t : nat) :
  (t < length l)%nat -> num_at (Nums l) t = Ok (nth t l 0%Q).
Proof.
  intros Ht. cbn. destruct (l !! t) as [q|] eqn:Hq.
  - f_equal. symmetry. now apply nth_lookup_Some.
  - apply lookup_ge_None in Hq. lia.
Qed.

Lemma py_max_Nums (l : list Q) :
  (0 < length l)%nat -> py_max (Nums l) = Ok (max_of l).
Proof. destruct l; cbn; [lia | reflexivity]. Qed.

Lemma ediv_nonzero (e : LinExpr) (k : Q) :
  ~ (k == 0)%Q -> ediv e k = Ok (EDiv e k).
Proof.
  intros Hk. unfold ediv. destruct (Qeq_bool k 0) eqn:Hb; [|reflexivity].
  apply Qeq_bool_eq in Hb. contradiction.
Qed.

Lemma bind_Ok {A B} (a : A) (k : A -> result B) : (Ok a ≫= k) = k a.
Proof. reflexivity. Qed.

Lemma bind_modify {S B} (f : S -> S) (k : unit -> M S B) (s : S) :
  (modify f ≫= k) s = k tt (f s).
Proof. reflexivity. Qed.

Lemma run_stmts_map (e : nat -> result Constr) (g : nat -> Constr)
    (l : list nat) (m : Model) :
  (forall t, In t l -> e t = Ok (g t)) ->
  run_stmts (map e l) m =
  (mkModel (mname m) (variables m) (objective m) (modelsense m)
     (constrs m ++ map g l), Ok tt).
Proof.
  intros He. rewrite <- run_stmts_Ok, map_map. f_equal.
  apply map_ext_in. exact He.
Qed.

Lemma run_stmts_flat_map (e1 e2 : nat -> result Constr) (g1 g2 : nat -> Constr)
    (l : list nat) (m : Model) :
  (forall t, In t l -> e1 t = Ok (g1 t)) ->
  (forall t, In t l -> e2 t = Ok (g2 t)) ->
  run_stmts (flat_map (fun t => [e1 t; e2 t]) l) m =
  (mkModel (mname m) (variables m) (objective m) (modelsense m)
     (constrs m ++ flat_map (fun t => [g1 t; g2 t]) l), Ok tt).
Proof.
  intros He1 He2. rewrite <- run_stmts_Ok. f_equal.
  induction l as [|t l IH]; [reflexivity|].
  cbn [flat_map app map]. rewrite He1, He2 by now left.
  rewrite IH; [reflexivity | |]; intros; [apply He1 | apply He2]; now right.
Qed.

Lemma bind_for_addConstr {B} (e : nat -> result Constr) (g : nat -> Constr)
    (l : list nat) (k : unit -> M Model B) (m : Model) :
  (forall t, In t l -> e t = Ok (g t)) ->
  (for_ l (fun t => c ← lift (e t); model_builder.addConstr c) ≫= k) m =
  k tt (mkModel (mname m) (variables m) (objective m) (modelsense m)
          (constrs m ++ map g l)).
Proof.
  intros He. rewrite bind_run, for_addConstr, (run_stmts_map e g) by exact He.
  reflexivity.
Qed.

Lemma bind_for_addConstr2 {B} (e1 e2 : nat -> result Constr)
    (g1 g2 : nat -> Constr) (l : list nat) (k : unit -> M Model B) (m : Model) :
  (forall t, In t l -> e1 t = Ok (g1 t)) ->
  (forall t, In t l -> e2 t = Ok (g2 t)) ->
  (for_ l (fun t =>
             c ← lift (e1 t); model_builder.addConstr c;;
             c ← lift (e2 t); model_builder.addConstr c) ≫= k) m =
  k tt (mkModel (mname m) (variables m) (objective m) (modelsense m)
          (constrs m ++ flat_map (fun t => [g1 t; g2 t]) l)).
Proof.
  intros He1 He2.
  rewrite bind_run, for_addConstr2, (run_stmts_flat_map e1 e2 g1 g2)
    by assumption.
  reflexivity.
Qed.

(** The subscripts of an expression that succeed, and the rest of it. *)
Ltac lookups :=
  repeat
    (progress
       (rewrite ?tupledict_getitem by lia;
        erewrite ?getitem_Some by eassumption;
        rewrite ?num_at_nth by lia;
        rewrite ?py_max_Nums by lia;
        rewrite ?ediv_nonzero by assumption;
        rewrite ?bind_Ok; cbv beta)).

(** ** Sums and maxima *)

Lemma eval_fold_left_EAdd (a : Var -> Q) (ts : list LinExpr) (e0 : LinExpr) :
  (eval a (fold_left EAdd ts e0) ==
   eval a e0 + fold_right (fun e acc => eval a e + acc) 0 ts)%Q.
Proof.
  revert e0. induction ts as [|e ts IH]; intros e0; cbn [fold_left fold_right].
  - ring.
  - rewrite IH. cbn [eval]. ring.
Qed.

Lemma eval_quicksum (a : Var -> Q) (f : nat -> LinExpr) (l : list nat) :
  (eval a (quicksum (map f l)) == Qsum (fun t => eval a (f t)) l)%Q.
Proof.
  unfold quicksum. rewrite eval_fold_left_EAdd. cbn [eval]. rewrite Qplus_0_l.
  induction l as [|t l IH]; cbn [map fold_right Qsum]; [reflexivity|].
  unfold Qsum in IH. now rewrite IH.
Qed.

Lemma py_max_list_cons (x y : Q) (l : list Q) :
  py_max_list x (y :: l) =
  py_max_list (match (y ?= x)%Q with Gt => y | _ => x end) l.
Proof. reflexivity. Qed.

Lemma py_max_list_ge_start (x : Q) (l : list Q) : (x <= py_max_list x l)%Q.
Proof.
  revert x. induction l as [|y l IH]; intros x.
  - apply Qle_refl.
  - rewrite py_max_list_cons. destruct (y ?= x)%Q eqn:Hc; try apply IH.
    eapply Qle_trans; [|apply IH]. apply Qlt_le_weak. now apply Qgt_alt.
Qed.

Lemma py_max_list_In (x : Q) (l : list Q) : In (py_max_list x l) (x :: l).
Proof.
  revert x. induction l as [|y l IH]; intros x.
  - now left.
  - rewrite py_max_list_cons.
    destruct (y ?= x)%Q;
      (destruct (IH x) as [<-|?] || destruct (IH y) as [<-|?]);
      cbn; tauto.
Qed.

Lemma py_max_list_ge (x : Q) (l : list Q) (y : Q) :
  In y (x :: l) -> (y <= py_max_list x l)%Q.
Proof.
  revert x. induction l as [|z l IH]; intros x Hin.
  - destruct Hin as [<-|[]]. apply Qle_refl.
  - rewrite py_max_list_cons.
    destruct Hin as [<-|[<-|Hin]].
    + eapply Qle_trans; [|apply py_max_list_ge_start].
      destruct (z ?= x)%Q eqn:Hc; try apply Qle_refl.
      apply Qlt_le_weak. now apply Qgt_alt.
    + eapply Qle_trans; [|apply py_max_list_ge_start].
      destruct (z ?= x)%Q eqn:Hc; try apply Qle_refl.
      * apply Qeq_alt in Hc. rewrite Hc. apply Qle_refl.
      * apply Qlt_le_weak. now apply Qlt_alt.
    + apply IH. now right.
Qed.

Lemma max_of_is_max (l : list Q) :
  (0 < length l)%nat ->
  In (max_of l) l /\ forall x, In x l -> (x <= max_of l)%Q.
Proof.
  destruct l as [|x l]; cbn [length max_of]; [lia|]. intros _. split.
  - apply py_max_list_In.
  - intros y. apply py_max_list_ge.
Qed.

Lemma In_declared (name : string) (lb : Q) (vt : vtype) (T t : nat) :
  (t < T)%nat ->
  In (mkVarDecl (mkVar name t) lb vt)
     (model_builder.declared (range T) lb vt name).
Proof.
  intros Ht. unfold model_builder.declared.
  apply (in_map (fun t => mkVarDecl (mkVar name t) lb vt)), in_seq. lia.
Qed.

(** The fields of a model that was just rebuilt from its own fields. *)
Ltac simpl_model :=
  cbn [mname variables objective modelsense constrs app].

Tactic Notation "rewrite_loop" uconstr(H) := rewrite H; [simpl_model|..].

(** ** Sums over the horizon *)

Lemma Qsum_range_S (f : nat -> Q) (n : nat) :
  (Qsum f (range (S n)) == Qsum f (range n) + f n)%Q.
Proof.
  unfold range. rewrite seq_S. cbn [Nat.add].
  generalize (seq 0 n) as l. induction l as [|u l IH]; cbn.
  - ring.
  - unfold Qsum in IH. rewrite IH. ring.
Qed.

Lemma Qsum_le (f g : nat -> Q) (l : list nat) :
  (forall t, In t l -> (f t <= g t)%Q) -> (Qsum f l <= Qsum g l)%Q.
Proof.
  induction l as [|t l IH]; intros H; cbn.
  - apply Qle_refl.
  - apply Qplus_le_compat; [apply H; now left|].
    apply IH. intros u Hu. apply H. now right.
Qed.

Lemma nth_in_horizon (l : list Q) (t : nat) :
  (t < length l)%nat -> l !! t = Some (nth t l 0%Q).
Proof.
  intros Ht. destruct (l !! t) as [q|] eqn:E.
  - f_equal. symmetry. now apply nth_lookup_Some.
  - apply lookup_ge_None in E. lia.
Qed.

Lemma length_pairs {A} (f g : nat -> A) (l : list nat) :
  length (flat_map (fun t => [f t; g t]) l) = (2 * length l)%nat.
Proof. induction l; cbn; lia. Qed.

(** ** model_builder.py on well-formed input *)

Section Builder.

Variable data : gmap string pyobj.
Variables battery_params cost_params : gmap string Q.
Variable buy_rates : gmap nat Q.

Variable time : pyobj.
Variables solar load : list Q.
Variables capacity_kwh min_soc max_soc initial_soc
          charge_efficiency discharge_efficiency
          max_charge_rate max_discharge_rate sell_price : Q.
Variable rate : nat -> Q.

Hypothesis Htime : data !! "time" = Some time.
Hypothesis Hsolar : data !! "solar_production" = Some (Nums solar).
Hypothesis Hload : data !! "load_demand" = Some (Nums load).
Hypothesis Hsolar_len : (len time <= length solar)%nat.
Hypothesis Hload_len : (len time <= length load)%nat.
Hypothesis Hrates :
  forall t, (t < len time)%nat -> buy_rates !! t = Some (rate t).
Hypothesis Hcapacity : battery_params !! "capacity_kwh" = Some capacity_kwh.
Hypothesis Hmin_soc : battery_params !! "min_soc" = Some min_soc.
Hypothesis Hmax_soc : battery_params !! "max_soc" = Some max_soc.
Hypothesis Hinitial_soc : battery_params !! "initial_soc" = Some initial_soc.
Hypothesis Hcharge_eff :
  battery_params !! "charge_efficiency" = Some charge_efficiency.
Hypothesis Hdischarge_eff :
  battery_params !! "discharge_efficiency" = Some discharge_efficiency.
Hypothesis Hmax_charge :
  battery_params !! "max_charge_rate" = Some max_charge_rate.
Hypothesis Hmax_discharge :
  battery_params !! "max_discharge_rate" = Some max_discharge_rate.
Hypothesis Hsell : cost_params !! "sell_price" = Some sell_price.
Hypothesis Hdischarge_nonzero : ~ (discharge_efficiency == 0)%Q.

Let T : nat := len time.
Let cf : Q := model_builder.conversion_factor.
Let var (name : string) (t : nat) : LinExpr := EVar (mkVar name t).

Let obj_term (t : nat) : LinExpr :=
  ESub
    (EMul (EMul (EAdd (var "P_grid_household" t) (var "P_grid_battery" t)) cf)
       (rate t))
    (EMul (EMul (var "P_solar_grid" t) cf) sell_price).

Let c_solar_balance (t : nat) : Constr :=
  mkConstr
    (EAdd (EAdd (var "P_solar_household" t) (var "P_solar_battery" t))
       (var "P_solar_grid" t))
    EQUAL (EConst (nth t solar 0%Q)) ("solar_balance_" +:+ pretty t).

Let c_load_balance (t : nat) : Constr :=
  mkConstr
    (EAdd (EAdd (var "P_solar_household" t) (var "P_battery_household" t))
       (var "P_grid_household" t))
    EQUAL (EConst (nth t load 0%Q)) ("load_balance_" +:+ pretty t).

Let c_battery_dynamics (t : nat) : Constr :=
  mkConstr (var "SE" t) EQUAL
    (ESub
       (EAdd
          (if decide (t = 0%nat)
           then EConst (initial_soc * capacity_kwh)%Q
           else var "SE" (t - 1))
          (EMul
             (EMul (EAdd (var "P_solar_battery" t) (var "P_grid_battery" t)) cf)
             charge_efficiency))
       (EDiv (EMul (var "P_battery_household" t) cf) discharge_efficiency))
    ("battery_dynamics_" +:+ pretty t).

Let c_soc_min (t : nat) : Constr :=
  mkConstr (var "SE" t) GREATER_EQUAL (EConst (min_soc * capacity_kwh)%Q)
    ("soc_min_" +:+ pretty t).

Let c_soc_max (t : nat) : Constr :=
  mkConstr (var "SE" t) LESS_EQUAL (EConst (max_soc * capacity_kwh)%Q)
    ("soc_max_" +:+ pretty t).

Let c_charge_limit (t : nat) : Constr :=
  mkConstr (EAdd (var "P_solar_battery" t) (var "P_grid_battery" t))
    LESS_EQUAL (EConst max_charge_rate) ("charge_limit_" +:+ pretty t).

Let c_discharge_limit (t : nat) : Constr :=
  mkConstr (var "P_battery_household" t) LESS_EQUAL
    (EConst max_discharge_rate) ("discharge_limit_" +:+ pretty t).

Let c_charge_binary (t : nat) : Constr :=
  mkConstr (EAdd (var "P_solar_battery" t) (var "P_grid_battery" t))
    LESS_EQUAL (EMul (var "BC" t) max_charge_rate)
    ("charge_binary_" +:+ pretty t).

Let c_discharge_binary (t : nat) : Constr :=
  mkConstr (var "P_battery_household" t) LESS_EQUAL
    (EMul (var "BD" t) max_discharge_rate)
    ("discharge_binary_" +:+ pretty t).

Let c_no_simultaneous (t : nat) : Constr :=
  mkConstr (EAdd (var "BC" t) (var "BD" t)) LESS_EQUAL (EConst 1%Q)
    ("no_simultaneous_" +:+ pretty t).

Let c_grid_flow_from (t : nat) : Constr :=
  mkConstr (EAdd (var "P_grid_household" t) (var "P_grid_battery" t))
    LESS_EQUAL (EMul (var "GF" t) (max_charge_rate + max_of load)%Q)
    ("grid_flow_from_" +:+ pretty t).

Let c_grid_flow_to (t : nat) : Constr :=
  mkConstr (var "P_solar_grid" t) LESS_EQUAL
    (EMul (ESub (EConst 1%Q) (var "GF" t)) (max_of solar))
    ("grid_flow_to_" +:+ pretty t).

Let all_variables : list VarDecl :=
  model_builder.declared (range T) 0%Q CONTINUOUS "P_solar_household" ++
  model_builder.declared (range T) 0%Q CONTINUOUS "P_solar_battery" ++
  model_builder.declared (range T) 0%Q CONTINUOUS "P_solar_grid" ++
  model_builder.declared (range T) 0%Q CONTINUOUS "P_battery_household" ++
  model_builder.declared (range T) 0%Q CONTINUOUS "P_grid_battery" ++
  model_builder.declared (range T) 0%Q CONTINUOUS "P_grid_household" ++
  model_builder.declared (range T) 0%Q CONTINUOUS "SE" ++
  model_builder.declared (range T) 0%Q BINARY "BC" ++
  model_builder.declared (range T) 0%Q BINARY "BD" ++
  model_builder.declared (range T) 0%Q BINARY "GF".

Let all_constrs : list Constr :=
  map c_solar_balance (range T) ++
  map c_load_balance (range T) ++
  map c_battery_dynamics (range T) ++
  flat_map (fun t => [c_soc_min t; c_soc_max t]) (range T) ++
  map c_charge_limit (range T) ++
  map c_discharge_limit (range T) ++
  flat_map (fun t => [c_charge_binary t; c_discharge_binary t]) (range T) ++
  map c_no_simultaneous (range T) ++
  flat_map (fun t => [c_grid_flow_from t; c_grid_flow_to t]) (range T).

Let all_tupledicts : gmap string (gmap nat Var) :=
  {[ "P_solar_household" := model_builder.tupledict (range T) "P_solar_household";
     "P_solar_battery" := model_builder.tupledict (range T) "P_solar_battery";
     "P_solar_grid" := model_builder.tupledict (range T) "P_solar_grid";
     "P_battery_household" := model_builder.tupledict (range T) "P_battery_household";
     "P_grid_battery" := model_builder.tupledict (range T) "P_grid_battery";
     "P_grid_household" := model_builder.tupledict (range T) "P_grid_household";
     "SE" := model_builder.tupledict (range T) "SE";
     "BC" := model_builder.tupledict (range T) "BC";
     "BD" := model_builder.tupledict (range T) "BD";
     "GF" := model_builder.tupledict (range T) "GF" ]}.

Lemma build_model_run (name : string) :
  model_builder.build_model data battery_params cost_params buy_rates
    (new_Model name) =
  (mkModel name all_variables (quicksum (map obj_term (range T))) MINIMIZE
     all_constrs,
   Ok all_tupledicts).
Proof using All.
  unfold model_builder.build_model.
  rewrite (bind_lift_Ok _ time) by now apply getitem_Some.
  cbv beta zeta. fold T. unfold new_Model.
  do 10 (rewrite bind_addVars; cbv beta; simpl_model).
  rewrite (bind_lift_Ok _ (map obj_term (range T))).
  2:{ apply mapM_Ok. intros t [_ Ht]%in_seq. cbn in Ht.
      unfold model_builder.objective_term.
      rewrite !tupledict_getitem by lia.
      unfold getitem_int. rewrite Hrates by exact Ht.
      lookups. reflexivity. }
  unfold model_builder.setObjective. rewrite bind_modify. simpl_model.
  rewrite_loop (bind_for_addConstr _ c_solar_balance).
  2:{ intros t [_ Ht]%in_seq. cbn in Ht. unfold model_builder.solar_balance.
      lookups. reflexivity. }
  rewrite_loop (bind_for_addConstr _ c_load_balance).
  2:{ intros t [_ Ht]%in_seq. cbn in Ht. unfold model_builder.load_balance.
      lookups. reflexivity. }
  rewrite_loop (bind_for_addConstr _ c_battery_dynamics).
  2:{ intros t [_ Ht]%in_seq. cbn in Ht.
      unfold model_builder.battery_dynamics, c_battery_dynamics.
      destruct (decide (t = 0%nat)); lookups; reflexivity. }
  rewrite_loop (bind_for_addConstr2 _ _ c_soc_min c_soc_max).
  2,3: intros t [_ Ht]%in_seq; cbn in Ht;
       unfold model_builder.soc_min, model_builder.soc_max;
       lookups; reflexivity.
  rewrite_loop (bind_for_addConstr _ c_charge_limit).
  2:{ intros t [_ Ht]%in_seq. cbn in Ht. unfold model_builder.charge_limit.
      lookups. reflexivity. }
  rewrite_loop (bind_for_addConstr _ c_discharge_limit).
  2:{ intros t [_ Ht]%in_seq. cbn in Ht. unfold model_builder.discharge_limit.
      lookups. reflexivity. }
  rewrite_loop (bind_for_addConstr2 _ _ c_charge_binary c_discharge_binary).
  2,3: intros t [_ Ht]%in_seq; cbn in Ht;
       unfold model_builder.charge_binary, model_builder.discharge_binary;
       lookups; reflexivity.
  rewrite_loop (bind_for_addConstr _ c_no_simultaneous).
  2:{ intros t [_ Ht]%in_seq. cbn in Ht. unfold model_builder.no_simultaneous.
      lookups. reflexivity. }
  rewrite_loop (bind_for_addConstr2 _ _ c_grid_flow_from c_grid_flow_to).
  2,3: intros t [_ Ht]%in_seq; cbn in Ht;
       unfold model_builder.grid_flow_from, model_builder.grid_flow_to;
       lookups; reflexivity.
  unfold all_variables, all_constrs, all_tupledicts.
  rewrite <- !app_assoc. reflexivity.
Qed.

Variable GUROBI_LICENSE_FILE : option string.
Variable environ : gmap string string.

Let built : model_builder.outcome :=
  model_builder.create_milp_model GUROBI_LICENSE_FILE environ
    data battery_params cost_params buy_rates.

Lemma create_milp_model_run :
  built =
  model_builder.mkOutcome
    (config.setup_gurobi_env GUROBI_LICENSE_FILE environ)
    (mkModel "PV_Battery_Optimization" all_variables
       (quicksum (map obj_term (range T))) MINIMIZE all_constrs)
    (Ok all_tupledicts).
Proof using All.
  unfold built, model_builder.create_milp_model.
  cbv zeta. rewrite build_model_run. reflexivity.
Qed.

Lemma constrs_built :
  constrs (model_builder.model_after built) = all_constrs.
Proof using All. now rewrite create_milp_model_run. Qed.

Lemma variables_built :
  variables (model_builder.model_after built) = all_variables.
Proof using All. now rewrite create_milp_model_run. Qed.

(** Membership in the constraint list, loop by loop. *)
Ltac in_loop t :=
  first
    [ apply in_map, in_seq; cbn; lia
    | apply in_flat_map; exists t; split;
      [apply in_seq; cbn; lia | cbn; tauto] ].

Ltac find_constr t :=
  rewrite constrs_built; unfold all_constrs;
  repeat first [ apply in_or_app; left; solve [in_loop t]
               | apply in_or_app; right ];
  in_loop t.

Ltac find_var Ht :=
  rewrite variables_built; unfold all_variables;
  repeat first [ apply in_or_app; left; solve [apply In_declared; exact Ht]
               | apply in_or_app; right ];
  apply In_declared; exact Ht.

(** C1. On well-formed input [create_milp_model] returns, and the model
    holds, for step 0, the equality
    [SE[0] = initial_soc * capacity + (P_solar_battery[0] +
    P_grid_battery[0]) * c * charge_efficiency - P_battery_household[0] * c
    / discharge_efficiency] and, for every later step [t], the equality
    [SE[t] = SE[t-1] + (P_solar_battery[t] + P_grid_battery[t]) * c *
    charge_efficiency - P_battery_household[t] * c / discharge_efficiency],
    with [c = (5/60)/1000]. *)
Theorem battery_dynamics_constraints :
  let m := model_builder.model_after built in
  let c := ((5 / 60) / 1000)%Q in
  is_Ok (model_builder.returned built) /\
  ((0 < len time)%nat ->
   exists k, In k (constrs m) /\
     cname k = "battery_dynamics_" +:+ pretty 0%nat /\
     forall a, sat a k <->
       (a (mkVar "SE" 0) ==
        initial_soc * capacity_kwh
        + (a (mkVar "P_solar_battery" 0) + a (mkVar "P_grid_battery" 0))
          * c * charge_efficiency
        - a (mkVar "P_battery_household" 0) * c / discharge_efficiency)%Q) /\
  (forall t, (0 < t < len time)%nat ->
   exists k, In k (constrs m) /\
     cname k = "battery_dynamics_" +:+ pretty t /\
     forall a, sat a k <->
       (a (mkVar "SE" t) ==
        a (mkVar "SE" (t - 1))
        + (a (mkVar "P_solar_battery" t) + a (mkVar "P_grid_battery" t))
          * c * charge_efficiency
        - a (mkVar "P_battery_household" t) * c / discharge_efficiency)%Q).
Proof using All.
  cbv zeta. split; [now rewrite create_milp_model_run|]. split.
  - intros HT. exists (c_battery_dynamics 0%nat). split; [find_constr 0%nat|].
    split; [reflexivity|]. intros a. reflexivity.
  - intros t Ht. exists (c_battery_dynamics t). split; [find_constr t|].
    split; [reflexivity|]. intros a.
    unfold sat, c_battery_dynamics. cbn [csense clhs crhs eval var].
    destruct (decide (t = 0%nat)); [lia|]. reflexivity.
Qed.

(** C2. On well-formed input [create_milp_model] returns, and the
    objective of the model is to be minimized and equals
    the sum over the steps [t] of [(P_grid_household[t] +
    P_grid_battery[t]) * c * buy_rate[t] - P_solar_grid[t] * c *
    sell_price], with the one factor [c = (5/60)/1000 = 1/12000] on the
    bought and on the sold power. *)
Theorem objective_is_total_cost :
  let m := model_builder.model_after built in
  let c := ((5 / 60) / 1000)%Q in
  is_Ok (model_builder.returned built) /\
  modelsense m = MINIMIZE /\
  (c == 1 # 12000)%Q /\
  forall a,
    (eval a (objective m) ==
     Qsum (fun t =>
             (a (mkVar "P_grid_household" t) + a (mkVar "P_grid_battery" t))
             * c * rate t
             - a (mkVar "P_solar_grid" t) * c * sell_price)
       (range (len time)))%Q.
Proof using All.
  cbv zeta. rewrite create_milp_model_run.
  cbn [model_builder.model_after model_builder.returned modelsense objective].
  split; [exact I|]. split; [reflexivity|]. split; [reflexivity|].
  intros a. rewrite eval_quicksum. reflexivity.
Qed.

(** C3. On well-formed input [create_milp_model] returns and, when there
    is at least one step, the two big-M coefficients are computed from the
    input series: with [max_load] the
    largest entry of [load_demand] and [max_solar] the largest entry of
    [solar_production], the model holds for every step [t] the constraints
    [P_grid_household[t] + P_grid_battery[t] <= GF[t] * (max_charge_rate +
    max_load)] and [P_solar_grid[t] <= (1 - GF[t]) * max_solar]. *)
Theorem grid_direction_constraints :
  let m := model_builder.model_after built in
  is_Ok (model_builder.returned built) /\
  ((0 < len time)%nat ->
  exists max_load max_solar : Q,
    (In max_load load /\ forall x, In x load -> (x <= max_load)%Q) /\
    (In max_solar solar /\ forall x, In x solar -> (x <= max_solar)%Q) /\
    forall t, (t < len time)%nat ->
      (exists k, In k (constrs m) /\
         cname k = "grid_flow_from_" +:+ pretty t /\
         forall a, sat a k <->
           (a (mkVar "P_grid_household" t) + a (mkVar "P_grid_battery" t)
            <= a (mkVar "GF" t) * (max_charge_rate + max_load))%Q) /\
      (exists k, In k (constrs m) /\
         cname k = "grid_flow_to_" +:+ pretty t /\
         forall a, sat a k <->
           (a (mkVar "P_solar_grid" t)
            <= (1 - a (mkVar "GF" t)) * max_solar)%Q)).
Proof using All.
  cbv zeta. split; [now rewrite create_milp_model_run|].
  intros HT. exists (max_of load), (max_of solar).
  split; [apply max_of_is_max; lia|]. split; [apply max_of_is_max; lia|].
  intros t Ht. split.
  - exists (c_grid_flow_from t). split; [find_constr t|].
    split; [reflexivity|]. intros a. reflexivity.
  - exists (c_grid_flow_to t). split; [find_constr t|].
    split; [reflexivity|]. intros a. reflexivity.
Qed.

(** C4. On well-formed input [create_milp_model] returns and, for every
    step [t]: [BC[t]] and [BD[t]] are declared binary; the model holds [P_solar_battery[t] +
    P_grid_battery[t] <= BC[t] * max_charge_rate], [P_battery_household[t]
    <= BD[t] * max_discharge_rate] and [BC[t] + BD[t] <= 1]; and in every
    feasible assignment both indicators are 0 or 1, they are not both 1,
    and the battery is not charged and discharged in the same step. *)
Theorem charge_discharge_exclusive :
  let m := model_builder.model_after built in
  is_Ok (model_builder.returned built) /\
  forall t, (t < len time)%nat ->
    In (mkVarDecl (mkVar "BC" t) 0%Q BINARY) (variables m) /\
    In (mkVarDecl (mkVar "BD" t) 0%Q BINARY) (variables m) /\
    (exists k, In k (constrs m) /\
       cname k = "charge_binary_" +:+ pretty t /\
       forall a, sat a k <->
         (a (mkVar "P_solar_battery" t) + a (mkVar "P_grid_battery" t)
          <= a (mkVar "BC" t) * max_charge_rate)%Q) /\
    (exists k, In k (constrs m) /\
       cname k = "discharge_binary_" +:+ pretty t /\
       forall a, sat a k <->
         (a (mkVar "P_battery_household" t)
          <= a (mkVar "BD" t) * max_discharge_rate)%Q) /\
    (exists k, In k (constrs m) /\
       cname k = "no_simultaneous_" +:+ pretty t /\
       forall a, sat a k <->
         (a (mkVar "BC" t) + a (mkVar "BD" t) <= 1)%Q) /\
    forall a, feasible m a ->
      ((a (mkVar "BC" t) == 0)%Q \/ (a (mkVar "BC" t) == 1)%Q) /\
      ((a (mkVar "BD" t) == 0)%Q \/ (a (mkVar "BD" t) == 1)%Q) /\
      ~ ((a (mkVar "BC" t) == 1)%Q /\ (a (mkVar "BD" t) == 1)%Q) /\
      ~ ((0 < a (mkVar "P_solar_battery" t) + a (mkVar "P_grid_battery" t))%Q
         /\ (0 < a (mkVar "P_battery_household" t))%Q).
Proof using All.
  cbv zeta. split; [now rewrite create_milp_model_run|]. intros t Ht.
  assert (Hbc : In (mkVarDecl (mkVar "BC" t) 0%Q BINARY)
                  (variables (model_builder.model_after built)))
    by find_var Ht.
  assert (Hbd : In (mkVarDecl (mkVar "BD" t) 0%Q BINARY)
                  (variables (model_builder.model_after built)))
    by find_var Ht.
  assert (Hk1 : In (c_charge_binary t)
                  (constrs (model_builder.model_after built)))
    by find_constr t.
  assert (Hk2 : In (c_discharge_binary t)
                  (constrs (model_builder.model_after built)))
    by find_constr t.
  assert (Hk3 : In (c_no_simultaneous t)
                  (constrs (model_builder.model_after built)))
    by find_constr t.
  split; [exact Hbc|]. split; [exact Hbd|].
  split; [exists (c_charge_binary t); repeat split; tauto|].
  split; [exists (c_discharge_binary t); repeat split; tauto|].
  split; [exists (c_no_simultaneous t); repeat split; tauto|].
  intros a [Hdom Hsat].
  pose proof (Hdom _ Hbc) as Dbc. pose proof (Hdom _ Hbd) as Dbd.
  pose proof (Hsat _ Hk1) as S1. pose proof (Hsat _ Hk2) as S2.
  pose proof (Hsat _ Hk3) as S3.
  unfold in_domain in Dbc, Dbd. cbn [dvtype dvar] in Dbc, Dbd.
  unfold sat, c_charge_binary, c_discharge_binary, c_no_simultaneous in S1, S2, S3.
  cbn [csense clhs crhs eval var] in S1, S2, S3.
  split; [exact Dbc|]. split; [exact Dbd|]. split.
  - intros [H1 H2]. rewrite H1, H2 in S3. revert S3. apply Qlt_not_le.
    reflexivity.
  - intros [Hc Hd].
    destruct Dbc as [Z1|O1].
    + rewrite Z1, Qmult_0_l in S1. apply (Qlt_not_le _ _ Hc S1).
    + destruct Dbd as [Z2|O2].
      * rewrite Z2, Qmult_0_l in S2. apply (Qlt_not_le _ _ Hd S2).
      * rewrite O1, O2 in S3. revert S3. apply Qlt_not_le. reflexivity.
Qed.


(** *** The other constraints, and what feasibility gives *)

(** Every constraint of the model is one of the twelve kinds, for a step of
    the horizon. *)
Lemma in_all_constrs (k : Constr) :
  In k all_constrs ->
  exists t, (t < T)%nat /\
    In k [ c_solar_balance t; c_load_balance t; c_battery_dynamics t;
           c_soc_min t; c_soc_max t; c_charge_limit t; c_discharge_limit t;
           c_charge_binary t; c_discharge_binary t; c_no_simultaneous t;
           c_grid_flow_from t; c_grid_flow_to t ].
Proof using All.
  unfold all_constrs. rewrite !in_app_iff, !in_map_iff, !in_flat_map.
  intros H.
  repeat match goal with
    | H : _ \/ _ |- _ => destruct H as [H|H]
    | H : exists _, _ |- _ => destruct H as (t & H)
    | H : _ /\ _ |- _ => let H1 := fresh in destruct H as [H1 H]
    end;
    match goal with
    | Hin : In ?t (range T) |- _ =>
        apply in_seq in Hin; exists t; split; [cbn in Hin; lia|]
    end;
    subst; cbn [In] in *; intuition (subst; tauto).
Qed.

(** Every declared variable belongs to one of the ten families, for a step
    of the horizon; the first seven are continuous with lower bound 0, the
    last three are binary. *)
Lemma in_all_variables (d : VarDecl) :
  In d all_variables ->
  exists t, (t < T)%nat /\
    ((exists name,
        In name [ "P_solar_household"; "P_solar_battery"; "P_solar_grid";
                  "P_battery_household"; "P_grid_battery"; "P_grid_household";
                  "SE" ] /\
        d = mkVarDecl (mkVar name t) 0%Q CONTINUOUS) \/
     (exists name, In name ["BC"; "BD"; "GF"] /\
        d = mkVarDecl (mkVar name t) 0%Q BINARY)).
Proof using All.
  unfold all_variables, model_builder.declared.
  rewrite !in_app_iff, !in_map_iff. intros H.
  repeat match goal with
    | H : _ \/ _ |- _ => destruct H as [H|H]
    | H : exists _, _ |- _ => destruct H as (t & H)
    | H : _ /\ _ |- _ => let H1 := fresh in destruct H as [H1 H]
    end;
    match goal with
    | Hin : In ?t (range T) |- _ =>
        apply in_seq in Hin; exists t; split; [cbn in Hin; lia|]
    end;
    subst;
    first [ left; eexists; split; [|reflexivity]; cbn; tauto
          | right; eexists; split; [|reflexivity]; cbn; tauto ].
Qed.

Lemma feasible_built (a : Var -> Q) :
  feasible (model_builder.model_after built) a <->
  (forall d, In d all_variables -> in_domain a d) /\
  (forall k, In k all_constrs -> sat a k).
Proof using All. unfold feasible. now rewrite constrs_built, variables_built. Qed.

Lemma continuous_nonneg (a : Var -> Q) (name : string) (t : nat) :
  feasible (model_builder.model_after built) a -> (t < len time)%nat ->
  In name [ "P_solar_household"; "P_solar_battery"; "P_solar_grid";
            "P_battery_household"; "P_grid_battery"; "P_grid_household";
            "SE" ] ->
  (0 <= a (mkVar name t))%Q.
Proof using All.
  intros [Hdom _] Ht Hname.
  assert (Hd : In (mkVarDecl (mkVar name t) 0%Q CONTINUOUS)
                 (variables (model_builder.model_after built))).
  { cbn [In] in Hname.
    repeat (destruct Hname as [<-|Hname]; [find_var Ht|]). destruct Hname. }
  exact (Hdom _ Hd).
Qed.

Lemma binary_value (a : Var -> Q) (name : string) (t : nat) :
  feasible (model_builder.model_after built) a -> (t < len time)%nat ->
  In name ["BC"; "BD"; "GF"] ->
  (a (mkVar name t) == 0)%Q \/ (a (mkVar name t) == 1)%Q.
Proof using All.
  intros [Hdom _] Ht Hname.
  assert (Hd : In (mkVarDecl (mkVar name t) 0%Q BINARY)
                 (variables (model_builder.model_after built))).
  { cbn [In] in Hname.
    repeat (destruct Hname as [<-|Hname]; [find_var Ht|]). destruct Hname. }
  exact (Hdom _ Hd).
Qed.

Lemma flow_bounds (a : Var -> Q) (t : nat) (p d : Q) :
  feasible (model_builder.model_after built) a ->
  (t < len time)%nat -> solar !! t = Some p -> load !! t = Some d ->
  (forall name,
     In name ["P_solar_household"; "P_solar_battery"; "P_solar_grid"] ->
     (0 <= a (mkVar name t))%Q /\ (a (mkVar name t) <= p)%Q) /\
  (forall name,
     In name ["P_solar_household"; "P_battery_household";
              "P_grid_household"] ->
     (0 <= a (mkVar name t))%Q /\ (a (mkVar name t) <= d)%Q).
Proof using All.
  intros Ha Ht Hp Hd.
  apply (nth_lookup_Some _ _ 0%Q) in Hp. apply (nth_lookup_Some _ _ 0%Q) in Hd.
  assert (Hk1 : In (c_solar_balance t)
                  (constrs (model_builder.model_after built)))
    by find_constr t.
  assert (Hk2 : In (c_load_balance t)
                  (constrs (model_builder.model_after built)))
    by find_constr t.
  pose proof (proj2 Ha _ Hk1) as S1. pose proof (proj2 Ha _ Hk2) as S2.
  unfold sat in S1, S2. cbn in S1, S2. rewrite Hp in S1. rewrite Hd in S2.
  pose proof (continuous_nonneg a "P_solar_household" t Ha Ht
                ltac:(cbn; tauto)).
  pose proof (continuous_nonneg a "P_solar_battery" t Ha Ht
                ltac:(cbn; tauto)).
  pose proof (continuous_nonneg a "P_solar_grid" t Ha Ht
                ltac:(cbn; tauto)).
  pose proof (continuous_nonneg a "P_battery_household" t Ha Ht
                ltac:(cbn; tauto)).
  pose proof (continuous_nonneg a "P_grid_household" t Ha Ht
                ltac:(cbn; tauto)).
  split; intros name Hname; cbn [In] in Hname;
    repeat (destruct Hname as [<-|Hname]; [split; lra|]); destruct Hname.
Qed.

(** X1. The two power balances.  For every step [t] the model holds
    [P_solar_household[t] + P_solar_battery[t] + P_solar_grid[t] ==
    solar_production[t]] and [P_solar_household[t] + P_battery_household[t]
    + P_grid_household[t] == load_demand[t]]; in a feasible assignment each
    of these flows lies between 0 and the entry of the series that it
    shares. *)
Theorem balance_constraints :
  let m := model_builder.model_after built in
  is_Ok (model_builder.returned built) /\
  forall t p d,
    (t < len time)%nat -> solar !! t = Some p -> load !! t = Some d ->
    (exists k, In k (constrs m) /\
       cname k = "solar_balance_" +:+ pretty t /\
       forall a, sat a k <->
         (a (mkVar "P_solar_household" t) + a (mkVar "P_solar_battery" t)
          + a (mkVar "P_solar_grid" t) == p)%Q) /\
    (exists k, In k (constrs m) /\
       cname k = "load_balance_" +:+ pretty t /\
       forall a, sat a k <->
         (a (mkVar "P_solar_household" t) + a (mkVar "P_battery_household" t)
          + a (mkVar "P_grid_household" t) == d)%Q) /\
    forall a, feasible m a ->
      (forall name,
         In name ["P_solar_household"; "P_solar_battery"; "P_solar_grid"] ->
         (0 <= a (mkVar name t))%Q /\ (a (mkVar name t) <= p)%Q) /\
      (forall name,
         In name ["P_solar_household"; "P_battery_household";
                  "P_grid_household"] ->
         (0 <= a (mkVar name t))%Q /\ (a (mkVar name t) <= d)%Q).
Proof using All.
  cbv zeta. split; [now rewrite create_milp_model_run|].
  intros t p d Ht Hp Hd. split; [|split].
  - exists (c_solar_balance t). split; [find_constr t|]. split; [reflexivity|].
    intros a. unfold sat. cbn.
    now rewrite (nth_lookup_Some _ _ 0%Q _ Hp).
  - exists (c_load_balance t). split; [find_constr t|]. split; [reflexivity|].
    intros a. unfold sat. cbn.
    now rewrite (nth_lookup_Some _ _ 0%Q _ Hd).
  - intros a Ha. now apply flow_bounds.
Qed.

(** X2. The limits of the battery.  For every step [t] the model holds
    [SE[t] >= min_soc * capacity], [SE[t] <= max_soc * capacity],
    [P_solar_battery[t] + P_grid_battery[t] <= max_charge_rate] and
    [P_battery_household[t] <= max_discharge_rate], so that every feasible
    assignment keeps the stored energy and both rates within these limits. *)
Theorem soc_bounds_and_rate_limits :
  let m := model_builder.model_after built in
  is_Ok (model_builder.returned built) /\
  forall t, (t < len time)%nat ->
    (exists k, In k (constrs m) /\ cname k = "soc_min_" +:+ pretty t /\
       forall a, sat a k <->
         (min_soc * capacity_kwh <= a (mkVar "SE" t))%Q) /\
    (exists k, In k (constrs m) /\ cname k = "soc_max_" +:+ pretty t /\
       forall a, sat a k <->
         (a (mkVar "SE" t) <= max_soc * capacity_kwh)%Q) /\
    (exists k, In k (constrs m) /\ cname k = "charge_limit_" +:+ pretty t /\
       forall a, sat a k <->
         (a (mkVar "P_solar_battery" t) + a (mkVar "P_grid_battery" t)
          <= max_charge_rate)%Q) /\
    (exists k, In k (constrs m) /\ cname k = "discharge_limit_" +:+ pretty t /\
       forall a, sat a k <->
         (a (mkVar "P_battery_household" t) <= max_discharge_rate)%Q) /\
    forall a, feasible m a ->
      (min_soc * capacity_kwh <= a (mkVar "SE" t))%Q /\
      (a (mkVar "SE" t) <= max_soc * capacity_kwh)%Q /\
      (a (mkVar "P_solar_battery" t) + a (mkVar "P_grid_battery" t)
       <= max_charge_rate)%Q /\
      (a (mkVar "P_battery_household" t) <= max_discharge_rate)%Q.
Proof using All.
  cbv zeta. split; [now rewrite create_milp_model_run|]. intros t Ht.
  assert (Hk1 : In (c_soc_min t) (constrs (model_builder.model_after built)))
    by find_constr t.
  assert (Hk2 : In (c_soc_max t) (constrs (model_builder.model_after built)))
    by find_constr t.
  assert (Hk3 : In (c_charge_limit t)
                  (constrs (model_builder.model_after built)))
    by find_constr t.
  assert (Hk4 : In (c_discharge_limit t)
                  (constrs (model_builder.model_after built)))
    by find_constr t.
  split; [exists (c_soc_min t); repeat split; tauto|].
  split; [exists (c_soc_max t); repeat split; tauto|].
  split; [exists (c_charge_limit t); repeat split; tauto|].
  split; [exists (c_discharge_limit t); repeat split; tauto|].
  intros a [_ Hsat].
  split; [exact (Hsat _ Hk1)|]. split; [exact (Hsat _ Hk2)|].
  split; [exact (Hsat _ Hk3) | exact (Hsat _ Hk4)].
Qed.

(** X3. The rate limits repeat the linkage to the indicators.  When the two
    maximal rates are not negative, an assignment within the declared
    domains that satisfies [charge_binary_t] and [discharge_binary_t]
    satisfies [charge_limit_t] and [discharge_limit_t] as well. *)
Theorem rate_limits_follow_from_linkage :
  let m := model_builder.model_after built in
  (0 <= max_charge_rate)%Q -> (0 <= max_discharge_rate)%Q ->
  forall t, (t < len time)%nat ->
    exists kcb kdb kcl kdl,
      In kcb (constrs m) /\ cname kcb = "charge_binary_" +:+ pretty t /\
      In kdb (constrs m) /\ cname kdb = "discharge_binary_" +:+ pretty t /\
      In kcl (constrs m) /\ cname kcl = "charge_limit_" +:+ pretty t /\
      In kdl (constrs m) /\ cname kdl = "discharge_limit_" +:+ pretty t /\
      forall a,
        (forall d, In d (variables m) -> in_domain a d) ->
        (sat a kcb -> sat a kcl) /\ (sat a kdb -> sat a kdl).
Proof using All.
  cbv zeta. intros Hmc Hmd t Ht.
  exists (c_charge_binary t), (c_discharge_binary t),
         (c_charge_limit t), (c_discharge_limit t).
  split; [find_constr t|]. split; [reflexivity|].
  split; [find_constr t|]. split; [reflexivity|].
  split; [find_constr t|]. split; [reflexivity|].
  split; [find_constr t|]. split; [reflexivity|].
  intros a Hdom.
  assert (Hbc : In (mkVarDecl (mkVar "BC" t) 0%Q BINARY)
                  (variables (model_builder.model_after built)))
    by find_var Ht.
  assert (Hbd : In (mkVarDecl (mkVar "BD" t) 0%Q BINARY)
                  (variables (model_builder.model_after built)))
    by find_var Ht.
  pose proof (Hdom _ Hbc) as Dbc. pose proof (Hdom _ Hbd) as Dbd.
  unfold in_domain in Dbc, Dbd. cbn [dvtype dvar] in Dbc, Dbd.
  unfold sat. cbn. split; intros S.
  - destruct Dbc as [E|E]; rewrite E in S; lra.
  - destruct Dbd as [E|E]; rewrite E in S; lra.
Qed.

(** X4. No flow through the grid in both directions.  In every feasible
    assignment [GF[t]] is 0 or 1, and a step does not both draw power from
    the grid and feed solar power into it. *)
Theorem grid_flow_exclusive :
  let m := model_builder.model_after built in
  forall t, (t < len time)%nat ->
    In (mkVarDecl (mkVar "GF" t) 0%Q BINARY) (variables m) /\
    forall a, feasible m a ->
      ((a (mkVar "GF" t) == 0)%Q \/ (a (mkVar "GF" t) == 1)%Q) /\
      ~ ((0 < a (mkVar "P_grid_household" t) + a (mkVar "P_grid_battery" t))%Q
         /\ (0 < a (mkVar "P_solar_grid" t))%Q).
Proof using All.
  cbv zeta. intros t Ht. split; [find_var Ht|]. intros a Ha.
  pose proof (binary_value a "GF" t Ha Ht ltac:(cbn; tauto)) as Dgf.
  split; [exact Dgf|].
  assert (Hk1 : In (c_grid_flow_from t)
                  (constrs (model_builder.model_after built)))
    by find_constr t.
  assert (Hk2 : In (c_grid_flow_to t)
                  (constrs (model_builder.model_after built)))
    by find_constr t.
  pose proof (proj2 Ha _ Hk1) as S1. pose proof (proj2 Ha _ Hk2) as S2.
  unfold sat in S1, S2. cbn in S1, S2.
  intros [Hfrom Hto]. destruct Dgf as [E|E].
  - rewrite E in S1. lra.
  - rewrite E in S2. lra.
Qed.

(** X5. The stored energy is the initial energy plus everything charged
    minus everything discharged so far: in every feasible assignment, for
    every step [t], [SE[t] == initial_soc * capacity + sum over u <= t of
    ((P_solar_battery[u] + P_grid_battery[u]) * c * charge_efficiency -
    P_battery_household[u] * c / discharge_efficiency)]. *)
Theorem stored_energy_telescopes :
  let m := model_builder.model_after built in
  let c := ((5 / 60) / 1000)%Q in
  forall a, feasible m a ->
    forall t, (t < len time)%nat ->
      (a (mkVar "SE" t) ==
       initial_soc * capacity_kwh +
       Qsum (fun u =>
               (a (mkVar "P_solar_battery" u) + a (mkVar "P_grid_battery" u))
               * c * charge_efficiency
               - a (mkVar "P_battery_household" u) * c
                 / discharge_efficiency)
         (range (S t)))%Q.
Proof using All.
  cbv zeta. intros a Ha t. induction t as [|t IH]; intros Ht.
  - assert (Hk : In (c_battery_dynamics 0%nat)
                   (constrs (model_builder.model_after built)))
      by find_constr 0%nat.
    pose proof (proj2 Ha _ Hk) as Hs. unfold sat in Hs.
    unfold c_battery_dynamics in Hs. cbn [csense clhs crhs eval var] in Hs.
    destruct (decide (0%nat = 0%nat)) as [_|]; [|congruence].
    cbn [eval var] in Hs. rewrite Hs, Qsum_range_S.
    cbn [Qsum range seq fold_right].
    unfold cf, model_builder.conversion_factor, Qdiv. ring.
  - assert (Hk : In (c_battery_dynamics (S t))
                   (constrs (model_builder.model_after built)))
      by find_constr (S t).
    pose proof (proj2 Ha _ Hk) as Hs. unfold sat in Hs.
    unfold c_battery_dynamics in Hs. cbn [csense clhs crhs eval var] in Hs.
    destruct (decide (S t = 0%nat)) as [|_]; [lia|].
    cbn [eval var] in Hs. replace (S t - 1)%nat with t in Hs by lia.
    specialize (IH ltac:(lia)). rewrite Hs, IH, (Qsum_range_S _ (S t)).
    unfold cf, model_builder.conversion_factor, Qdiv. ring.
Qed.

(** X6. A negative entry in a series makes the model infeasible: a feasible
    assignment exists only if [solar_production[t] >= 0] and
    [load_demand[t] >= 0] for every step of the horizon. *)
Theorem feasible_needs_nonnegative_series :
  let m := model_builder.model_after built in
  (exists a, feasible m a) ->
  forall t p d,
    (t < len time)%nat -> solar !! t = Some p -> load !! t = Some d ->
    (0 <= p)%Q /\ (0 <= d)%Q.
Proof using All.
  cbv zeta. intros [a Ha] t p d Ht Hp Hd.
  destruct (flow_bounds a t p d Ha Ht Hp Hd) as [Hs Hl].
  destruct (Hs "P_solar_grid" ltac:(cbn; tauto)).
  destruct (Hl "P_grid_household" ltac:(cbn; tauto)).
  split; lra.
Qed.

(** X7. The cost cannot fall without bound.  When no rate and no selling
    price is negative, the objective of every feasible assignment is at
    least minus the value of the whole solar production sold:
    [- sum over t of solar_production[t] * c * sell_price]. *)
Theorem objective_bounded_below :
  let m := model_builder.model_after built in
  let c := ((5 / 60) / 1000)%Q in
  (forall t, (t < len time)%nat -> (0 <= rate t)%Q) ->
  (0 <= sell_price)%Q ->
  forall a, feasible m a ->
    (Qsum (fun t => - (nth t solar 0 * c * sell_price)) (range (len time))
     <= eval a (objective m))%Q.
Proof using All.
  cbv zeta. intros Hrate Hsell_nonneg a Ha.
  rewrite create_milp_model_run. cbn [model_builder.model_after objective].
  rewrite eval_quicksum. apply Qsum_le. intros t [_ Ht]%in_seq. cbn in Ht.
  destruct (flow_bounds a t (nth t solar 0%Q) (nth t load 0%Q) Ha Ht
              ltac:(apply nth_in_horizon; lia)
              ltac:(apply nth_in_horizon; lia)) as [Hs Hl].
  destruct (Hs "P_solar_grid" ltac:(cbn; tauto)) as [Hsg0 Hsg].
  destruct (Hl "P_grid_household" ltac:(cbn; tauto)) as [Hgh0 _].
  pose proof (continuous_nonneg a "P_grid_battery" t Ha Ht ltac:(cbn; tauto))
    as Hgb0.
  specialize (Hrate t Ht).
  unfold obj_term. cbn [eval var]. unfold cf, model_builder.conversion_factor.
  set (c := (5 / 60 / 1000)%Q).
  assert (Hc : (0 <= c)%Q) by (unfold c, Qle; cbn; lia).
  assert (H1 : (0 <= (a (mkVar "P_grid_household" t)
                      + a (mkVar "P_grid_battery" t)) * c * rate t)%Q).
  { apply Qmult_le_0_compat; [apply Qmult_le_0_compat|]; lra. }
  assert (H2 : (a (mkVar "P_solar_grid" t) * c * sell_price
                <= nth t solar 0 * c * sell_price)%Q).
  { apply Qmult_le_compat_r; [apply Qmult_le_compat_r|]; assumption. }
  lra.
Qed.

(** X8. The size of the model: ten variables and twelve constraints per
    time step. *)
Theorem model_size :
  let m := model_builder.model_after built in
  length (variables m) = (10 * len time)%nat /\
  length (constrs m) = (12 * len time)%nat.
Proof using All.
  cbv zeta. rewrite variables_built, constrs_built.
  unfold all_variables, all_constrs, model_builder.declared.
  rewrite !length_app, !length_map, !length_pairs. unfold range.
  rewrite length_seq. fold T. lia.
Qed.

(** X9. The dictionary that the builder returns has the ten families as its
    keys, and the tupledict of a family maps each step of the horizon, and
    nothing else, to the variable of that family and step. *)
Theorem returned_variables :
  exists vars_dict,
    model_builder.returned built = Ok vars_dict /\
    (forall name, vars_dict !! name <> None <-> In name families) /\
    forall name t, In name families ->
      exists vars, vars_dict !! name = Some vars /\
        vars !! t =
        if decide (t < len time)%nat then Some (mkVar name t) else None.
Proof using All.
  exists all_tupledicts. split; [now rewrite create_milp_model_run|].
  split.
  - intros name. unfold families, all_tupledicts. cbn [In]. split.
    + intros Hsome.
      repeat match goal with
        | |- ?k = name \/ _ =>
            let Hne := fresh "Hne" in
            destruct (decide (k = name)) as [|Hne]; [now left | right];
            rewrite (lookup_insert_ne _ k name) in Hsome by exact Hne
        end.
      destruct (decide ("GF" = name)) as [|Hgf]; [now left|].
      rewrite lookup_singleton_ne in Hsome by exact Hgf. congruence.
    + intros Hin.
      repeat (destruct Hin as [<-|Hin];
              [repeat (rewrite lookup_insert_ne by discriminate);
               first [rewrite lookup_insert_eq | rewrite lookup_singleton_eq];
               discriminate|]).
      destruct Hin.
  - intros name t Hin. exists (model_builder.tupledict (range T) name). split.
    + unfold families in Hin. cbn [In] in Hin. unfold all_tupledicts.
      repeat (destruct Hin as [<-|Hin];
              [repeat (rewrite lookup_insert_ne by discriminate);
               first [apply lookup_insert_eq | apply lookup_singleton_eq]|]).
      destruct Hin.
    + unfold range. rewrite tupledict_lookup_seq.
      destruct (decide (t < len time)%nat);
        [rewrite decide_True | rewrite decide_False]; (reflexivity || (fold T; lia) || (unfold T; lia)).
Qed.

(** The values of the dispatch without battery. *)
Lemma grid_only_values (stored : Q) (t : nat) :
  let a := grid_only_dispatch solar load stored in
  let p := nth t solar 0%Q in
  let d := nth t load 0%Q in
  a (mkVar "P_solar_household" t) = (if Qlt_le_dec p d then p else d) /\
  a (mkVar "P_solar_battery" t) = 0%Q /\
  a (mkVar "P_solar_grid" t) = (if Qlt_le_dec p d then 0 else p - d)%Q /\
  a (mkVar "P_battery_household" t) = 0%Q /\
  a (mkVar "P_grid_battery" t) = 0%Q /\
  a (mkVar "P_grid_household" t) = (if Qlt_le_dec p d then d - p else 0)%Q /\
  a (mkVar "SE" t) = stored /\
  a (mkVar "BC" t) = 0%Q /\
  a (mkVar "BD" t) = 0%Q /\
  a (mkVar "GF" t) = (if Qlt_le_dec p d then 1 else 0)%Q.
Proof using Type. cbv zeta. repeat split. Qed.

Lemma grid_only_feasible :
  let m := model_builder.model_after built in
  (forall t p, (t < len time)%nat -> solar !! t = Some p -> (0 <= p)%Q) ->
  (forall t d, (t < len time)%nat -> load !! t = Some d -> (0 <= d)%Q) ->
  (0 <= initial_soc * capacity_kwh)%Q ->
  (min_soc * capacity_kwh <= initial_soc * capacity_kwh)%Q ->
  (initial_soc * capacity_kwh <= max_soc * capacity_kwh)%Q ->
  (0 <= max_charge_rate)%Q -> (0 <= max_discharge_rate)%Q ->
  feasible m (grid_only_dispatch solar load (initial_soc * capacity_kwh)).
Proof using All.
  cbv zeta. intros Hsolar0 Hload0 Hinit0 Hmin Hmax Hmc Hmd.
  apply feasible_built. split.
  - intros d Hd. apply in_all_variables in Hd as (t & Ht & Hd).
    destruct (grid_only_values (initial_soc * capacity_kwh) t)
      as (E1 & E2 & E3 & E4 & E5 & E6 & E7 & E8 & E9 & E10).
    cbv zeta in *.
    pose proof (Hsolar0 t _ Ht (nth_in_horizon solar t ltac:(unfold T in *; lia)))
      as Hp.
    pose proof (Hload0 t _ Ht (nth_in_horizon load t ltac:(unfold T in *; lia)))
      as Hq.
    destruct Hd as [(name & Hname & ->)|(name & Hname & ->)];
      unfold in_domain; cbn [dvtype dvar dlb In] in *.
    + repeat (destruct Hname as [<-|Hname];
              [first [rewrite E1 | rewrite E2 | rewrite E3 | rewrite E4
                     | rewrite E5 | rewrite E6 | rewrite E7];
               try destruct (Qlt_le_dec _ _); lra|]).
      destruct Hname.
    + repeat (destruct Hname as [<-|Hname];
              [first [rewrite E8 | rewrite E9 | rewrite E10];
               try destruct (Qlt_le_dec _ _); (now left) || (now right)|]).
      destruct Hname.
  - intros k Hk. apply in_all_constrs in Hk as (t & Ht & Hk).
    destruct (grid_only_values (initial_soc * capacity_kwh) t)
      as (E1 & E2 & E3 & E4 & E5 & E6 & E7 & E8 & E9 & E10).
    destruct (grid_only_values (initial_soc * capacity_kwh) (t - 1))
      as (_ & _ & _ & _ & _ & _ & E7' & _).
    cbv zeta in *.
    assert (Hts : (t < length solar)%nat) by (unfold T in *; lia).
    assert (Htl : (t < length load)%nat) by (unfold T in *; lia).
    pose proof (Hsolar0 t _ Ht (nth_in_horizon solar t Hts)) as Hp.
    pose proof (Hload0 t _ Ht (nth_in_horizon load t Htl)) as Hq.
    assert (Hmaxs : (nth t solar 0 <= max_of solar)%Q).
    { apply max_of_is_max; [lia|]. now apply nth_In. }
    assert (Hmaxl : (nth t load 0 <= max_of load)%Q).
    { apply max_of_is_max; [lia|]. now apply nth_In. }
    cbn [In] in Hk.
    repeat (destruct Hk as [<-|Hk];
            [unfold sat, c_solar_balance, c_load_balance, c_battery_dynamics,
               c_soc_min, c_soc_max, c_charge_limit, c_discharge_limit,
               c_charge_binary, c_discharge_binary, c_no_simultaneous,
               c_grid_flow_from, c_grid_flow_to;
             cbn [csense clhs crhs eval var];
             try (destruct (decide (t = 0%nat)); cbn [eval var]);
             rewrite ?E1, ?E2, ?E3, ?E4, ?E5, ?E6, ?E7, ?E7', ?E8, ?E9, ?E10;
             try destruct (Qlt_le_dec _ _);
             unfold Qdiv; try lra; try nra|]).
    destruct Hk.
Qed.

(** X10. Sane data always has a schedule.  When the series are not
    negative, the initial energy [initial_soc * capacity] is not negative
    and lies within the bounds of the stored energy, and the two maximal
    rates are not negative, the dispatch that leaves the battery alone is a
    feasible assignment of the model. *)
Theorem grid_only_dispatch_feasible :
  let m := model_builder.model_after built in
  (forall t p, (t < len time)%nat -> solar !! t = Some p -> (0 <= p)%Q) ->
  (forall t d, (t < len time)%nat -> load !! t = Some d -> (0 <= d)%Q) ->
  (0 <= initial_soc * capacity_kwh)%Q ->
  (min_soc * capacity_kwh <= initial_soc * capacity_kwh)%Q ->
  (initial_soc * capacity_kwh <= max_soc * capacity_kwh)%Q ->
  (0 <= max_charge_rate)%Q -> (0 <= max_discharge_rate)%Q ->
  feasible m (grid_only_dispatch solar load (initial_soc * capacity_kwh)).
Proof using All. exact grid_only_feasible. Qed.

(** X11. The names of the constraints identify them: two constraints of the
    model with the same name are the same constraint, since each name is
    the kind of the constraint followed by the number of its step. *)
Theorem constraint_names_unique :
  forall k k',
    In k (constrs (model_builder.model_after built)) ->
    In k' (constrs (model_builder.model_after built)) ->
    cname k = cname k' -> k = k'.
Proof using All.
  intros k k' Hk Hk' Hname. rewrite constrs_built in Hk, Hk'.
  apply in_all_constrs in Hk as (t & _ & Hk).
  apply in_all_constrs in Hk' as (t' & _ & Hk').
  cbn [In] in Hk, Hk'.
  repeat (destruct Hk as [<-|Hk]); [..|destruct Hk];
    (repeat (destruct Hk' as [<-|Hk']); [..|destruct Hk']);
    unfold c_solar_balance, c_load_balance, c_battery_dynamics, c_soc_min,
      c_soc_max, c_charge_limit, c_discharge_limit, c_charge_binary,
      c_discharge_binary, c_no_simultaneous, c_grid_flow_from,
      c_grid_flow_to in Hname;
    cbn [cname] in Hname;
    first [ discriminate Hname
          | apply (inj (String.append _)) in Hname;
            apply (inj pretty) in Hname; now subst ].
Qed.
End Builder.

(** The hypotheses of the section above, on the inputs of [sample]. *)
Ltac sample_input :=
  first
    [ vm_compute; reflexivity
    | cbn; lia
    | intros [|[|t]] Ht; [reflexivity | reflexivity | cbn in Ht; lia]
    | unfold Qeq; cbn; lia ].

(** A statement of the section above, at the inputs of [sample]. *)
Tactic Notation "on_sample" uconstr(thm) "as" ident(H) :=
  pose proof
    (thm sample.data sample.battery_params sample.cost_params sample.buy_rates
       (Times [mkTimestamp 3 0; mkTimestamp 12 5])
       [100%Q; 200%Q] [50%Q; 300%Q]
       (48 # 10)%Q (11 # 100)%Q 1%Q (22 # 100)%Q (95 # 100)%Q (95 # 100)%Q
       2780%Q 2370%Q (195 # 1000)%Q sample.rate
       ltac:(sample_input) ltac:(sample_input) ltac:(sample_input)
       ltac:(sample_input) ltac:(sample_input) ltac:(sample_input)
       ltac:(sample_input) ltac:(sample_input) ltac:(sample_input)
       ltac:(sample_input) ltac:(sample_input) ltac:(sample_input)
       ltac:(sample_input) ltac:(sample_input) ltac:(sample_input)
       ltac:(sample_input) None ∅) as H.

(** Step 1 of [sample.data] follows step 0. *)
Lemma battery_dynamics_constraints_sample :
  exists k, In k (constrs (model_builder.model_after sample.built)) /\
    cname k = "battery_dynamics_" +:+ pretty 1%nat /\
    forall a, sat a k <->
      (a (mkVar "SE" 1) ==
       a (mkVar "SE" (1 - 1))
       + (a (mkVar "P_solar_battery" 1) + a (mkVar "P_grid_battery" 1))
         * ((5 / 60) / 1000) * (95 # 100)
       - a (mkVar "P_battery_household" 1) * ((5 / 60) / 1000) / (95 # 100))%Q.
Proof.
  on_sample battery_dynamics_constraints as H.
  destruct H as (_ & _ & H).
  apply (H 1%nat). cbn. lia.
Defined.

(** The objective of the two steps of [sample.data]. *)
Lemma objective_is_total_cost_sample :
  is_Ok (model_builder.returned sample.built) /\
  modelsense (model_builder.model_after sample.built) = MINIMIZE /\
  ((5 / 60) / 1000 == 1 # 12000)%Q /\
  forall a,
    (eval a (objective (model_builder.model_after sample.built)) ==
     Qsum (fun t =>
             (a (mkVar "P_grid_household" t) + a (mkVar "P_grid_battery" t))
             * ((5 / 60) / 1000) * sample.rate t
             - a (mkVar "P_solar_grid" t) * ((5 / 60) / 1000) * (195 # 1000))
       (range 2))%Q.
Proof.
  on_sample objective_is_total_cost as H. exact H.
Defined.

(** The big-M coefficients of [sample.data] are [2780 + 300] and [200]. *)
Lemma grid_direction_constraints_sample :
  exists max_load max_solar : Q,
    (In max_load [50%Q; 300%Q] /\
     forall x, In x [50%Q; 300%Q] -> (x <= max_load)%Q) /\
    (In max_solar [100%Q; 200%Q] /\
     forall x, In x [100%Q; 200%Q] -> (x <= max_solar)%Q) /\
    forall t, (t < 2)%nat ->
      (exists k, In k (constrs (model_builder.model_after sample.built)) /\
         cname k = "grid_flow_from_" +:+ pretty t /\
         forall a, sat a k <->
           (a (mkVar "P_grid_household" t) + a (mkVar "P_grid_battery" t)
            <= a (mkVar "GF" t) * (2780 + max_load))%Q) /\
      (exists k, In k (constrs (model_builder.model_after sample.built)) /\
         cname k = "grid_flow_to_" +:+ pretty t /\
         forall a, sat a k <->
           (a (mkVar "P_solar_grid" t)
            <= (1 - a (mkVar "GF" t)) * max_solar)%Q).
Proof.
  on_sample grid_direction_constraints as H. apply (proj2 H). cbn. lia.
Defined.

(** Step 0 of [sample.data]. *)
Lemma charge_discharge_exclusive_sample :
  In (mkVarDecl (mkVar "BC" 0) 0%Q BINARY)
     (variables (model_builder.model_after sample.built)) /\
  forall a, feasible (model_builder.model_after sample.built) a ->
    ~ ((0 < a (mkVar "P_solar_battery" 0) + a (mkVar "P_grid_battery" 0))%Q
       /\ (0 < a (mkVar "P_battery_household" 0))%Q).
Proof.
  on_sample charge_discharge_exclusive as H.
  destruct (proj2 H 0%nat ltac:(cbn; lia)) as (Hbc & _ & _ & _ & _ & Hfeas).
  split; [exact Hbc|]. intros a Ha. now apply Hfeas.
Defined.

(** ** When the builder raises *)

Lemma bind_lift_inv {S A B} (r : result A) (k : A -> M S B) (s s' : S) (b : B) :
  (lift r ≫= k) s = (s', Ok b) -> exists a, r = Ok a /\ k a s = (s', Ok b).
Proof.
  rewrite bind_run. unfold lift. destruct r as [a|e]; [eauto | discriminate].
Qed.

Lemma for_addConstr_inv {B} (e : nat -> result Constr) (l : list nat)
    (k : unit -> M Model B) (m m' : Model) (b : B) :
  (for_ l (fun t => c ← lift (e t); model_builder.addConstr c) ≫= k) m =
  (m', Ok b) ->
  (forall t, In t l -> is_Ok (e t)) /\ exists m1, k tt m1 = (m', Ok b).
Proof.
  rewrite bind_run, for_addConstr.
  destruct (run_stmts (map e l) m) as [m1 [[]|x]] eqn:Hrun; [|discriminate].
  intros Hk. split; [|eauto].
  intros t Ht. eapply run_stmts_Ok_inv; [exact Hrun|]. now apply in_map.
Qed.

Lemma for_addConstr2_inv {B} (e1 e2 : nat -> result Constr) (l : list nat)
    (k : unit -> M Model B) (m m' : Model) (b : B) :
  (for_ l (fun t =>
             c ← lift (e1 t); model_builder.addConstr c;;
             c ← lift (e2 t); model_builder.addConstr c) ≫= k) m =
  (m', Ok b) ->
  (forall t, In t l -> is_Ok (e1 t) /\ is_Ok (e2 t)) /\
  exists m1, k tt m1 = (m', Ok b).
Proof.
  rewrite bind_run, for_addConstr2.
  destruct (run_stmts (flat_map (fun t => [e1 t; e2 t]) l) m)
    as [m1 [[]|x]] eqn:Hrun; [|discriminate].
  intros Hk. split; [|eauto].
  intros t Ht.
  split; (eapply run_stmts_Ok_inv; [exact Hrun|]);
    apply in_flat_map; exists t; cbn; tauto.
Qed.

Lemma getitem_Ok {V} (d : gmap string V) (k : string) (v : V) :
  getitem d k = Ok v -> d !! k = Some v.
Proof. unfold getitem. destruct (d !! k); congruence. Qed.

Lemma getitem_int_Ok {V} (d : gmap nat V) (t : nat) (v : V) :
  getitem_int d t = Ok v -> d !! t = Some v.
Proof. unfold getitem_int. destruct (d !! t); congruence. Qed.

Lemma num_at_Ok (o : pyobj) (t : nat) (q : Q) :
  num_at o t = Ok q -> exists l, o = Nums l /\ (t < length l)%nat.
Proof.
  destruct o as [l|l]; cbn; destruct (l !! t) eqn:Hl; try discriminate.
  intros _. exists l. split; [reflexivity|]. now apply lookup_lt_Some in Hl.
Qed.

Lemma ediv_Ok (e e' : LinExpr) (k : Q) : ediv e k = Ok e' -> ~ (k == 0)%Q.
Proof.
  unfold ediv. destruct (Qeq_bool k 0) eqn:Hb; [discriminate|].
  intros _ Hk. apply Qeq_bool_neq in Hb. contradiction.
Qed.

(** The subscripts of an expression that succeeded, one after the other. *)
Ltac invert_ok H :=
  repeat
    match type of H with
    | is_Ok (?r ≫= _) =>
        let E := fresh "E" in
        destruct r eqn:E; [rewrite bind_Ok in H; cbv beta in H | exact (False_ind _ H)]
    end.

Ltac key_found :=
  match goal with
  | E : getitem ?d ?k = Ok _ |- is_Some (?d !! ?k) =>
      apply getitem_Ok in E; rewrite E; eauto
  end.

Lemma build_model_Ok_inv
    (data : gmap string pyobj) (battery_params cost_params : gmap string Q)
    (buy_rates : gmap nat Q) (m m' : Model) (v : gmap string (gmap nat Var)) :
  model_builder.build_model data battery_params cost_params buy_rates m =
  (m', Ok v) ->
  exists time, data !! "time" = Some time /\
    (len time = 0%nat \/
     builder_input_ok data battery_params cost_params buy_rates (len time)).
Proof.
  unfold model_builder.build_model. intros H.
  apply bind_lift_inv in H as (time & Htime & H). apply getitem_Ok in Htime.
  exists time. split; [exact Htime|].
  destruct (len time) as [|n] eqn:HT; [now left | right].
  cbv beta zeta in H. destruct m as [nm vs ob se cs].
  do 10 (rewrite bind_addVars in H; cbv beta in H;
         cbn [mname variables objective modelsense constrs app] in H).
  apply bind_lift_inv in H as (terms & Hterms & H).
  unfold model_builder.setObjective in H. rewrite bind_modify in H.
  apply for_addConstr_inv in H as [H1 (m1 & H)].
  apply for_addConstr_inv in H as [H2 (m2 & H)].
  apply for_addConstr_inv in H as [H3 (m3 & H)].
  apply for_addConstr2_inv in H as [H4 (m4 & H)].
  apply for_addConstr_inv in H as [H5 (m5 & H)].
  apply for_addConstr_inv in H as [H6 (m6 & H)].
  clear H m1 m2 m3 m4 m5 m6.
  assert (H0 : In 0%nat (range (S n))) by (apply in_seq; lia).
  assert (Hn : In n (range (S n))) by (apply in_seq; lia).
  pose proof (mapM_Ok_inv _ _ _ Hterms) as Ho. clear Hterms.
  pose proof (Ho _ H0) as Ho0. pose proof (H1 _ Hn) as H1n.
  pose proof (H2 _ Hn) as H2n. pose proof (H3 _ H0) as H30.
  destruct (H4 _ H0) as [H40 H40']. pose proof (H5 _ H0) as H50.
  pose proof (H6 _ H0) as H60. clear H1 H2 H3 H4 H5 H6.
  unfold builder_input_ok. repeat apply conj.
  - unfold model_builder.solar_balance in H1n. invert_ok H1n.
    match goal with E : num_at _ _ = Ok _ |- _ =>
      apply num_at_Ok in E as (l & -> & Hl) end.
    match goal with E : getitem data _ = Ok _ |- _ => apply getitem_Ok in E end.
    eexists. split; [eassumption | lia].
  - unfold model_builder.load_balance in H2n. invert_ok H2n.
    match goal with E : num_at _ _ = Ok _ |- _ =>
      apply num_at_Ok in E as (l & -> & Hl) end.
    match goal with E : getitem data _ = Ok _ |- _ => apply getitem_Ok in E end.
    eexists. split; [eassumption | lia].
  - intros t Ht. assert (Hin : In t (range (S n))) by (apply in_seq; lia).
    apply Ho in Hin. unfold model_builder.objective_term in Hin. invert_ok Hin.
    match goal with E : getitem_int buy_rates _ = Ok _ |- _ =>
      apply getitem_int_Ok in E; rewrite E; eauto end.
  - unfold model_builder.objective_term in Ho0. invert_ok Ho0. key_found.
  - unfold model_builder.battery_dynamics in H30.
    destruct (decide (0%nat = 0%nat)) as [_|]; [|congruence].
    unfold model_builder.soc_min in H40. unfold model_builder.soc_max in H40'.
    unfold model_builder.charge_limit in H50.
    unfold model_builder.discharge_limit in H60.
    invert_ok H30. invert_ok H40. invert_ok H40'. invert_ok H50. invert_ok H60.
    intros k Hk. unfold battery_keys in Hk. cbn [In] in Hk.
    repeat (destruct Hk as [<-|Hk]; [key_found|]). destruct Hk.
  - intros de Hde. unfold model_builder.battery_dynamics in H30.
    destruct (decide (0%nat = 0%nat)) as [_|]; [|congruence].
    invert_ok H30.
    match goal with
    | E : getitem battery_params "discharge_efficiency" = Ok _ |- _ =>
        apply getitem_Ok in E; rewrite Hde in E; injection E as <-
    end.
    match goal with E : ediv _ _ = Ok _ |- _ => now apply ediv_Ok in E end.
Qed.

Lemma bind_ret {S A B} (a : A) (k : A -> M S B) (s : S) :
  (mret a ≫= k) s = k a s.
Proof. reflexivity. Qed.

Lemma build_model_Ok
    (data : gmap string pyobj) (battery_params cost_params : gmap string Q)
    (buy_rates : gmap nat Q) (time : pyobj) (name : string) :
  data !! "time" = Some time ->
  len time = 0%nat \/
  builder_input_ok data battery_params cost_params buy_rates (len time) ->
  exists m' v,
    model_builder.build_model data battery_params cost_params buy_rates
      (new_Model name) = (m', Ok v).
Proof.
  intros Htime [HT|Hok].
  - unfold model_builder.build_model.
    rewrite (bind_lift_Ok _ time) by now apply getitem_Some.
    cbv beta zeta. rewrite HT. cbn [range seq for_ mapM]. unfold new_Model.
    do 10 (rewrite bind_addVars; cbv beta; simpl_model).
    rewrite (bind_lift_Ok _ []) by reflexivity.
    unfold model_builder.setObjective. rewrite bind_modify. simpl_model.
    do 9 rewrite bind_ret. do 2 eexists. reflexivity.
  - destruct Hok as ((solar & Hsolar & Hsl) & (load & Hload & Hll) & Hr & [sp Hsp]
                     & Hkeys & Hde).
    assert (Hk : forall k, In k battery_keys ->
                   exists q, battery_params !! k = Some q)
      by (intros k Hin; destruct (Hkeys k Hin); eauto).
    unfold battery_keys in Hk. cbn [In] in Hk.
    destruct (Hk "capacity_kwh") as [cap Hcap]; [tauto|].
    destruct (Hk "min_soc") as [mn Hmn]; [tauto|].
    destruct (Hk "max_soc") as [mx Hmx]; [tauto|].
    destruct (Hk "initial_soc") as [ini Hini]; [tauto|].
    destruct (Hk "charge_efficiency") as [ce Hce]; [tauto|].
    destruct (Hk "discharge_efficiency") as [de Hdis]; [tauto|].
    destruct (Hk "max_charge_rate") as [mc Hmc]; [tauto|].
    destruct (Hk "max_discharge_rate") as [md Hmd]; [tauto|].
    do 2 eexists.
    apply (build_model_run data battery_params cost_params buy_rates time
             solar load cap mn mx ini ce de mc md sp
             (fun t => default 0%Q (buy_rates !! t))); try assumption.
    + intros t Ht. destruct (Hr t Ht) as [q ->]. reflexivity.
    + now apply Hde.
Qed.

Lemma keeps_lift {A} (r : result A) : keeps_variables (lift r).
Proof. intros m. reflexivity. Qed.

Lemma keeps_ret {A} (a : A) : keeps_variables (mret a).
Proof. intros m. reflexivity. Qed.

Lemma keeps_setObjective (obj : LinExpr) (s : objsense) :
  keeps_variables (model_builder.setObjective obj s).
Proof. intros m. reflexivity. Qed.

Lemma keeps_addConstr (c : Constr) :
  keeps_variables (model_builder.addConstr c).
Proof. intros m. reflexivity. Qed.

Lemma keeps_bind {A B} (c : M Model A) (k : A -> M Model B) :
  keeps_variables c -> (forall a, keeps_variables (k a)) ->
  keeps_variables (c ≫= k).
Proof.
  intros Hc Hk m. rewrite bind_run. specialize (Hc m).
  destruct (c m) as [m1 [a|e]]; cbn [fst] in *.
  - now rewrite Hk.
  - exact Hc.
Qed.

Lemma keeps_for (l : list nat) (body : nat -> M Model unit) :
  (forall t, keeps_variables (body t)) -> keeps_variables (for_ l body).
Proof.
  intros Hb. induction l as [|t l IH]; cbn [for_].
  - apply keeps_ret.
  - apply keeps_bind; [apply Hb | intros _; exact IH].
Qed.

Ltac keeps :=
  repeat first
    [ apply keeps_lift | apply keeps_ret | apply keeps_setObjective
    | apply keeps_addConstr
    | apply keeps_for; intros ?
    | apply keeps_bind; [|intros ?] ].

Lemma build_model_variables
    (data : gmap string pyobj) (battery_params cost_params : gmap string Q)
    (buy_rates : gmap nat Q) (time : pyobj) (name : string) :
  data !! "time" = Some time ->
  variables
    (fst (model_builder.build_model data battery_params cost_params buy_rates
            (new_Model name))) =
  declared_variables (len time).
Proof.
  intros Htime. unfold model_builder.build_model.
  rewrite (bind_lift_Ok _ time) by now apply getitem_Some.
  cbv beta zeta. unfold new_Model.
  do 10 (rewrite bind_addVars; cbv beta; simpl_model).
  match goal with
  | |- variables (fst (?c ?m)) = _ =>
      assert (Hc : keeps_variables c) by keeps; rewrite (Hc m)
  end.
  cbn [variables]. unfold declared_variables. now rewrite <- !app_assoc.
Qed.

(** The claim as the specification words it fails: the builder returns
    normally on [sample.longer_data], whose [solar_production] has three
    entries for two time steps. *)
Lemma create_milp_model_accepts_longer_series :
  ~ (forall (lic : option string) (environ : gmap string string)
            (data : gmap string pyobj)
            (battery_params cost_params : gmap string Q)
            (buy_rates : gmap nat Q),
       raises (model_builder.returned
                 (model_builder.create_milp_model lic environ
                    data battery_params cost_params buy_rates)) <->
       (~ series_lengths_consistent data buy_rates \/
        ~ config_keys_present battery_params cost_params)).
Proof.
  intros H.
  destruct (H None ∅ sample.longer_data sample.battery_params
              sample.cost_params sample.buy_rates) as [_ Hraise].
  assert (Hr : raises (model_builder.returned
                         (model_builder.create_milp_model None ∅
                            sample.longer_data sample.battery_params
                            sample.cost_params sample.buy_rates))).
  { apply Hraise. left.
    intros (time & solar & load & Ht & Hs & _ & Hlen & _).
    vm_compute in Ht. vm_compute in Hs.
    injection Ht as <-. injection Hs as <-. discriminate Hlen. }
  vm_compute in Hr. exact Hr.
Qed.

(** ** solver.py: the outcome of [solve_milp] *)

Lemma on_model_only_call {A} (op : M solver.GModel A) :
  on_model_only op (solver.on_model op).
Proof.
  intros s. unfold solver.on_model. now destruct (op (solver.model s)).
Qed.

Lemma on_model_only_ret {A} (a : A) : on_model_only (mret a) (mret a).
Proof. intros [m out h]. reflexivity. Qed.

Lemma on_model_only_bind {A B} (c : M solver.GModel A) (C : M solver.PyState A)
    (k : A -> M solver.GModel B) (K : A -> M solver.PyState B) :
  on_model_only c C -> (forall a, on_model_only (k a) (K a)) ->
  on_model_only (c ≫= k) (C ≫= K).
Proof.
  intros Hc Hk s. rewrite !bind_run, Hc.
  destruct (c (solver.model s)) as [m1 [a|e]]; cbn [fst snd]; [|reflexivity].
  now rewrite Hk.
Qed.

(** The statements before the test of the status act on the model object
    only, as [engine_calls] does. *)
Lemma set_params_and_optimize_run
    (engine : solver.Engine) (time_limit gap : option Q) (verbose : bool) :
  on_model_only (engine_calls engine time_limit gap verbose)
    (solver.set_params_and_optimize engine time_limit gap verbose).
Proof.
  unfold solver.set_params_and_optimize, engine_calls.
  destruct time_limit, gap, verbose;
    repeat first [ apply on_model_only_call | apply on_model_only_ret
                 | apply on_model_only_bind; [|intros ?] ].
Qed.

Lemma report_exception_run (e : exn) (m : solver.GModel)
    (out : list solver.line) (h : gmap solver.loc pyobj) :
  exists report : solver.line,
    solver.report_exception e (solver.mkPyState m out h) =
    (solver.mkPyState m (out ++ [report])%list h, Ok false) /\
    (report = solver.Gurobi_error e \/ report = solver.Error_solving_model e).
Proof. destruct e; eexists; (split; [reflexivity|]); tauto. Qed.

Section Solve.

Variable engine : solver.Engine.
Variables time_limit gap : option Q.
Variable verbose : bool.
Variable s : solver.PyState.

(** The model object after the calls on the engine, and how they ended. *)
Variable m1 : solver.GModel.
Variable r : result unit.
Hypothesis Hcalls :
  engine_calls engine time_limit gap verbose (solver.model s) = (m1, r).

(** What the engine guarantees: a model that is proven optimal or has an
    incumbent has an objective value to read. *)
Hypothesis Hsolution :
  solver.status m1 = solver.OPTIMAL \/ (0 < solver.SolCount m1)%Z ->
  is_Ok (solver.objVal m1).

(** C6. [solve_milp] returns a boolean and does not raise.  It returns
    [True] exactly when the calls on the engine raised nothing and the
    status is OPTIMAL, or TIME_LIMIT with a solution count above 0.  It
    returns [False] for the statuses INFEASIBLE, INF_OR_UNBD, UNBOUNDED and
    NUMERIC, for TIME_LIMIT without incumbent, and for every exception of
    the engine, which it reports on the standard output. *)
Theorem solve_milp_outcome :
  exists (b : bool) (s' : solver.PyState),
    solver.solve_milp engine time_limit gap verbose s = (s', Ok b) /\
    solver.model s' = m1 /\
    solver.heap s' = solver.heap s /\
    (b = true <->
     is_Ok r /\
     (solver.status m1 = solver.OPTIMAL \/
      (solver.status m1 = solver.TIME_LIMIT /\ (0 < solver.SolCount m1)%Z))) /\
    (In (solver.status m1)
        [solver.INFEASIBLE; solver.INF_OR_UNBD; solver.UNBOUNDED;
         solver.NUMERIC] -> b = false) /\
    (forall e, r = Raise e ->
       b = false /\
       exists report : solver.line,
         solver.stdout s' = (solver.stdout s ++ [report])%list /\
         (report = solver.Gurobi_error e \/
          report = solver.Error_solving_model e)).
Proof using Hcalls Hsolution.
  unfold solver.solve_milp, try_except.
  rewrite bind_run, set_params_and_optimize_run, Hcalls. cbn [fst snd].
  destruct r as [[]|e].
  - unfold solver.check_status, solver.attr. rewrite bind_run.
    cbn [solver.model].
    destruct (decide (solver.status m1 = solver.OPTIMAL)) as [Hopt|Hnopt].
    + rewrite bind_run. cbn [solver.model].
      destruct (solver.objVal m1) as [v|x] eqn:Hv;
        [|exfalso; apply Hsolution; now left].
      eexists true, _. split; [reflexivity|]. cbn.
      split; [reflexivity|]. split; [reflexivity|].
      split; [tauto|]. split; [|discriminate].
      rewrite Hopt. unfold solver.OPTIMAL, solver.INFEASIBLE,
        solver.INF_OR_UNBD, solver.UNBOUNDED, solver.NUMERIC.
      intros [H|[H|[H|[H|[]]]]]; discriminate H.
    + rewrite bind_run. cbn [solver.model].
      destruct (decide (solver.status m1 = solver.TIME_LIMIT)) as [Htl|Hntl].
      * rewrite bind_run. cbn [solver.model].
        destruct (solver.objVal m1) as [v|x] eqn:Hv.
        -- eexists (if (0 <? solver.SolCount m1)%Z then true else false), _.
           split; [reflexivity|]. cbn.
           split; [reflexivity|]. split; [reflexivity|].
           destruct (Z.ltb_spec 0 (solver.SolCount m1)) as [Hpos|Hle].
           ++ split; [tauto|]. split; [|discriminate].
              rewrite Htl. unfold solver.TIME_LIMIT, solver.INFEASIBLE,
                solver.INF_OR_UNBD, solver.UNBOUNDED, solver.NUMERIC.
              intros [H|[H|[H|[H|[]]]]]; discriminate H.
           ++ split; [|split; [reflexivity | discriminate]].
              split; [discriminate|]. intros [_ [?|[_ ?]]]; [contradiction | lia].
        -- destruct (report_exception_run x m1 (solver.stdout s)
                       (solver.heap s)) as (report & -> & _).
           eexists false, _. split; [reflexivity|]. cbn.
           split; [reflexivity|]. split; [reflexivity|].
           split; [|split; [reflexivity | discriminate]].
           split; [discriminate|]. intros [_ [?|[_ Hpos]]]; [contradiction|].
           exfalso. apply Hsolution. now right.
      * rewrite bind_run. cbn [solver.model].
        eexists false, _. split; [reflexivity|]. cbn.
        split; [reflexivity|]. split; [reflexivity|].
        split; [|split; [reflexivity | discriminate]].
        split; [discriminate|]. intros [_ [?|[? _]]]; contradiction.
  - destruct (report_exception_run e m1 (solver.stdout s) (solver.heap s))
      as (report & Hrep).
    destruct Hrep as (-> & Hreport).
    eexists false, _. split; [reflexivity|]. cbn.
    split; [reflexivity|]. split; [reflexivity|].
    split; [split; [discriminate | intros [[] _]]|].
    split; [reflexivity|].
    intros e' [= <-]. split; [reflexivity|]. eauto.
Qed.

End Solve.

(** [sample.engine] reports an optimum: the solve of [main.py] succeeds. *)
Lemma solve_milp_outcome_sample :
  exists s' : solver.PyState,
    solver.solve_milp sample.engine (Some 300%Q) (Some (1 # 100)%Q) true
      sample.state = (s', Ok true).
Proof.
  destruct (solve_milp_outcome sample.engine (Some 300%Q) (Some (1 # 100)%Q)
              true sample.state
              (fst (engine_calls sample.engine (Some 300%Q) (Some (1 # 100)%Q)
                      true (solver.model sample.state)))
              (snd (engine_calls sample.engine (Some 300%Q) (Some (1 # 100)%Q)
                      true (solver.model sample.state)))
              (surjective_pairing _)
              ltac:(intros _; vm_compute; exact I))
    as (b & s' & Hrun & _ & _ & Hb & _).
  exists s'. rewrite Hrun. f_equal. f_equal. apply Hb.
  vm_compute. split; [exact I | now left].
Defined.

(** ** solver.py: the result set *)

Lemma bind_deref {B} (l : solver.loc) (o : pyobj) (k : pyobj -> M solver.PyState B)
    (s : solver.PyState) :
  solver.heap s !! l = Some o -> (solver.deref l ≫= k) s = k o s.
Proof. intros H. rewrite bind_run. unfold solver.deref. now rewrite H. Qed.

Lemma alloc_run (o : pyobj) (s : solver.PyState) :
  exists l s',
    solver.alloc o s = (s', Ok l) /\
    solver.model s' = solver.model s /\
    solver.stdout s' = solver.stdout s /\
    solver.heap s ⊆ solver.heap s' /\
    solver.heap s' !! l = Some o.
Proof.
  unfold solver.alloc. do 2 eexists. split; [reflexivity|]. cbn.
  split; [reflexivity|]. split; [reflexivity|]. split.
  - apply insert_subseteq, not_elem_of_dom, is_fresh.
  - apply lookup_insert_eq.
Qed.

Lemma pydiv_nonzero (a b : Q) :
  ~ (b == 0)%Q -> solver.pydiv a b = Ok (a / b)%Q.
Proof.
  intros Hb. unfold solver.pydiv. destruct (Qeq_bool b 0) eqn:E; [|reflexivity].
  apply Qeq_bool_eq in E. contradiction.
Qed.

(** A key of the result set, under the later assignments. *)
Ltac lookup_results :=
  repeat (rewrite lookup_insert_ne by discriminate); apply lookup_insert_eq.

Section Extract.

Variable vars_dict : gmap string (gmap nat Var).
Variable data : gmap string solver.loc.
Variable battery_params : gmap string Q.
Variable m : solver.GModel.

Variables l_time l_solar l_load : solver.loc.
Variable time : pyobj.
Variable x : string -> nat -> Q.
Variables capacity_kwh total_cost : Q.

Hypothesis Hd_time : data !! "time" = Some l_time.
Hypothesis Hd_solar : data !! "solar_production" = Some l_solar.
Hypothesis Hd_load : data !! "load_demand" = Some l_load.
Hypothesis Hvars :
  forall name, In name families ->
    vars_dict !! name =
    Some (model_builder.tupledict (range (len time)) name).
Hypothesis HX :
  forall name t, In name families -> (t < len time)%nat ->
    solver.X m (mkVar name t) = Ok (x name t).
Hypothesis HobjVal : solver.objVal m = Ok total_cost.
Hypothesis Hcapacity : battery_params !! "capacity_kwh" = Some capacity_kwh.
Hypothesis Hcapacity_nonzero : ~ (capacity_kwh == 0)%Q.

Lemma solved_values_run (name : string) (s : solver.PyState) :
  In name families -> solver.model s = m ->
  exists l s',
    solver.solved_values vars_dict name (range (len time)) s = (s', Ok l) /\
    solver.model s' = m /\
    solver.stdout s' = solver.stdout s /\
    solver.heap s ⊆ solver.heap s' /\
    solver.heap s' !! l = Some (Nums (map (x name) (range (len time)))).
Proof using Hvars HX.
  intros Hname Hm. unfold solver.solved_values, solver.attr.
  rewrite bind_run, Hm.
  rewrite (mapM_Ok _ (x name)).
  2:{ intros t [_ Ht]%in_seq. cbn in Ht.
      rewrite (getitem_Some _ _ _ (Hvars name Hname)), bind_Ok.
      rewrite tupledict_getitem, bind_Ok by exact Ht.
      now apply HX. }
  destruct (alloc_run (Nums (map (x name) (range (len time)))) s)
    as (l & s' & -> & Hm' & Hout & Hsub & Hl).
  exists l, s'. rewrite Hm', Hm. auto.
Qed.

(** Facts about the store, carried over an extension of it. *)
Ltac carry S :=
  match type of S with
  | ?h ⊆ ?h' =>
      repeat match goal with
        | L : h !! _ = Some _ |- _ =>
            apply (fun L' => lookup_weaken h h' _ _ L' S) in L
        end
  end.

(** The facts about the current state, moved to the state [s'] that one
    more allocation gives. *)
Ltac advance cur s' E Hm' O S :=
  match goal with
  | Hm : solver.model cur = m, Hout : solver.stdout cur = _,
    Hsub : _ ⊆ solver.heap cur |- _ =>
      rewrite bind_run, E; cbv beta iota zeta;
      carry S;
      apply (eq_trans O) in Hout;
      apply (fun H => transitivity H S) in Hsub;
      clear E Hm O S; try clear cur
  end.

(** One list of solved values. *)
Ltac values_step name l' L :=
  match goal with
  | |- context [(solver.solved_values _ name _ ≫= _) ?cur] =>
      match goal with
      | Hm : solver.model cur = m |- _ =>
          let s' := fresh "s" in
          let E := fresh "E" in
          let Hm' := fresh "Hm" in
          let O := fresh "Hout" in
          let S := fresh "S" in
          destruct (solved_values_run name cur ltac:(cbn; tauto) Hm)
            as (l' & s' & E & Hm' & O & S & L);
          advance cur s' E Hm' O S
      end
  end.

Lemma extract_results_run (s : solver.PyState) :
  solver.model s = m ->
  solver.heap s !! l_time = Some time ->
  exists results s',
    solver.extract_results vars_dict data battery_params s = (s', Ok results) /\
    solver.model s' = m /\
    solver.stdout s' = solver.stdout s /\
    solver.heap s ⊆ solver.heap s' /\
    holds_result_set (solver.heap s') results l_time l_solar l_load
      (len time) x capacity_kwh total_cost.
Proof using All.
  intros Hm Htime. unfold solver.extract_results.
  rewrite (bind_lift_Ok _ l_time) by now apply getitem_Some.
  rewrite (bind_deref _ time) by exact Htime. cbv beta zeta.
  rewrite (bind_lift_Ok _ l_time) by now apply getitem_Some.
  rewrite (bind_lift_Ok _ l_solar) by now apply getitem_Some.
  rewrite (bind_lift_Ok _ l_load) by now apply getitem_Some.
  clear Htime.
  assert (Hout : solver.stdout s = solver.stdout s) by reflexivity.
  assert (Hsub : solver.heap s ⊆ solver.heap s) by reflexivity.
  values_step "P_solar_household" l1 L1.
  values_step "P_solar_battery" l2 L2.
  values_step "P_solar_grid" l3 L3.
  values_step "P_battery_household" l4 L4.
  values_step "P_grid_battery" l5 L5.
  values_step "P_grid_household" l6 L6.
  values_step "SE" l7 L7.
  rewrite bind_run. unfold solver.attr at 1.
  match goal with Hm : solver.model _ = m |- _ => rewrite Hm end.
  rewrite (mapM_Ok _ (fun t => (x "SE" t / capacity_kwh * 100)%Q)).
  2:{ intros t [_ Ht]%in_seq. cbn in Ht.
      rewrite (getitem_Some _ _ _ (Hvars "SE" ltac:(cbn; tauto))), bind_Ok.
      rewrite tupledict_getitem, bind_Ok by exact Ht.
      rewrite (HX "SE" t ltac:(cbn; tauto) Ht), bind_Ok.
      rewrite (getitem_Some _ _ _ Hcapacity), bind_Ok.
      rewrite pydiv_nonzero, bind_Ok by assumption. reflexivity. }
  match goal with
  | |- context [(solver.alloc ?o ≫= _) ?cur] =>
      destruct (alloc_run o cur) as (l8 & s8 & E & Hm8 & O & S & L8);
      match goal with Hm : solver.model cur = m |- _ =>
        rewrite Hm in Hm8 end;
      advance cur s8 E Hm8 O S
  end.
  values_step "BC" l9 L9.
  values_step "BD" l10 L10.
  values_step "GF" l11 L11.
  rewrite bind_run. unfold solver.attr at 1.
  match goal with Hm : solver.model _ = m |- _ => rewrite Hm end.
  rewrite HobjVal.
  eexists _, _. split; [reflexivity|].
  split; [assumption|]. split; [assumption|]. split; [assumption|].
  unfold holds_result_set.
  split; [lookup_results|]. split; [lookup_results|]. split; [lookup_results|].
  split; [|split; [exists l8; split; [lookup_results | assumption]
                  | lookup_results]].
  intros name Hname. unfold families in Hname. cbn [In] in Hname.
  repeat (destruct Hname as [<-|Hname];
          [eexists; split; [lookup_results | assumption]|]).
  destruct Hname.
Qed.

End Extract.

(** C8. In [main.py] the result set exists only after a successful solve:
    when [solve_milp] returns [False] nothing is extracted and the store is
    left as it was; when it returns [True], and the engine holds a value for
    every variable of the builder and an objective value, and the capacity
    is not 0, [extract_results] returns a result set with the three input
    series, for every family of decision variables the list of the solved
    values of its [T] variables, the list [SoC[t] = SE[t] / capacity * 100],
    and the objective value as total cost. *)
Theorem main_solve_result
    (engine : solver.Engine) (vars_dict : gmap string (gmap nat Var))
    (data : gmap string solver.loc) (battery_params : gmap string Q)
    (s s1 : solver.PyState) (ok : bool)
    (l_time l_solar l_load : solver.loc) (time : pyobj)
    (x : string -> nat -> Q) (capacity_kwh total_cost : Q) :
  solver.solve_milp engine (Some 300%Q) (Some (1 # 100)%Q) true s =
  (s1, Ok ok) ->
  (ok = false ->
   exists s',
     solver.main_solve engine vars_dict data battery_params s = (s', Ok None) /\
     solver.heap s' = solver.heap s1 /\ solver.model s' = solver.model s1) /\
  (ok = true ->
   data !! "time" = Some l_time ->
   data !! "solar_production" = Some l_solar ->
   data !! "load_demand" = Some l_load ->
   solver.heap s1 !! l_time = Some time ->
   (forall name, In name families ->
      vars_dict !! name =
      Some (model_builder.tupledict (range (len time)) name)) ->
   (forall name t, In name families -> (t < len time)%nat ->
      solver.X (solver.model s1) (mkVar name t) = Ok (x name t)) ->
   solver.objVal (solver.model s1) = Ok total_cost ->
   battery_params !! "capacity_kwh" = Some capacity_kwh ->
   ~ (capacity_kwh == 0)%Q ->
   exists results s',
     solver.main_solve engine vars_dict data battery_params s =
     (s', Ok (Some results)) /\
     solver.model s' = solver.model s1 /\
     solver.heap s1 ⊆ solver.heap s' /\
     holds_result_set (solver.heap s') results l_time l_solar l_load
       (len time) x capacity_kwh total_cost).
Proof.
  intros Hsolve. unfold solver.main_solve. split.
  - intros ->. rewrite bind_run, Hsolve. eexists. split; [reflexivity|].
    split; reflexivity.
  - intros -> Hd_time Hd_solar Hd_load Htime Hvars HX HobjVal Hcap Hcap0.
    rewrite bind_run, Hsolve. unfold solver.print. rewrite bind_modify.
    destruct (extract_results_run vars_dict data battery_params
                (solver.model s1) l_time l_solar l_load time x
                capacity_kwh total_cost Hd_time Hd_solar Hd_load Hvars HX
                HobjVal Hcap Hcap0
                (solver.mkPyState (solver.model s1)
                   (solver.stdout s1 ++ [solver.Model_solved_successfully])
                   (solver.heap s1))
                eq_refl Htime)
      as (results & s' & E & Hm & _ & Hsub & Hres).
    rewrite bind_run, E. exists results, s'. split; [reflexivity|]. auto.
Qed.

(** The solve of [main.py] on [sample]: a result set with total cost 0. *)
Lemma main_solve_result_sample :
  exists results s',
    solver.main_solve sample.engine sample.vars_dict sample.data_refs
      sample.battery_params sample.state = (s', Ok (Some results)) /\
    results !! "time" = Some (solver.VRef 0%nat) /\
    results !! "total_cost" = Some (solver.VFloat 0%Q).
Proof.
  destruct (proj2
              (main_solve_result sample.engine sample.vars_dict
                 sample.data_refs sample.battery_params sample.state
                 sample.solved true
                 0%nat 1%nat 2%nat (Times [mkTimestamp 3 0; mkTimestamp 12 5])
                 (fun _ _ => 0%Q) (48 # 10)%Q 0%Q
                 ltac:(vm_compute; reflexivity))
              eq_refl
              ltac:(vm_compute; reflexivity) ltac:(vm_compute; reflexivity)
              ltac:(vm_compute; reflexivity) ltac:(vm_compute; reflexivity)
              ltac:(intros name Hname; unfold families in Hname;
                    cbn [In] in Hname;
                    repeat (destruct Hname as [<-|Hname];
                            [vm_compute; reflexivity|]);
                    destruct Hname)
              ltac:(intros; reflexivity)
              ltac:(reflexivity)
              ltac:(vm_compute; reflexivity)
              ltac:(unfold Qeq; cbn; lia))
    as (results & s' & E & _ & _ & Hres).
  exists results, s'. split; [exact E|].
  destruct Hres as (Ht & _ & _ & _ & _ & Hc). split; assumption.
Defined.

(** With a capacity of 0 and at least one step, the division of the
    percentage raises: [extract_results] then gives no result set. *)
Lemma extract_results_zero_capacity :
  snd (solver.extract_results sample.vars_dict sample.data_refs
         (<["capacity_kwh" := 0%Q]> sample.battery_params) sample.solved) =
  Raise ZeroDivisionError.
Proof. vm_compute. reflexivity. Qed.

(** ** solver.py: the input series in the result set *)

Lemma bind_inv {S A B} (c : M S A) (k : A -> M S B) (s s' : S) (b : B) :
  (c ≫= k) s = (s', Ok b) ->
  exists a s1, c s = (s1, Ok a) /\ k a s1 = (s', Ok b).
Proof.
  rewrite bind_run. destruct (c s) as [s1 [a|e]]; [eauto | discriminate].
Qed.

Lemma keeps_store_lift {A} (r : result A) : keeps_store (lift r).
Proof. intros s. reflexivity. Qed.

Lemma keeps_store_ret {A} (a : A) : keeps_store (mret a).
Proof. intros s. reflexivity. Qed.

Lemma keeps_store_attr {A} (f : solver.GModel -> result A) :
  keeps_store (solver.attr f).
Proof. intros s. reflexivity. Qed.

Lemma keeps_store_deref (l : solver.loc) : keeps_store (solver.deref l).
Proof. intros s. reflexivity. Qed.

Lemma keeps_store_alloc (o : pyobj) : keeps_store (solver.alloc o).
Proof.
  intros s. unfold solver.alloc. cbn.
  apply insert_subseteq, not_elem_of_dom, is_fresh.
Qed.

Lemma keeps_store_bind {A B} (c : M solver.PyState A)
    (k : A -> M solver.PyState B) :
  keeps_store c -> (forall a, keeps_store (k a)) -> keeps_store (c ≫= k).
Proof.
  intros Hc Hk s. rewrite bind_run. specialize (Hc s).
  destruct (c s) as [s1 [a|e]]; cbn [fst] in *; [|exact Hc].
  etransitivity; [exact Hc | apply Hk].
Qed.

Lemma keeps_store_extract_results
    (vars_dict : gmap string (gmap nat Var)) (data : gmap string solver.loc)
    (battery_params : gmap string Q) :
  keeps_store (solver.extract_results vars_dict data battery_params).
Proof.
  unfold solver.extract_results, solver.solved_values.
  repeat first
    [ apply keeps_store_lift | apply keeps_store_ret | apply keeps_store_attr
    | apply keeps_store_deref | apply keeps_store_alloc
    | apply keeps_store_bind; [|intros ?]; cbv zeta ].
Qed.

(** C10. When [extract_results] returns, the entries ['time'],
    ['solar_production'] and ['load_demand'] of the result set are the very
    references that [data] holds under these keys: no copy is made, and the
    objects that they designate are in the store as they were.  The result
    set shares the input series with the caller. *)
Theorem extract_results_aliases_input
    (vars_dict : gmap string (gmap nat Var)) (data : gmap string solver.loc)
    (battery_params : gmap string Q) (s s' : solver.PyState)
    (results : gmap string solver.pyval) :
  solver.extract_results vars_dict data battery_params s = (s', Ok results) ->
  forall key, In key input_keys ->
    exists l,
      data !! key = Some l /\
      results !! key = Some (solver.VRef l) /\
      forall o, solver.heap s !! l = Some o -> solver.heap s' !! l = Some o.
Proof.
  intros H.
  assert (Hsub : solver.heap s ⊆ solver.heap s').
  { pose proof (keeps_store_extract_results vars_dict data battery_params s)
      as Hk. now rewrite H in Hk. }
  unfold solver.extract_results in H.
  apply bind_lift_inv in H as (l0 & _ & H).
  apply bind_inv in H as (time & s0 & _ & H). cbv beta zeta in H.
  apply bind_lift_inv in H as (l_time & Ht%getitem_Ok & H).
  apply bind_lift_inv in H as (l_solar & Hs%getitem_Ok & H).
  apply bind_lift_inv in H as (l_load & Hl%getitem_Ok & H).
  do 13 (apply bind_inv in H as (? & ? & _ & H)).
  injection H as _ <-.
  intros key Hkey. unfold input_keys in Hkey. cbn [In] in Hkey.
  destruct Hkey as [<-|[<-|[<-|[]]]]; eexists;
    (split; [eassumption|]);
    (split; [lookup_results|]);
    intros o Ho; exact (lookup_weaken _ _ _ _ Ho Hsub).
Qed.

(** On [sample], the result set refers to the locations 0, 1 and 2, where
    the caller's series are. *)
Lemma extract_results_aliases_input_sample :
  exists l,
    sample.data_refs !! "solar_production" = Some l /\
    match snd (solver.extract_results sample.vars_dict sample.data_refs
                 sample.battery_params sample.solved) with
    | Ok results => results !! "solar_production" = Some (solver.VRef l)
    | Raise _ => False
    end.
Proof.
  destruct (extract_results_aliases_input sample.vars_dict sample.data_refs
              sample.battery_params sample.solved
              (fst (solver.extract_results sample.vars_dict sample.data_refs
                      sample.battery_params sample.solved))
              (match snd (solver.extract_results sample.vars_dict
                            sample.data_refs sample.battery_params
                            sample.solved) with
               | Ok results => results
               | Raise _ => ∅
               end)
              ltac:(vm_compute; reflexivity)
              "solar_production" ltac:(cbn; tauto))
    as (l & Hd & Hr & _).
  exists l. split; [exact Hd|].
  destruct (snd (solver.extract_results _ _ _ _)); [exact Hr|].
  rewrite lookup_empty in Hr. discriminate Hr.
Defined.

(** ** The other constraints on [sample] *)

(** A hypothesis on the entries of the two series of [sample]. *)
Ltac sample_series :=
  intros [|[|t]] q Ht E; cbn in E;
  [ injection E as <-; unfold Qle; cbn; lia
  | injection E as <-; unfold Qle; cbn; lia
  | cbn in Ht; lia ].

(** A comparison of two numerals. *)
Ltac numeral := unfold Qle, Qlt; cbn; lia.

Lemma sample_dispatch_feasible :
  feasible (model_builder.model_after sample.built) sample.dispatch.
Proof.
  on_sample grid_only_feasible as H.
  apply H; first [sample_series | numeral].
Qed.

(** Step 0 of [sample.data]: 100 W of solar power, 50 W of load. *)
Lemma balance_constraints_sample :
  (exists k, In k (constrs (model_builder.model_after sample.built)) /\
     cname k = "solar_balance_" +:+ pretty 0%nat /\
     forall a, sat a k <->
       (a (mkVar "P_solar_household" 0) + a (mkVar "P_solar_battery" 0)
        + a (mkVar "P_solar_grid" 0) == 100)%Q) /\
  (0 <= sample.dispatch (mkVar "P_solar_grid" 0))%Q /\
  (sample.dispatch (mkVar "P_solar_grid" 0) <= 100)%Q.
Proof.
  on_sample balance_constraints as H.
  destruct (proj2 H 0%nat 100%Q 50%Q ltac:(cbn; lia) eq_refl eq_refl)
    as (Hk & _ & Hb).
  split; [exact Hk|].
  apply (proj1 (Hb sample.dispatch sample_dispatch_feasible)). cbn. tauto.
Defined.

Lemma soc_bounds_and_rate_limits_sample :
  ((11 # 100) * (48 # 10) <= sample.dispatch (mkVar "SE" 1))%Q /\
  (sample.dispatch (mkVar "SE" 1) <= 1 * (48 # 10))%Q.
Proof.
  on_sample soc_bounds_and_rate_limits as H.
  destruct (proj2 H 1%nat ltac:(cbn; lia)) as (_ & _ & _ & _ & Hf).
  destruct (Hf sample.dispatch sample_dispatch_feasible) as (H1 & H2 & _).
  split; assumption.
Defined.

Lemma rate_limits_follow_from_linkage_sample :
  exists kcb kcl,
    In kcb (constrs (model_builder.model_after sample.built)) /\
    In kcl (constrs (model_builder.model_after sample.built)) /\
    cname kcb = "charge_binary_" +:+ pretty 0%nat /\
    cname kcl = "charge_limit_" +:+ pretty 0%nat /\
    forall a,
      (forall d, In d (variables (model_builder.model_after sample.built)) ->
                 in_domain a d) ->
      sat a kcb -> sat a kcl.
Proof.
  on_sample rate_limits_follow_from_linkage as H.
  destruct (H ltac:(numeral) ltac:(numeral) 0%nat ltac:(cbn; lia))
    as (kcb & kdb & kcl & kdl & H1 & N1 & _ & _ & H3 & N3 & _ & _ & Himp).
  exists kcb, kcl. repeat (split; [assumption|]).
  intros a Hdom. exact (proj1 (Himp a Hdom)).
Defined.

Lemma grid_flow_exclusive_sample :
  ~ ((0 < sample.dispatch (mkVar "P_grid_household" 1)
          + sample.dispatch (mkVar "P_grid_battery" 1))%Q
     /\ (0 < sample.dispatch (mkVar "P_solar_grid" 1))%Q) /\
  In (mkVarDecl (mkVar "GF" 1) 0%Q BINARY)
     (variables (model_builder.model_after sample.built)).
Proof.
  on_sample grid_flow_exclusive as H.
  destruct (H 1%nat ltac:(cbn; lia)) as [Hd Hf].
  split; [|exact Hd].
  exact (proj2 (Hf sample.dispatch sample_dispatch_feasible)).
Defined.

Lemma stored_energy_telescopes_sample :
  (sample.dispatch (mkVar "SE" 1) ==
   (22 # 100) * (48 # 10) +
   Qsum (fun u =>
           (sample.dispatch (mkVar "P_solar_battery" u)
            + sample.dispatch (mkVar "P_grid_battery" u))
           * ((5 / 60) / 1000) * (95 # 100)
           - sample.dispatch (mkVar "P_battery_household" u)
             * ((5 / 60) / 1000) / (95 # 100))
     (range 2))%Q /\
  feasible (model_builder.model_after sample.built) sample.dispatch.
Proof.
  on_sample stored_energy_telescopes as H.
  split; [|exact sample_dispatch_feasible].
  apply (H sample.dispatch sample_dispatch_feasible 1%nat). cbn. lia.
Defined.

Lemma feasible_needs_nonnegative_series_sample :
  (0 <= 200)%Q /\ (0 <= 300)%Q.
Proof.
  on_sample feasible_needs_nonnegative_series as H.
  apply (H (ex_intro _ sample.dispatch sample_dispatch_feasible) 1%nat);
    [cbn; lia | reflexivity | reflexivity].
Defined.

Lemma objective_bounded_below_sample :
  (Qsum (fun t => - (nth t [100%Q; 200%Q] 0 * ((5 / 60) / 1000) * (195 # 1000)))
     (range 2)
   <= eval sample.dispatch
        (objective (model_builder.model_after sample.built)))%Q.
Proof.
  on_sample objective_bounded_below as H.
  apply H; [|numeral | exact sample_dispatch_feasible].
  intros [|[|t]] Ht; [numeral | numeral | cbn in Ht; lia].
Defined.

Lemma model_size_sample :
  length (variables (model_builder.model_after sample.built)) = 20%nat /\
  length (constrs (model_builder.model_after sample.built)) = 24%nat.
Proof.
  on_sample model_size as H. exact H.
Defined.

Lemma returned_variables_sample :
  exists vars_dict,
    model_builder.returned sample.built = Ok vars_dict /\
    exists vars, vars_dict !! "SE" = Some vars /\
      vars !! 1%nat = Some (mkVar "SE" 1) /\ vars !! 2%nat = None.
Proof.
  on_sample returned_variables as H.
  destruct H as (vars_dict & Hret & _ & Hv). exists vars_dict.
  split; [exact Hret|].
  destruct (Hv "SE" 1%nat ltac:(cbn; tauto)) as (vars & Hvars & H1).
  destruct (Hv "SE" 2%nat ltac:(cbn; tauto)) as (vars' & Hvars' & H2).
  rewrite Hvars in Hvars'. injection Hvars' as <-.
  exists vars. split; [exact Hvars|]. split; [exact H1 | exact H2].
Defined.

Lemma grid_only_dispatch_feasible_sample :
  feasible (model_builder.model_after sample.built) sample.dispatch.
Proof.
  on_sample grid_only_dispatch_feasible as H.
  apply H; first [sample_series | numeral].
Defined.

(** ** model_builder.py: which exception, and how far the construction got *)

Lemma run_stmts_app_Ok (cs : list Constr) (rs : list (result Constr)) (m : Model) :
  run_stmts (map Ok cs ++ rs) m =
  run_stmts rs
    (mkModel (mname m) (variables m) (objective m) (modelsense m)
       (constrs m ++ cs)).
Proof.
  revert m. induction cs as [|c cs IH]; intros m; cbn [map app run_stmts].
  - rewrite app_nil_r. now destruct m.
  - rewrite IH. cbn. now rewrite <- app_assoc.
Qed.

(** A loop whose body first fails at step [t0]: the constraints of the
    earlier steps are added, then the exception leaves the loop. *)
Lemma for_addConstr_first_failure {B} (e : nat -> result Constr)
    (g : nat -> Constr) (T t0 : nat) (x : exn)
    (k : unit -> M Model B) (m : Model) :
  (t0 < T)%nat ->
  (forall t, (t < t0)%nat -> e t = Ok (g t)) ->
  e t0 = Raise x ->
  (for_ (range T) (fun t => c ← lift (e t); model_builder.addConstr c) ≫= k) m =
  (mkModel (mname m) (variables m) (objective m) (modelsense m)
     (constrs m ++ map g (range t0)), Raise x).
Proof.
  intros Ht0 Hok Hraise. rewrite bind_run, for_addConstr.
  replace (range T) with (range t0 ++ t0 :: seq (S t0) (T - S t0))%list.
  2:{ unfold range. change (t0 :: seq (S t0) (T - S t0))
        with (seq (0 + t0) (S (T - S t0))).
      rewrite <- seq_app. f_equal. lia. }
  rewrite map_app. cbn [map].
  rewrite (map_ext_in e (fun t => Ok (g t)) (range t0)).
  2:{ intros t [_ Ht]%in_seq. apply Hok. cbn in Ht. lia. }
  rewrite <- (map_map g Ok), run_stmts_app_Ok, Hraise. reflexivity.
Qed.

Lemma mapM_first_failure {A} (f : nat -> result A) (T t0 : nat) (x : exn) :
  (t0 < T)%nat ->
  (forall t, (t < t0)%nat -> is_Ok (f t)) ->
  f t0 = Raise x ->
  mapM f (range T) = Raise x.
Proof.
  intros Ht0 Hok Hraise.
  replace (range T) with (range t0 ++ t0 :: seq (S t0) (T - S t0))%list.
  2:{ unfold range. change (t0 :: seq (S t0) (T - S t0))
        with (seq (0 + t0) (S (T - S t0))).
      rewrite <- seq_app. f_equal. lia. }
  assert (Hall : forall t, In t (range t0) -> is_Ok (f t)).
  { intros t [_ Ht]%in_seq. apply Hok. cbn in Ht. lia. }
  clear Hok. induction (range t0) as [|u l IH]; cbn [app mapM].
  - now rewrite Hraise.
  - specialize (Hall u (or_introl eq_refl)) as Hu.
    destruct (f u) as [y|]; [|destruct Hu]. rewrite bind_Ok.
    rewrite IH by (intros t Ht; apply Hall; now right). reflexivity.
Qed.

(** Without the key ['time'] the body raises [KeyError('time')] at once. *)
Lemma build_without_time
    (GUROBI_LICENSE_FILE : option string) (environ : gmap string string)
    (data : gmap string pyobj) (battery_params cost_params : gmap string Q)
    (buy_rates : gmap nat Q) :
  data !! "time" = None ->
  let run :=
    model_builder.create_milp_model GUROBI_LICENSE_FILE environ
      data battery_params cost_params buy_rates in
  model_builder.returned run = Raise (KeyError "time") /\
  model_builder.model_after run = new_Model "PV_Battery_Optimization".
Proof.
  intros Htime. cbv zeta.
  unfold model_builder.create_milp_model, model_builder.build_model.
  rewrite bind_run. unfold lift, getitem. rewrite Htime. split; reflexivity.
Qed.

(** With an empty horizon the body returns a model without variables and
    without constraints. *)
Lemma build_empty_horizon
    (GUROBI_LICENSE_FILE : option string) (environ : gmap string string)
    (data : gmap string pyobj) (battery_params cost_params : gmap string Q)
    (buy_rates : gmap nat Q) (time : pyobj) :
  data !! "time" = Some time -> len time = 0%nat ->
  let run :=
    model_builder.create_milp_model GUROBI_LICENSE_FILE environ
      data battery_params cost_params buy_rates in
  is_Ok (model_builder.returned run) /\
  variables (model_builder.model_after run) = [] /\
  constrs (model_builder.model_after run) = [] /\
  objective (model_builder.model_after run) = EConst 0%Q /\
  modelsense (model_builder.model_after run) = MINIMIZE.
Proof.
  intros Htime HT. cbv zeta.
  unfold model_builder.create_milp_model, model_builder.build_model.
  rewrite (bind_lift_Ok _ time) by now apply getitem_Some.
  cbv beta zeta. rewrite HT. cbn [range seq for_ mapM]. unfold new_Model.
  do 10 (rewrite bind_addVars; cbv beta; simpl_model).
  rewrite (bind_lift_Ok _ []) by reflexivity.
  unfold model_builder.setObjective. rewrite bind_modify. simpl_model.
  do 9 rewrite bind_ret. cbn. repeat split.
Qed.

Lemma all_Ok {A} (rs : list (result A)) :
  (forall r, In r rs -> is_Ok r) -> exists ys, rs = map Ok ys.
Proof.
  induction rs as [|r rs IH]; intros H; [now exists []|].
  destruct IH as (ys & ->); [intros; apply H; now right|].
  specialize (H r (or_introl eq_refl)).
  destruct r as [y|]; [|destruct H]. now exists (y :: ys).
Qed.

Lemma mapM_map_Ok {A B} (f : A -> result B) (l : list A) (ys : list B) :
  map f l = map Ok ys -> mapM f l = Ok ys.
Proof.
  revert ys. induction l as [|x l IH]; intros [|y ys] H; try discriminate.
  - reflexivity.
  - cbn [map] in H. injection H as Hx Hl. cbn [mapM].
    rewrite Hx, bind_Ok, (IH ys Hl). reflexivity.
Qed.

Section ObjectiveFirst.

Variable GUROBI_LICENSE_FILE : option string.
Variable environ : gmap string string.
Variable data : gmap string pyobj.
Variables battery_params cost_params : gmap string Q.
Variable buy_rates : gmap nat Q.
Variable time : pyobj.
Variable t0 : nat.

Hypothesis Htime : data !! "time" = Some time.
Hypothesis Ht0 : (t0 < len time)%nat.
Hypothesis Hearlier : forall t, (t < t0)%nat -> is_Some (buy_rates !! t).

Let run : model_builder.outcome :=
  model_builder.create_milp_model GUROBI_LICENSE_FILE environ
    data battery_params cost_params buy_rates.

(** The builder up to the objective, which raises [x] at step [t0]. *)
Lemma objective_first_failure (x : exn) :
  (forall t, (t < t0)%nat -> is_Some (cost_params !! "sell_price")) ->
  model_builder.objective_term cost_params buy_rates
    (model_builder.tupledict (range (len time)) "P_solar_grid")
    (model_builder.tupledict (range (len time)) "P_grid_battery")
    (model_builder.tupledict (range (len time)) "P_grid_household") t0 =
  Raise x ->
  model_builder.returned run = Raise x /\
  variables (model_builder.model_after run) = declared_variables (len time) /\
  constrs (model_builder.model_after run) = [] /\
  objective (model_builder.model_after run) = EConst 0%Q.
Proof using Htime Ht0 Hearlier.
  intros Hsell Hraise.
  unfold run, model_builder.create_milp_model, model_builder.build_model.
  rewrite (bind_lift_Ok _ time) by now apply getitem_Some.
  cbv beta zeta. unfold new_Model.
  do 10 (rewrite bind_addVars; cbv beta; simpl_model).
  rewrite bind_run. unfold lift at 1.
  rewrite (mapM_first_failure _ (len time) t0 x Ht0); [| |exact Hraise].
  - cbn. unfold declared_variables. rewrite <- !app_assoc. repeat split.
  - intros t Ht. unfold model_builder.objective_term.
    rewrite !tupledict_getitem by lia. rewrite !bind_Ok.
    destruct (Hearlier t Ht) as [r Hr]. destruct (Hsell t Ht) as [sp Hsp].
    unfold getitem_int, getitem. rewrite Hr, Hsp. exact I.
Qed.

(** A missing rate, or a missing selling price, is met at the objective. *)
Lemma build_objective_first :
  (buy_rates !! t0 = None ->
   (forall t, (t < t0)%nat -> is_Some (cost_params !! "sell_price")) ->
   model_builder.returned run = Raise (KeyErrorInt t0) /\
   variables (model_builder.model_after run) = declared_variables (len time) /\
   constrs (model_builder.model_after run) = [] /\
   objective (model_builder.model_after run) = EConst 0%Q) /\
  (t0 = 0%nat -> is_Some (buy_rates !! 0%nat) ->
   cost_params !! "sell_price" = None ->
   model_builder.returned run = Raise (KeyError "sell_price") /\
   variables (model_builder.model_after run) = declared_variables (len time) /\
   constrs (model_builder.model_after run) = [] /\
   objective (model_builder.model_after run) = EConst 0%Q).
Proof using Htime Ht0 Hearlier.
  split.
  - intros Hnone Hsell. apply objective_first_failure; [exact Hsell|].
    unfold model_builder.objective_term.
    rewrite !tupledict_getitem by lia. rewrite !bind_Ok.
    unfold getitem_int. now rewrite Hnone.
  - intros E0 [r Hr] Hnone. rewrite <- E0 in Hr.
    apply objective_first_failure; [intros; lia|].
    unfold model_builder.objective_term.
    rewrite !tupledict_getitem by lia. rewrite !bind_Ok.
    unfold getitem_int, getitem. now rewrite Hr, Hnone.
Qed.

End ObjectiveFirst.

Lemma ediv_zero (e : LinExpr) (k : Q) :
  (k == 0)%Q -> ediv e k = Raise ZeroDivisionError.
Proof.
  intros Hk. unfold ediv. destruct (Qeq_bool k 0) eqn:E; [reflexivity|].
  apply Qeq_bool_neq in E. contradiction.
Qed.

Section PartialConstruction.

Variable GUROBI_LICENSE_FILE : option string.
Variable environ : gmap string string.
Variable data : gmap string pyobj.
Variables battery_params cost_params : gmap string Q.
Variable buy_rates : gmap nat Q.
Variable time : pyobj.
Variable solar : list Q.

Hypothesis Htime : data !! "time" = Some time.
Hypothesis Hsolar : data !! "solar_production" = Some (Nums solar).
Hypothesis Hrates : forall t, (t < len time)%nat -> is_Some (buy_rates !! t).
Hypothesis Hsell : is_Some (cost_params !! "sell_price").

Let run : model_builder.outcome :=
  model_builder.create_milp_model GUROBI_LICENSE_FILE environ
    data battery_params cost_params buy_rates.

Lemma objective_terms_Ok :
  exists terms,
    mapM (model_builder.objective_term cost_params buy_rates
            (model_builder.tupledict (range (len time)) "P_solar_grid")
            (model_builder.tupledict (range (len time)) "P_grid_battery")
            (model_builder.tupledict (range (len time)) "P_grid_household"))
      (range (len time)) = Ok terms.
Proof using Hrates Hsell.
  destruct (all_Ok
              (map (model_builder.objective_term cost_params buy_rates
                      (model_builder.tupledict (range (len time)) "P_solar_grid")
                      (model_builder.tupledict (range (len time)) "P_grid_battery")
                      (model_builder.tupledict (range (len time))
                         "P_grid_household"))
                 (range (len time)))) as (terms & Hterms).
  - intros r (t & <- & [_ Ht]%in_seq)%in_map_iff. cbn in Ht.
    unfold model_builder.objective_term.
    rewrite !tupledict_getitem by lia. rewrite !bind_Ok.
    destruct (Hrates t Ht) as [q Hq]. destruct Hsell as [sp Hsp].
    unfold getitem_int, getitem. rewrite Hq, Hsp. exact I.
  - exists terms. now apply mapM_map_Ok.
Qed.

(** A solar series shorter than the horizon: the solar balances of the
    steps that have an entry are added, then the subscript raises. *)
Lemma build_short_series :
  (length solar < len time)%nat ->
  model_builder.returned run = Raise IndexError /\
  constrs (model_builder.model_after run) =
  map (solar_balance_of solar) (range (length solar)).
Proof using Htime Hsolar Hrates Hsell.
  intros Hshort.
  unfold run, model_builder.create_milp_model, model_builder.build_model.
  rewrite (bind_lift_Ok _ time) by now apply getitem_Some.
  cbv beta zeta. unfold new_Model.
  do 10 (rewrite bind_addVars; cbv beta; simpl_model).
  destruct objective_terms_Ok as (terms & Hterms).
  rewrite (bind_lift_Ok _ terms) by exact Hterms.
  unfold model_builder.setObjective. rewrite bind_modify. simpl_model.
  rewrite (for_addConstr_first_failure _
             (fun t =>
                mkConstr
                  (EAdd (EAdd (EVar (mkVar "P_solar_household" t))
                           (EVar (mkVar "P_solar_battery" t)))
                     (EVar (mkVar "P_solar_grid" t)))
                  EQUAL (EConst (nth t solar 0%Q))
                  ("solar_balance_" +:+ pretty t))
             (len time) (length solar) IndexError _ _ Hshort).
  - cbn [model_builder.returned model_builder.model_after constrs app].
    split; reflexivity.
  - intros t Ht. unfold model_builder.solar_balance.
    rewrite !tupledict_getitem by lia. rewrite !bind_Ok.
    rewrite (getitem_Some _ _ _ Hsolar), bind_Ok.
    rewrite num_at_nth by exact Ht. reflexivity.
  - unfold model_builder.solar_balance.
    rewrite !tupledict_getitem by lia. rewrite !bind_Ok.
    rewrite (getitem_Some _ _ _ Hsolar), bind_Ok.
    cbn. now rewrite (proj2 (lookup_ge_None solar (length solar))).
Qed.

Variable load : list Q.
Variables initial_soc capacity_kwh charge_efficiency discharge_efficiency : Q.

Hypothesis Hload : data !! "load_demand" = Some (Nums load).
Hypothesis Hsolar_len : (len time <= length solar)%nat.
Hypothesis Hload_len : (len time <= length load)%nat.
Hypothesis Hinitial_soc : battery_params !! "initial_soc" = Some initial_soc.
Hypothesis Hcapacity : battery_params !! "capacity_kwh" = Some capacity_kwh.
Hypothesis Hcharge_eff :
  battery_params !! "charge_efficiency" = Some charge_efficiency.
Hypothesis Hdischarge_eff :
  battery_params !! "discharge_efficiency" = Some discharge_efficiency.

(** A discharge efficiency of 0 is met at the battery dynamics of step 0,
    after the two balances of every step. *)
Lemma build_zero_discharge_efficiency :
  (0 < len time)%nat -> (discharge_efficiency == 0)%Q ->
  model_builder.returned run = Raise ZeroDivisionError /\
  constrs (model_builder.model_after run) =
  (map (solar_balance_of solar) (range (len time)) ++
   map (load_balance_of load) (range (len time)))%list.
Proof using All.
  intros Hpos Hzero.
  unfold run, model_builder.create_milp_model, model_builder.build_model.
  rewrite (bind_lift_Ok _ time) by now apply getitem_Some.
  cbv beta zeta. unfold new_Model.
  do 10 (rewrite bind_addVars; cbv beta; simpl_model).
  destruct objective_terms_Ok as (terms & Hterms).
  rewrite (bind_lift_Ok _ terms) by exact Hterms.
  unfold model_builder.setObjective. rewrite bind_modify. simpl_model.
  rewrite (bind_for_addConstr _ (solar_balance_of solar)).
  2:{ intros t [_ Ht]%in_seq. cbn in Ht. unfold model_builder.solar_balance.
      lookups. reflexivity. }
  simpl_model.
  rewrite (bind_for_addConstr _ (load_balance_of load)).
  2:{ intros t [_ Ht]%in_seq. cbn in Ht. unfold model_builder.load_balance.
      lookups. reflexivity. }
  simpl_model.
  rewrite (for_addConstr_first_failure _
             (fun _ => mkConstr (EConst 0%Q) EQUAL (EConst 0%Q) "")
             (len time) 0%nat ZeroDivisionError _ _ Hpos).
  - cbn [model_builder.returned model_builder.model_after constrs app
         range seq map].
    split; [reflexivity|]. now rewrite app_nil_r.
  - intros t Ht. lia.
  - unfold model_builder.battery_dynamics.
    destruct (decide (0%nat = 0%nat)) as [_|]; [|congruence].
    lookups. now rewrite ediv_zero.
Qed.

End PartialConstruction.

(** ** data_loader.py: which keys the rates need *)

(** A loop whose steps update the state when they succeed and leave it
    when they raise, the outcome of a step not depending on the state. *)
Lemma for_independent {S} (body : nat -> M S unit)
    (upd : nat -> S -> S) (r : nat -> result unit) (l : list nat) :
  (forall t s, In t l ->
     body t s = match r t with
                | Ok _ => (upd t s, Ok tt)
                | Raise e => (s, Raise e)
                end) ->
  forall s, is_Ok (snd (for_ l body s)) <-> forall t, In t l -> is_Ok (r t).
Proof.
  induction l as [|t l IH]; intros Hbody s.
  - cbn. split; [intros _ t [] | intros _; exact I].
  - cbn [for_]. rewrite bind_run, (Hbody t s (or_introl eq_refl)).
    destruct (r t) as [[]|e] eqn:Hr.
    + rewrite IH by (intros; apply Hbody; now right). split.
      * intros H u [<-|Hu]; [now rewrite Hr | now apply H].
      * intros H u Hu. apply H. now right.
    + cbn [snd is_Ok]. split; [intros [] |].
      intros H. specialize (H t (or_introl eq_refl)). now rewrite Hr in H.
Qed.

(** X17. The rate table is read band by band.  For a timestamp list under
    ['time'], [get_time_of_use_rates] returns exactly when the table holds
    the rate of the band of every timestamp (['boost_rate'], ['night_rate']
    or ['day_rate'], see [band_key]); a rate whose band no timestamp falls
    into may be absent. *)
Theorem get_time_of_use_rates_returns_iff
    (data : gmap string pyobj) (cost_params : gmap string Q)
    (times : list Timestamp) :
  data !! "time" = Some (Times times) ->
  is_Ok (data_loader.get_time_of_use_rates data cost_params) <->
  forall ts, In ts times -> is_Some (cost_params !! band_key (hour ts)).
Proof.
  intros Htime. unfold data_loader.get_time_of_use_rates.
  rewrite (bind_lift_Ok _ (Times times)) by now apply getitem_Some.
  cbn [len].
  pose (r := fun t =>
          match times !! t with
          | Some ts =>
              match cost_params !! band_key (hour ts) with
              | Some _ => Ok tt
              | None => Raise (KeyError (band_key (hour ts)))
              end
          | None => Raise IndexError
          end).
  pose (upd := fun (t : nat) (m : gmap nat Q) =>
          match times !! t with
          | Some ts =>
              match cost_params !! band_key (hour ts) with
              | Some q => <[t := q]> m
              | None => m
              end
          | None => m
          end).
  pose proof (for_independent
                (data_loader.get_time_of_use_rates_body data cost_params)
                upd r (range (length times))) as Hfor.
  destruct (for_ (range (length times))
              (data_loader.get_time_of_use_rates_body data cost_params) ∅)
    as [m' res] eqn:Hrun.
  assert (Hiff : is_Ok res <-> forall t, In t (range (length times)) -> is_Ok (r t)).
  { specialize (Hfor ltac:(
      intros t s _; unfold data_loader.get_time_of_use_rates_body, r, upd;
      rewrite (bind_lift_Ok _ (Times times)) by (now apply getitem_Some);
      rewrite bind_run; unfold lift at 1; cbn [hour_at];
      destruct (times !! t) as [ts|]; [|reflexivity];
      unfold band_key;
      destruct ((2 <=? hour ts) && (hour ts <? 4))%Z;
        [|destruct ((23 <=? hour ts) || (hour ts <? 8))%Z];
      rewrite bind_run; unfold lift, getitem;
      match goal with |- context [cost_params !! ?k] =>
        destruct (cost_params !! k) end; reflexivity) ∅).
    now rewrite Hrun in Hfor. }
  assert (Hres : is_Ok (match res with
                         | Ok _ => Ok m'
                         | Raise e => Raise e
                         end) <-> is_Ok res) by now destruct res.
  rewrite Hres, Hiff. unfold r. split.
  - intros H ts (t & Ht)%list_elem_of_In%list_elem_of_lookup.
    assert (Hin : In t (range (length times))).
    { apply in_seq. apply lookup_lt_Some in Ht. lia. }
    specialize (H t Hin). rewrite Ht in H.
    destruct (cost_params !! band_key (hour ts)); [eauto | destruct H].
  - intros H t Hin. destruct (times !! t) as [ts|] eqn:Ht.
    + destruct (H ts) as [q ->]; [|exact I].
      apply list_elem_of_In, list_elem_of_lookup. eauto.
    + exfalso. apply lookup_ge_None in Ht. apply in_seq in Hin. lia.
Qed.

(** A table with the day rate only serves a series of day-time steps. *)
Lemma get_time_of_use_rates_returns_iff_sample :
  is_Ok (data_loader.get_time_of_use_rates sample.noon sample.day_only).
Proof.
  apply (get_time_of_use_rates_returns_iff sample.noon sample.day_only
           [mkTimestamp 12 5] ltac:(vm_compute; reflexivity)).
  intros ts [<-|[]]. vm_compute. eauto.
Defined.

(** ** main.py: from the loaded data to the model *)

Lemma lookup_data3 (times : list Timestamp) (solar load : list Q) :
  let data : gmap string pyobj :=
    <["time" := Times times]>
      (<["solar_production" := Nums solar]>
         (<["load_demand" := Nums load]> ∅)) in
  data !! "time" = Some (Times times) /\
  data !! "solar_production" = Some (Nums solar) /\
  data !! "load_demand" = Some (Nums load).
Proof.
  cbv zeta. split; [apply lookup_insert_eq|]. split.
  - rewrite lookup_insert_ne by discriminate. apply lookup_insert_eq.
  - do 2 (rewrite lookup_insert_ne by discriminate). apply lookup_insert_eq.
Qed.

(** For data as [load_data] builds it, the tariff mapper returns with the
    constants of [main.py], and its rates and these constants are what the
    builder reads. *)
Lemma main_input_ok (times : list Timestamp) (solar load : list Q) :
  length solar = length times -> length load = length times ->
  let data : gmap string pyobj :=
    <["time" := Times times]>
      (<["solar_production" := Nums solar]>
         (<["load_demand" := Nums load]> ∅)) in
  exists buy_rates,
    data_loader.get_time_of_use_rates data main.cost_params = Ok buy_rates /\
    data !! "time" = Some (Times times) /\
    builder_input_ok data main.battery_params main.cost_params buy_rates
      (length times).
Proof.
  intros Hsolar Hload. cbv zeta.
  destruct (lookup_data3 times solar load) as (Ht & Hs & Hl). cbv zeta in *.
  set (data := <["time" := Times times]> _) in *.
  rewrite (get_time_of_use_rates_run data main.cost_params times
             (1052 # 10000)%Q (1792 # 10000)%Q (3634 # 10000)%Q Ht
             ltac:(vm_compute; reflexivity) ltac:(vm_compute; reflexivity)
             ltac:(vm_compute; reflexivity)).
  eexists. split; [reflexivity|]. split; [exact Ht|].
  unfold builder_input_ok. repeat apply conj.
  - exists solar. split; [exact Hs | lia].
  - exists load. split; [exact Hl | lia].
  - intros t Htlt.
    rewrite lookup_fold_insert, decide_True; [eauto|].
    unfold range. rewrite elem_of_seq. cbn. lia.
  - vm_compute. eauto.
  - intros k Hk. unfold battery_keys in Hk. cbn [In] in Hk.
    repeat (destruct Hk as [<-|Hk]; [vm_compute; eauto|]). destruct Hk.
  - intros e He. vm_compute in He. injection He as <-.
    unfold Qeq. cbn. lia.
Qed.

(** ** config.py *)

(** X19. [setup_gurobi_env] touches one name of the environment at most:
    every other name keeps its value; without a license setting, or with an
    empty one, the environment is left as it is; and a second call changes
    nothing. *)
Theorem setup_gurobi_env_frame
    (GUROBI_LICENSE_FILE : option string) (environ : gmap string string) :
  let environ' := config.setup_gurobi_env GUROBI_LICENSE_FILE environ in
  (forall name, name <> "GRB_LICENSE_FILE" ->
     environ' !! name = environ !! name) /\
  (GUROBI_LICENSE_FILE = None \/ GUROBI_LICENSE_FILE = Some "" ->
   environ' = environ) /\
  (forall path, GUROBI_LICENSE_FILE = Some path -> path <> "" ->
     environ' !! "GRB_LICENSE_FILE" = Some path) /\
  config.setup_gurobi_env GUROBI_LICENSE_FILE environ' = environ'.
Proof.
  cbv zeta. unfold config.setup_gurobi_env.
  destruct GUROBI_LICENSE_FILE as [path|].
  - destruct (decide (path = "")) as [->|Hne].
    + repeat split; try reflexivity. intros path [= <-] H. congruence.
    + split; [intros name Hname; now rewrite lookup_insert_ne|].
      split; [intros [H|[= H]]; congruence|].
      split; [intros p [= <-] _; apply lookup_insert_eq|].
      apply insert_insert_eq.
  - repeat split; try reflexivity. intros path H. discriminate H.
Qed.

(** ** solver.py: what [solve_milp] prints *)

Lemma report_exception_report_of (e : exn) (s : solver.PyState) :
  solver.report_exception e s =
  (solver.mkPyState (solver.model s) (solver.stdout s ++ [report_of e])%list
     (solver.heap s), Ok false).
Proof. destruct e; reflexivity. Qed.

Section SolveReport.

Variable engine : solver.Engine.
Variables time_limit gap : option Q.
Variable verbose : bool.
Variable s : solver.PyState.
Variable m1 : solver.GModel.
Variable r : result unit.
Hypothesis Hcalls :
  engine_calls engine time_limit gap verbose (solver.model s) = (m1, r).

(** X20. One [print] per call.  [solve_milp] does not raise, and of its
    own [print] statements exactly one runs (the log that Gurobi itself
    writes is not counted): the report of the exception when a call on the
    engine raised; otherwise the message of the status, with the objective
    value for OPTIMAL and TIME_LIMIT.  When the objective value cannot be
    read (a time limit without incumbent), the line is the report of that
    exception, not the message of the time limit, and the result is
    [False]. *)
Theorem solve_milp_prints_one_line :
  exists (b : bool) (s' : solver.PyState) (l : solver.line),
    solver.solve_milp engine time_limit gap verbose s = (s', Ok b) /\
    solver.stdout s' = (solver.stdout s ++ [l])%list /\
    (forall e, r = Raise e -> l = report_of e) /\
    (is_Ok r -> solver.status m1 = solver.OPTIMAL ->
     forall v, solver.objVal m1 = Ok v ->
       l = solver.Optimal_solution_found v) /\
    (is_Ok r -> solver.status m1 = solver.TIME_LIMIT ->
     forall v, solver.objVal m1 = Ok v -> l = solver.Time_limit_reached v) /\
    (is_Ok r -> solver.status m1 <> solver.OPTIMAL ->
     solver.status m1 <> solver.TIME_LIMIT ->
     l = solver.Optimization_failed (solver.status m1)) /\
    (is_Ok r ->
     solver.status m1 = solver.OPTIMAL \/
     solver.status m1 = solver.TIME_LIMIT ->
     forall x, solver.objVal m1 = Raise x -> l = report_of x /\ b = false).
Proof using Hcalls.
  unfold solver.solve_milp, try_except.
  rewrite bind_run, set_params_and_optimize_run, Hcalls. cbn [fst snd].
  destruct r as [[]|e].
  - unfold solver.check_status, solver.attr. rewrite bind_run.
    cbn [solver.model].
    destruct (decide (solver.status m1 = solver.OPTIMAL)) as [Hopt|Hnopt].
    + rewrite bind_run. cbn [solver.model].
      destruct (solver.objVal m1) as [v|x] eqn:Hv.
      * eexists true, _, _. split; [reflexivity|]. cbn.
        split; [reflexivity|]. split; [discriminate|].
        split; [intros _ _ v' [= <-]; reflexivity|].
        split; [intros _ Htl; exfalso; rewrite Hopt in Htl; discriminate Htl|].
        split; [intros _ H; contradiction|].
        intros _ _ x H. discriminate H.
      * rewrite report_exception_report_of.
        eexists false, _, _. split; [reflexivity|]. cbn.
        split; [reflexivity|]. split; [discriminate|].
        split; [intros _ _ v H; discriminate H|].
        split; [intros _ _ v H; discriminate H|].
        split; [intros _ H; contradiction|].
        intros _ _ x' [= <-]. split; reflexivity.
    + rewrite bind_run. cbn [solver.model].
      destruct (decide (solver.status m1 = solver.TIME_LIMIT)) as [Htl|Hntl].
      * rewrite bind_run. cbn [solver.model].
        destruct (solver.objVal m1) as [v|x] eqn:Hv.
        -- eexists _, _, _. split; [reflexivity|]. cbn.
           split; [reflexivity|]. split; [discriminate|].
           split; [intros _ H; contradiction|].
           split; [intros _ _ v' [= <-]; reflexivity|].
           split; [intros _ _ H; contradiction|].
           intros _ _ x H. discriminate H.
        -- rewrite report_exception_report_of.
           eexists false, _, _. split; [reflexivity|]. cbn.
           split; [reflexivity|]. split; [discriminate|].
           split; [intros _ H; contradiction|].
           split; [intros _ _ v H; discriminate H|].
           split; [intros _ _ H; contradiction|].
           intros _ _ x' [= <-]. split; reflexivity.
      * rewrite bind_run. cbn [solver.model].
        eexists false, _, _. split; [reflexivity|]. cbn.
        split; [reflexivity|]. split; [discriminate|].
        split; [intros _ H; contradiction|].
        split; [intros _ H; contradiction|].
        split; [reflexivity|].
        intros _ [H|H]; contradiction.
  - rewrite report_exception_report_of.
    eexists false, _, _. split; [reflexivity|]. cbn.
    split; [reflexivity|]. split; [intros e' [= <-]; reflexivity|].
    split; [intros []|]. split; [intros []|]. split; [intros []|].
    intros [].
Qed.

End SolveReport.

(** [sample.engine] finds an optimum of cost 0: one line says so. *)
Lemma solve_milp_prints_one_line_sample :
  exists s' : solver.PyState,
    solver.solve_milp sample.engine (Some 300%Q) (Some (1 # 100)%Q) true
      sample.state = (s', Ok true) /\
    solver.stdout s' = [solver.Optimal_solution_found 0%Q].
Proof.
  destruct (solve_milp_prints_one_line sample.engine (Some 300%Q)
              (Some (1 # 100)%Q) true sample.state
              (fst (engine_calls sample.engine (Some 300%Q) (Some (1 # 100)%Q)
                      true (solver.model sample.state)))
              (snd (engine_calls sample.engine (Some 300%Q) (Some (1 # 100)%Q)
                      true (solver.model sample.state)))
              (surjective_pairing _))
    as (b & s' & l & Hrun & Hout & _ & Hopt & _).
  exists s'. rewrite Hout, (Hopt I eq_refl 0%Q eq_refl). split; [|reflexivity].
  rewrite Hrun. f_equal.
  assert (E : snd (solver.solve_milp sample.engine (Some 300%Q)
                     (Some (1 # 100)%Q) true sample.state) = Ok true)
    by (vm_compute; reflexivity).
  rewrite Hrun in E. exact E.
Defined.

(** ** solver.py: the shape of the result set *)

Lemma mapM_length {A B} (f : A -> result B) (l : list A) (ys : list B) :
  mapM f l = Ok ys -> length ys = length l.
Proof.
  revert ys. induction l as [|x l IH]; intros ys H; cbn [mapM] in H.
  - injection H as <-. reflexivity.
  - destruct (f x) as [y|]; [|discriminate]. rewrite bind_Ok in H.
    destruct (mapM f l) as [k|]; [|discriminate]. rewrite bind_Ok in H.
    injection H as <-. cbn. f_equal. now apply IH.
Qed.

Lemma attr_inv {A} (f : solver.GModel -> result A) (s s' : solver.PyState) (a : A) :
  solver.attr f s = (s', Ok a) -> s' = s /\ f (solver.model s) = Ok a.
Proof. unfold solver.attr. intros [= <- H]. auto. Qed.

Lemma alloc_inv (o : pyobj) (s0 cur s1 : solver.PyState) (l : solver.loc) :
  extends s0 cur -> solver.alloc o cur = (s1, Ok l) ->
  extends s0 s1 /\ solver.heap cur ⊆ solver.heap s1 /\
  solver.heap s0 !! l = None /\ solver.heap s1 !! l = Some o.
Proof.
  intros (Hsub & Hm & Hout). unfold solver.alloc. intros [= <- <-].
  assert (Hnone : solver.heap cur !! fresh (dom (solver.heap cur)) = None)
    by apply not_elem_of_dom, is_fresh.
  assert (Hstep : solver.heap cur ⊆
                  <[fresh (dom (solver.heap cur)) := o]> (solver.heap cur))
    by now apply insert_subseteq.
  cbn [solver.heap solver.model solver.stdout].
  split; [|split; [exact Hstep|split]].
  - split; [|split; assumption]. now transitivity (solver.heap cur).
  - eapply lookup_weaken_None; eassumption.
  - apply lookup_insert_eq.
Qed.

Lemma solved_values_inv (vars_dict : gmap string (gmap nat Var)) (name : string)
    (steps : list nat) (s0 cur s1 : solver.PyState) (l : solver.loc) :
  extends s0 cur ->
  solver.solved_values vars_dict name steps cur = (s1, Ok l) ->
  extends s0 s1 /\ solver.heap cur ⊆ solver.heap s1 /\
  solver.heap s0 !! l = None /\
  exists xs, solver.heap s1 !! l = Some (Nums xs) /\ length xs = length steps.
Proof.
  intros Hext H. unfold solver.solved_values in H.
  apply bind_inv in H as (xs & s2 & E & H).
  apply attr_inv in E as [-> Hxs].
  destruct (alloc_inv _ _ _ _ _ Hext H) as (H1 & H2 & H3 & H4).
  split; [exact H1|]. split; [exact H2|]. split; [exact H3|].
  exists xs. split; [exact H4|]. now apply mapM_length in Hxs.
Qed.

(** The lookups in the store of [cur], moved to a store that extends it. *)
Ltac carry_lookups Hsub :=
  match type of Hsub with
  | ?h ⊆ ?h' =>
      repeat match goal with
        | L : h !! _ = Some _ |- _ =>
            apply (fun L' => lookup_weaken h h' _ _ L' Hsub) in L
        end
  end.

(** One list of solved values of a run that returned. *)
Ltac values_returned H Hext l xs :=
  let s1 := fresh "s" in
  let E := fresh "E" in
  let Hsub := fresh "Hsub" in
  let Hext' := fresh "Hext" in
  let Hnone := fresh "Hnone" in
  let Hl := fresh "Hl" in
  let Hlen := fresh "Hlen" in
  apply bind_inv in H as (l & s1 & E & H);
  destruct (solved_values_inv _ _ _ _ _ _ _ Hext E)
    as (Hext' & Hsub & Hnone & xs & Hl & Hlen);
  carry_lookups Hsub; clear Hsub E Hext; rename Hext' into Hext.

(** X21. The shape of the result set.  When [extract_results] returns, the
    result set has exactly the fifteen keys of the source; each of the ten
    families and ['SoC'] refers to a list that was not in the store before
    and that has one entry per time step; the model object and the standard
    output are as before. *)
Theorem extract_results_shape
    (vars_dict : gmap string (gmap nat Var)) (data : gmap string solver.loc)
    (battery_params : gmap string Q) (s s' : solver.PyState)
    (results : gmap string solver.pyval) :
  solver.extract_results vars_dict data battery_params s = (s', Ok results) ->
  exists l_time time,
    data !! "time" = Some l_time /\
    solver.heap s !! l_time = Some time /\
    (forall key, is_Some (results !! key) <-> In key result_keys) /\
    (forall name, In name (families ++ ["SoC"]) ->
       exists l xs,
         results !! name = Some (solver.VRef l) /\
         solver.heap s !! l = None /\
         solver.heap s' !! l = Some (Nums xs) /\
         length xs = len time) /\
    solver.model s' = solver.model s /\
    solver.stdout s' = solver.stdout s.
Proof.
  intros H. unfold solver.extract_results in H.
  apply bind_lift_inv in H as (l_time & Ht%getitem_Ok & H).
  apply bind_inv in H as (time & s0 & Hderef & H).
  assert (Htime : s0 = s /\ solver.heap s !! l_time = Some time).
  { revert Hderef. unfold solver.deref.
    destruct (solver.heap s !! l_time) as [o|]; intros Hderef;
      [injection Hderef as <- <-; auto | discriminate]. }
  destruct Htime as [-> Htime]. cbv beta zeta in H.
  apply bind_lift_inv in H as (l_time' & _ & H).
  apply bind_lift_inv in H as (l_solar & _ & H).
  apply bind_lift_inv in H as (l_load & _ & H).
  assert (Hext : extends s s) by (repeat split; reflexivity).
  assert (Hrange : length (range (len time)) = len time) by apply length_seq.
  clear Hderef. revert Htime.
  values_returned H Hext l1 xs1. values_returned H Hext l2 xs2.
  values_returned H Hext l3 xs3. values_returned H Hext l4 xs4.
  values_returned H Hext l5 xs5. values_returned H Hext l6 xs6.
  values_returned H Hext l7 xs7.
  apply bind_inv in H as (xs8 & s8 & E8 & H).
  apply attr_inv in E8 as [-> Hxs8]. apply mapM_length in Hxs8.
  apply bind_inv in H as (l8 & s9 & E8 & H).
  destruct (alloc_inv _ _ _ _ _ Hext E8) as (Hext' & Hsub8 & Hnone8 & Hl8).
  carry_lookups Hsub8. clear Hsub8 E8 Hext. rename Hext' into Hext.
  values_returned H Hext l9 xs9. values_returned H Hext l10 xs10.
  values_returned H Hext l11 xs11.
  apply bind_inv in H as (cost & s12 & E12 & H).
  apply attr_inv in E12 as [-> _].
  injection H as <- <-. intros Htime.
  exists l_time, time. split; [exact Ht|]. split; [exact Htime|].
  destruct Hext as (_ & Hm & Hout).
  split; [|split; [|split; assumption]].
  - intros key. unfold result_keys. cbn [In]. split.
    + intros Hsome.
      repeat match goal with
        | |- ?k = key \/ _ =>
            let Hne := fresh "Hne" in
            destruct (decide (k = key)) as [|Hne]; [now left | right]
        end.
      repeat rewrite lookup_insert_ne in Hsome by assumption.
      rewrite lookup_empty in Hsome. now destruct Hsome.
    + intros Hin.
      repeat (destruct Hin as [<-|Hin];
              [eexists; lookup_results|]).
      destruct Hin.
  - intros name Hname. unfold families in Hname. cbn [app In] in Hname.
    repeat (destruct Hname as [<-|Hname];
            [eexists _, _; split; [lookup_results|];
             split; [eassumption|]; split; [eassumption|]; congruence|]).
    destruct Hname.
Qed.

(** On [sample] after the solve: fifteen keys and lists of two entries. *)
Lemma extract_results_shape_sample :
  exists l xs,
    solver.heap sample.solved !! l = None /\
    solver.heap
      (fst (solver.extract_results sample.vars_dict sample.data_refs
              sample.battery_params sample.solved)) !! l = Some (Nums xs) /\
    length xs = 2%nat.
Proof.
  destruct (extract_results_shape sample.vars_dict sample.data_refs
              sample.battery_params sample.solved
              (fst (solver.extract_results sample.vars_dict sample.data_refs
                      sample.battery_params sample.solved))
              (match snd (solver.extract_results sample.vars_dict
                            sample.data_refs sample.battery_params
                            sample.solved) with
               | Ok results => results
               | Raise _ => ∅
               end)
              ltac:(vm_compute; reflexivity))
    as (l_time & time & Hd & Htime & _ & Hlists & _).
  destruct (Hlists "SoC" ltac:(cbn; tauto)) as (l & xs & _ & Hnone & Hl & Hlen).
  exists l, xs. split; [exact Hnone|]. split; [exact Hl|].
  rewrite Hlen. vm_compute in Hd. injection Hd as <-.
  vm_compute in Htime. injection Htime as <-. reflexivity.
Defined.

(** X22. Without a solution nothing is extracted.  When the horizon has at
    least one step and the engine has no value for the first variable that
    [extract_results] reads, [P_solar_household[0]], the exception of that
    read leaves [extract_results], and the model object, the output and the
    store are as before: no list was created. *)
Theorem extract_results_without_solution
    (vars_dict : gmap string (gmap nat Var)) (data : gmap string solver.loc)
    (battery_params : gmap string Q) (s : solver.PyState)
    (l_time l_solar l_load : solver.loc) (time : pyobj)
    (vars : gmap nat Var) (v : Var) (e : exn) :
  data !! "time" = Some l_time ->
  data !! "solar_production" = Some l_solar ->
  data !! "load_demand" = Some l_load ->
  solver.heap s !! l_time = Some time ->
  (0 < len time)%nat ->
  vars_dict !! "P_solar_household" = Some vars ->
  vars !! 0%nat = Some v ->
  solver.X (solver.model s) v = Raise e ->
  solver.extract_results vars_dict data battery_params s = (s, Raise e).
Proof.
  intros Hd_time Hd_solar Hd_load Htime Hlen Hvars Hv HX.
  unfold solver.extract_results.
  rewrite (bind_lift_Ok _ l_time) by now apply getitem_Some.
  rewrite (bind_deref _ time) by exact Htime. cbv beta zeta.
  rewrite (bind_lift_Ok _ l_time) by now apply getitem_Some.
  rewrite (bind_lift_Ok _ l_solar) by now apply getitem_Some.
  rewrite (bind_lift_Ok _ l_load) by now apply getitem_Some.
  rewrite bind_run. unfold solver.solved_values at 1.
  rewrite bind_run. unfold solver.attr at 1.
  destruct (len time) as [|n]; [lia|].
  unfold range. cbn [seq mapM].
  rewrite (getitem_Some _ _ _ Hvars), bind_Ok.
  unfold getitem_int. rewrite Hv, bind_Ok, HX. reflexivity.
Qed.

(** On [sample] before the solve, the engine has no value at all. *)
Lemma extract_results_without_solution_sample :
  solver.extract_results sample.vars_dict sample.data_refs
    sample.battery_params sample.state = (sample.state, Raise AttributeError).
Proof.
  apply (extract_results_without_solution sample.vars_dict sample.data_refs
           sample.battery_params sample.state 0%nat 1%nat 2%nat
           (Times [mkTimestamp 3 0; mkTimestamp 12 5])
           (model_builder.tupledict (range 2) "P_solar_household")
           (mkVar "P_solar_household" 0) AttributeError);
    first [vm_compute; reflexivity | cbn; lia].
Defined.

(** ** solver.py: a battery without capacity *)

(** One list of solved values, and on with the rest. *)
Ltac values_then name Hvars HX :=
  match goal with
  | Hm : solver.model ?cur = _ |- context [(solver.solved_values _ name _ ≫= _) ?cur] =>
      let l := fresh "l" in
      let s' := fresh "s" in
      let E := fresh "E" in
      let Hm' := fresh "Hm" in
      destruct (solved_values_run _ _ _ _ Hvars HX name cur
                  ltac:(cbn; tauto) Hm)
        as (l & s' & E & Hm' & _);
      rewrite bind_run, E; cbv beta iota zeta; clear E Hm
  end.

(** X24. A capacity of 0 makes the extraction fail.  When the horizon has at
    least one step, the engine holds a value for every variable of the
    builder and ['capacity_kwh'] is 0, the division of the first percentage
    of ['SoC'] raises [ZeroDivisionError], which leaves [extract_results]:
    no result set is returned. *)
Theorem extract_results_zero_capacity_raises
    (vars_dict : gmap string (gmap nat Var)) (data : gmap string solver.loc)
    (battery_params : gmap string Q) (s : solver.PyState)
    (l_time l_solar l_load : solver.loc) (time : pyobj)
    (x : string -> nat -> Q) (capacity_kwh : Q) :
  data !! "time" = Some l_time ->
  data !! "solar_production" = Some l_solar ->
  data !! "load_demand" = Some l_load ->
  solver.heap s !! l_time = Some time ->
  (0 < len time)%nat ->
  (forall name, In name families ->
     vars_dict !! name =
     Some (model_builder.tupledict (range (len time)) name)) ->
  (forall name t, In name families -> (t < len time)%nat ->
     solver.X (solver.model s) (mkVar name t) = Ok (x name t)) ->
  battery_params !! "capacity_kwh" = Some capacity_kwh ->
  (capacity_kwh == 0)%Q ->
  snd (solver.extract_results vars_dict data battery_params s) =
  Raise ZeroDivisionError.
Proof.
  intros Hd_time Hd_solar Hd_load Htime Hlen Hvars HX Hcap Hzero.
  unfold solver.extract_results.
  rewrite (bind_lift_Ok _ l_time) by now apply getitem_Some.
  rewrite (bind_deref _ time) by exact Htime. cbv beta zeta.
  rewrite (bind_lift_Ok _ l_time) by now apply getitem_Some.
  rewrite (bind_lift_Ok _ l_solar) by now apply getitem_Some.
  rewrite (bind_lift_Ok _ l_load) by now apply getitem_Some.
  clear Htime.
  assert (Hm : solver.model s = solver.model s) by reflexivity.
  values_then "P_solar_household" Hvars HX.
  values_then "P_solar_battery" Hvars HX.
  values_then "P_solar_grid" Hvars HX.
  values_then "P_battery_household" Hvars HX.
  values_then "P_grid_battery" Hvars HX.
  values_then "P_grid_household" Hvars HX.
  values_then "SE" Hvars HX.
  rewrite bind_run. unfold solver.attr at 1.
  match goal with Hm : solver.model _ = _ |- _ => rewrite Hm end.
  rewrite (getitem_Some _ _ _ (Hvars "SE" ltac:(cbn; tauto))).
  pose proof (HX "SE" 0%nat ltac:(cbn; tauto) Hlen) as HX0.
  pose proof (tupledict_getitem "SE" (len time) 0 Hlen) as Hv0.
  set (vars := model_builder.tupledict (range (len time)) "SE") in *.
  clearbody vars. clear Hvars HX.
  destruct (len time) as [|n]; [lia|].
  unfold range. cbn [seq mapM]. rewrite bind_Ok.
  rewrite Hv0, bind_Ok, HX0, bind_Ok.
  rewrite (getitem_Some _ _ _ Hcap), bind_Ok.
  unfold solver.pydiv. apply Qeq_bool_iff in Hzero. rewrite Hzero.
  reflexivity.
Qed.

(** On [sample] after the solve, with the capacity set to 0. *)
Lemma extract_results_zero_capacity_raises_sample :
  snd (solver.extract_results sample.vars_dict sample.data_refs
         (<["capacity_kwh" := 0%Q]> sample.battery_params) sample.dispatched) =
  Raise ZeroDivisionError.
Proof.
  apply (extract_results_zero_capacity_raises sample.vars_dict
           sample.data_refs (<["capacity_kwh" := 0%Q]> sample.battery_params)
           sample.dispatched 0%nat 1%nat 2%nat
           (Times [mkTimestamp 3 0; mkTimestamp 12 5])
           (fun name t => sample.dispatch (mkVar name t)) 0%Q);
    first [ vm_compute; reflexivity | cbn; lia | reflexivity | idtac ].
  intros name Hname. unfold families in Hname. cbn [In] in Hname.
  repeat (destruct Hname as [<-|Hname]; [vm_compute; reflexivity|]).
  destruct Hname.
Defined.

(** In the model of [sample], [soc_min_1] is the name of one constraint
    only. *)
Lemma constraint_names_unique_sample :
  In (mkConstr (EVar (mkVar "SE" 1)) GREATER_EQUAL
        (EConst ((11 # 100) * (48 # 10))%Q) ("soc_min_" +:+ pretty 1%nat))
     (constrs (model_builder.model_after sample.built)) /\
  forall k,
    In k (constrs (model_builder.model_after sample.built)) ->
    cname k = "soc_min_" +:+ pretty 1%nat ->
    k = mkConstr (EVar (mkVar "SE" 1)) GREATER_EQUAL
          (EConst ((11 # 100) * (48 # 10))%Q) ("soc_min_" +:+ pretty 1%nat).
Proof.
  on_sample constraint_names_unique as H.
  assert (Hin : In (mkConstr (EVar (mkVar "SE" 1)) GREATER_EQUAL
                      (EConst ((11 # 100) * (48 # 10))%Q)
                      ("soc_min_" +:+ pretty 1%nat))
                   (constrs (model_builder.model_after sample.built)))
    by (vm_compute; tauto).
  split; [exact Hin|].
  intros k Hk Hname. exact (H k _ Hk Hin Hname).
Defined.

(** ** The builder and the failures of Gurobi *)

Lemma follows_same {A} (acc : Constr -> Prop) (c : M Model A) :
  (forall m, constrs (fst (c m)) = constrs m) -> follows acc c c.
Proof.
  intros H m. exists []. rewrite app_nil_r. split; [apply H|].
  split; [reflexivity | constructor].
Qed.

Lemma follows_lift {A} (acc : Constr -> Prop) (r : result A) :
  follows acc (lift r) (lift r).
Proof. apply follows_same. reflexivity. Qed.

Lemma follows_ret {A} (acc : Constr -> Prop) (a : A) :
  follows acc (mret a) (mret a).
Proof. apply follows_same. reflexivity. Qed.

Lemma follows_addVars (acc : Constr -> Prop)
    (indices : list nat) (lb : Q) (vt : vtype) (name : string) :
  follows acc (model_builder.addVars indices lb vt name)
    (model_builder.addVars indices lb vt name).
Proof. apply follows_same. reflexivity. Qed.

Lemma follows_setObjective (acc : Constr -> Prop)
    (obj : LinExpr) (sense : objsense) :
  follows acc (model_builder.setObjective obj sense)
    (model_builder.setObjective obj sense).
Proof. apply follows_same. reflexivity. Qed.

Lemma follows_addConstr (gurobi : Gurobi) (c : Constr) :
  follows (fun k => rejects gurobi k = None)
    (guarded.addConstr gurobi c) (model_builder.addConstr c).
Proof.
  intros m. exists [c]. split; [reflexivity|].
  unfold guarded.addConstr. split.
  - intros Hacc. inversion Hacc as [|? ? Hc _]. now rewrite Hc.
  - destruct (rejects gurobi c) as [errno|] eqn:Hc; [intros [] | intros _].
    now constructor.
Qed.

Lemma follows_bind {A B} (acc : Constr -> Prop)
    (cg ci : M Model A) (kg ki : A -> M Model B) :
  follows acc cg ci -> (forall a, follows acc (kg a) (ki a)) ->
  follows acc (cg ≫= kg) (ci ≫= ki).
Proof.
  intros Hc Hk m. rewrite !bind_run.
  destruct (Hc m) as (added1 & Hadd1 & Hsame1 & Hret1).
  destruct (ci m) as [m1 [a|e]] eqn:Hi; cbn [fst snd] in *.
  - destruct (Hk a m1) as (added2 & Hadd2 & Hsame2 & Hret2).
    exists (added1 ++ added2)%list. split.
    { rewrite Hadd2, Hadd1. now rewrite <- app_assoc. }
    split.
    + intros [H1 H2]%Forall_app. rewrite (Hsame1 H1). now apply Hsame2.
    + destruct (cg m) as [mg [ag|eg]] eqn:Hg; cbn [snd]; [|intros []].
      intros Hok. specialize (Hret1 I). specialize (Hsame1 Hret1).
      injection Hsame1 as -> ->. apply Forall_app. split; [exact Hret1|].
      now apply Hret2.
  - exists added1. split; [exact Hadd1|]. split.
    + intros H1. now rewrite (Hsame1 H1).
    + destruct (cg m) as [mg [ag|eg]] eqn:Hg; cbn [snd]; [|intros []].
      intros _. specialize (Hret1 I). specialize (Hsame1 Hret1).
      discriminate Hsame1.
Qed.

Lemma follows_for (acc : Constr -> Prop) (l : list nat)
    (bg bi : nat -> M Model unit) :
  (forall t, follows acc (bg t) (bi t)) ->
  follows acc (for_ l bg) (for_ l bi).
Proof.
  intros Hb. induction l as [|t l IH]; cbn [for_].
  - apply follows_ret.
  - apply follows_bind; [apply Hb | intros _; exact IH].
Qed.

Ltac follow_step :=
  lazymatch goal with
  | |- follows _ (_ ≫= _) (_ ≫= _) => apply follows_bind; [|intros ?]
  | |- follows _ (for_ _ _) (for_ _ _) => apply follows_for; intros ?
  | |- follows _ (guarded.addConstr _ _) _ => apply follows_addConstr
  | |- follows _ (lift _) _ => apply follows_lift
  | |- follows _ (mret _) _ => apply follows_ret
  | |- follows _ (model_builder.addVars _ _ _ _) _ => apply follows_addVars
  | |- follows _ (model_builder.setObjective _ _) _ =>
      apply follows_setObjective
  | |- follows _ (let _ := _ in _) _ => cbv zeta
  end.

Lemma build_model_follows
    (gurobi : Gurobi) (data : gmap string pyobj)
    (battery_params cost_params : gmap string Q) (buy_rates : gmap nat Q) :
  follows (fun k => rejects gurobi k = None)
    (guarded.build_model gurobi data battery_params cost_params buy_rates)
    (model_builder.build_model data battery_params cost_params buy_rates).
Proof.
  unfold guarded.build_model, model_builder.build_model.
  repeat follow_step.
Qed.

Lemma guarded_build_model
    (gurobi : Gurobi) (data : gmap string pyobj)
    (battery_params cost_params : gmap string Q) (buy_rates : gmap nat Q)
    (name : string) :
  let accepting :=
    model_builder.build_model data battery_params cost_params buy_rates
      (new_Model name) in
  let real :=
    guarded.build_model gurobi data battery_params cost_params buy_rates
      (new_Model name) in
  ((forall k, In k (constrs (fst accepting)) -> rejects gurobi k = None) ->
   real = accepting) /\
  (is_Ok (snd real) ->
   forall k, In k (constrs (fst accepting)) -> rejects gurobi k = None).
Proof.
  cbv zeta.
  destruct (build_model_follows gurobi data battery_params cost_params
              buy_rates (new_Model name)) as (added & Hadd & Hsame & Hret).
  cbn [new_Model constrs app] in Hadd. rewrite Hadd. split.
  - intros H. apply Hsame. now apply List.Forall_forall.
  - intros Hok. apply List.Forall_forall. now apply Hret.
Qed.

Section Guarded.

Variable gurobi : Gurobi.
Variable GUROBI_LICENSE_FILE : option string.
Variable environ : gmap string string.
Variable data : gmap string pyobj.
Variables battery_params cost_params : gmap string Q.
Variable buy_rates : gmap nat Q.

Let run : guarded.run :=
  guarded.create_milp_model gurobi GUROBI_LICENSE_FILE environ
    data battery_params cost_params buy_rates.

Let accepting : model_builder.outcome :=
  model_builder.create_milp_model GUROBI_LICENSE_FILE environ
    data battery_params cost_params buy_rates.

(** With a license and no refusal the call does what the module
    [model_builder] says, also when it raises. *)
Lemma guarded_agrees :
  start gurobi (config.setup_gurobi_env GUROBI_LICENSE_FILE environ) = None ->
  accepts_model gurobi (model_builder.model_after accepting) ->
  run =
  guarded.mkRun (model_builder.environ_after accepting)
    (Some (model_builder.model_after accepting))
    (model_builder.returned accepting).
Proof using Type.
  unfold run, accepting, accepts_model, guarded.create_milp_model,
    model_builder.create_milp_model, gp_Model.
  cbv zeta. intros -> Hacc.
  destruct (guarded_build_model gurobi data battery_params cost_params
              buy_rates "PV_Battery_Optimization") as [Hsame _].
  cbv zeta in Hsame.
  destruct (model_builder.build_model _ _ _ _ _) as [m r].
  cbn [model_builder.model_after fst] in *. rewrite (Hsame Hacc). reflexivity.
Qed.

(** A call that returns had a license and met no refusal. *)
Lemma guarded_returns :
  is_Ok (guarded.result_of run) ->
  start gurobi (config.setup_gurobi_env GUROBI_LICENSE_FILE environ) = None /\
  accepts_model gurobi (model_builder.model_after accepting).
Proof using Type.
  unfold run, accepting, accepts_model, guarded.create_milp_model,
    model_builder.create_milp_model, gp_Model.
  cbv zeta.
  destruct (start gurobi _) as [errno|]; [intros [] | intros Hok].
  split; [reflexivity|].
  destruct (guarded_build_model gurobi data battery_params cost_params
              buy_rates "PV_Battery_Optimization") as [_ Hret].
  cbv zeta in Hret.
  destruct (guarded.build_model _ _ _ _ _ _) as [mg rg].
  destruct (model_builder.build_model _ _ _ _ _) as [m r].
  cbn [model_builder.model_after guarded.result_of fst snd] in *.
  now apply Hret.
Qed.

(** Without a license there is no model object, whatever the input. *)
Lemma guarded_unlicensed (errno : Z) :
  start gurobi (config.setup_gurobi_env GUROBI_LICENSE_FILE environ) =
  Some errno ->
  run =
  guarded.mkRun (config.setup_gurobi_env GUROBI_LICENSE_FILE environ) None
    (Raise (GurobiError errno)).
Proof using Type.
  unfold run, guarded.create_milp_model, gp_Model. cbv zeta.
  now intros ->.
Qed.

End Guarded.

Lemma keeps_guarded_addConstr (gurobi : Gurobi) (c : Constr) :
  keeps_variables (guarded.addConstr gurobi c).
Proof.
  intros m. unfold guarded.addConstr.
  now destruct (rejects gurobi c).
Qed.

(** With a license, the model object holds the variables of all ten
    families as soon as [data] has ['time'], also when the call raises. *)
Lemma guarded_variables
    (gurobi : Gurobi) (GUROBI_LICENSE_FILE : option string)
    (environ : gmap string string) (data : gmap string pyobj)
    (battery_params cost_params : gmap string Q) (buy_rates : gmap nat Q)
    (time : pyobj) :
  start gurobi (config.setup_gurobi_env GUROBI_LICENSE_FILE environ) = None ->
  data !! "time" = Some time ->
  exists m,
    guarded.model_of
      (guarded.create_milp_model gurobi GUROBI_LICENSE_FILE environ
         data battery_params cost_params buy_rates) = Some m /\
    variables m = declared_variables (len time).
Proof.
  intros Hstart Htime.
  unfold guarded.create_milp_model, gp_Model. cbv zeta. rewrite Hstart.
  assert (Hvars :
    variables
      (fst (guarded.build_model gurobi data battery_params cost_params
              buy_rates (new_Model "PV_Battery_Optimization"))) =
    declared_variables (len time)).
  { unfold guarded.build_model.
    rewrite (bind_lift_Ok _ time) by now apply getitem_Some.
    cbv beta zeta. unfold new_Model.
    do 10 (rewrite bind_addVars; cbv beta; simpl_model).
    match goal with
    | |- variables (fst (?c ?m)) = _ =>
        assert (Hc : keeps_variables c)
          by (repeat first
                [ apply keeps_lift | apply keeps_ret
                | apply keeps_setObjective | apply keeps_guarded_addConstr
                | apply keeps_for; intros ?
                | apply keeps_bind; [|intros ?] ]);
        rewrite (Hc m)
    end.
    cbn [variables]. unfold declared_variables. now rewrite <- !app_assoc. }
  destruct (guarded.build_model _ _ _ _ _ _) as [m r].
  exists m. split; [reflexivity | exact Hvars].
Qed.

(** ** When the builder raises, and when it returns *)

(** C7, as the code has it.  [create_milp_model] validates nothing before
    it builds.  It returns normally exactly when Gurobi opens a license,
    [data] has ['time'], either the horizon is empty or every subscript that
    the construction evaluates succeeds (numeric series with at least [T]
    entries, a rate for every step, the configuration keys, a non-zero
    discharge efficiency), and Gurobi refuses none of the constraints of the
    model.  In particular, with a license and without a refusal, well-formed
    input never fails, and series longer than the horizon are accepted.
    Once [gp.Model] returned and [data] has ['time'], the model object holds
    the variables of all ten families, also when the call raises: a missing
    key or a short series is met during the construction. *)
Theorem create_milp_model_returns_iff
    (gurobi : Gurobi)
    (GUROBI_LICENSE_FILE : option string) (environ : gmap string string)
    (data : gmap string pyobj) (battery_params cost_params : gmap string Q)
    (buy_rates : gmap nat Q) :
  let run :=
    guarded.create_milp_model gurobi GUROBI_LICENSE_FILE environ
      data battery_params cost_params buy_rates in
  let accepting :=
    model_builder.create_milp_model GUROBI_LICENSE_FILE environ
      data battery_params cost_params buy_rates in
  let licensed :=
    start gurobi (config.setup_gurobi_env GUROBI_LICENSE_FILE environ) =
    None in
  (is_Ok (guarded.result_of run) <->
   licensed /\
   (exists time, data !! "time" = Some time /\
      (len time = 0%nat \/
       builder_input_ok data battery_params cost_params buy_rates
         (len time))) /\
   accepts_model gurobi (model_builder.model_after accepting))
  /\
  (forall time, licensed -> data !! "time" = Some time ->
     exists m, guarded.model_of run = Some m /\
       variables m = declared_variables (len time)).
Proof.
  cbv zeta. split; [split|].
  - intros Hok.
    destruct (guarded_returns _ _ _ _ _ _ _ Hok) as [Hstart Hacc].
    split; [exact Hstart|]. split; [|exact Hacc].
    rewrite (guarded_agrees _ _ _ _ _ _ _ Hstart Hacc) in Hok.
    cbn [guarded.result_of] in Hok.
    unfold model_builder.create_milp_model in Hok.
    destruct (model_builder.build_model _ _ _ _ _) as [m' [v|e]] eqn:Hrun;
      cbn [model_builder.returned] in Hok; [|destruct Hok].
    eapply build_model_Ok_inv. exact Hrun.
  - intros (Hstart & (time & Htime & Hin) & Hacc).
    rewrite (guarded_agrees _ _ _ _ _ _ _ Hstart Hacc).
    cbn [guarded.result_of]. unfold model_builder.create_milp_model.
    destruct (build_model_Ok data battery_params cost_params buy_rates time
                "PV_Battery_Optimization" Htime Hin) as (m' & v & ->).
    exact I.
  - intros time Hstart Htime. now apply guarded_variables.
Qed.

(** ** Determinism of the builder *)




(** ** The result set at capacity 0 *)

(** The claim as the specification words it fails for a battery without
    capacity: the builder returns a model, the dispatch without battery is
    feasible for it, [solve_milp] returns [True] with an engine that found
    this dispatch, and yet [main.py] gets no result set: the percentage
    [SE[0] / capacity * 100] raises [ZeroDivisionError]. *)
Lemma main_solve_zero_capacity :
  model_builder.returned sample.flat_built = Ok sample.flat_vars_dict /\
  feasible (model_builder.model_after sample.flat_built)
    sample.flat_dispatch /\
  snd (solver.solve_milp sample.flat_engine (Some 300%Q) (Some (1 # 100)%Q)
         true sample.flat_state) = Ok true /\
  snd (solver.main_solve sample.flat_engine sample.flat_vars_dict
         sample.data_refs sample.flat_params sample.flat_state) =
  Raise ZeroDivisionError.
Proof.
  split; [vm_compute; reflexivity|]. split.
  - pose proof
      (grid_only_feasible sample.data sample.flat_params sample.cost_params
         sample.buy_rates (Times [mkTimestamp 3 0; mkTimestamp 12 5])
         [100%Q; 200%Q] [50%Q; 300%Q]
         0%Q (11 # 100)%Q 1%Q (22 # 100)%Q (95 # 100)%Q (95 # 100)%Q
         2780%Q 2370%Q (195 # 1000)%Q sample.rate
         ltac:(sample_input) ltac:(sample_input) ltac:(sample_input)
         ltac:(sample_input) ltac:(sample_input) ltac:(sample_input)
         ltac:(sample_input) ltac:(sample_input) ltac:(sample_input)
         ltac:(sample_input) ltac:(sample_input) ltac:(sample_input)
         ltac:(sample_input) ltac:(sample_input) ltac:(sample_input)
         ltac:(sample_input) None ∅) as H.
    apply H; first [sample_series | numeral].
  - split; vm_compute; reflexivity.
Qed.

(** ** model_builder.py: which exception, and how far the construction got *)

(** X12. The license comes first, the key ['time'] second.  When Gurobi
    finds no license, [create_milp_model] raises its [GurobiError] and no
    model object exists, whatever the input.  With a license and without
    the key ['time'] it raises [KeyError('time')] at once: the model object
    is still empty. *)
Theorem create_milp_model_without_time
    (gurobi : Gurobi)
    (GUROBI_LICENSE_FILE : option string) (environ : gmap string string)
    (data : gmap string pyobj) (battery_params cost_params : gmap string Q)
    (buy_rates : gmap nat Q) :
  let run :=
    guarded.create_milp_model gurobi GUROBI_LICENSE_FILE environ
      data battery_params cost_params buy_rates in
  let environ' := config.setup_gurobi_env GUROBI_LICENSE_FILE environ in
  (forall errno, start gurobi environ' = Some errno ->
     guarded.result_of run = Raise (GurobiError errno) /\
     guarded.model_of run = None) /\
  (start gurobi environ' = None -> data !! "time" = None ->
   guarded.result_of run = Raise (KeyError "time") /\
   guarded.model_of run = Some (new_Model "PV_Battery_Optimization")).
Proof.
  cbv zeta. split.
  - intros errno Hstart.
    rewrite (guarded_unlicensed _ _ _ _ _ _ _ errno Hstart).
    split; reflexivity.
  - intros Hstart Htime.
    destruct (build_without_time GUROBI_LICENSE_FILE environ data
                battery_params cost_params buy_rates Htime) as [Hr Hm].
    rewrite guarded_agrees; [|exact Hstart|].
    + cbn [guarded.result_of guarded.model_of]. now rewrite Hr, Hm.
    + intros k Hk. rewrite Hm in Hk. destruct Hk.
Qed.

(** Without a license, and with one but without data. *)
Lemma create_milp_model_without_time_sample :
  guarded.result_of
    (guarded.create_milp_model sample.unlicensed None ∅ sample.data
       sample.battery_params sample.cost_params sample.buy_rates) =
  Raise (GurobiError 10009) /\
  guarded.result_of
    (guarded.create_milp_model sample.gurobi None ∅ ∅
       sample.battery_params sample.cost_params sample.buy_rates) =
  Raise (KeyError "time").
Proof.
  split.
  - apply (proj1 (create_milp_model_without_time sample.unlicensed None ∅
                    sample.data sample.battery_params sample.cost_params
                    sample.buy_rates) 10009%Z).
    reflexivity.
  - apply (proj2 (create_milp_model_without_time sample.gurobi None ∅ ∅
                    sample.battery_params sample.cost_params
                    sample.buy_rates)); reflexivity.
Defined.

(** X13. With a license and an empty horizon the builder returns a model
    without variables and without constraints, whose objective is the
    constant 0, whatever the configuration holds: no other key is read and
    Gurobi is shown no constraint. *)
Theorem create_milp_model_empty_horizon
    (gurobi : Gurobi)
    (GUROBI_LICENSE_FILE : option string) (environ : gmap string string)
    (data : gmap string pyobj) (battery_params cost_params : gmap string Q)
    (buy_rates : gmap nat Q) (time : pyobj) :
  start gurobi (config.setup_gurobi_env GUROBI_LICENSE_FILE environ) = None ->
  data !! "time" = Some time -> len time = 0%nat ->
  let run :=
    guarded.create_milp_model gurobi GUROBI_LICENSE_FILE environ
      data battery_params cost_params buy_rates in
  is_Ok (guarded.result_of run) /\
  exists m, guarded.model_of run = Some m /\
    variables m = [] /\ constrs m = [] /\
    objective m = EConst 0%Q /\ modelsense m = MINIMIZE.
Proof.
  intros Hstart Htime HT. cbv zeta.
  destruct (build_empty_horizon GUROBI_LICENSE_FILE environ data
              battery_params cost_params buy_rates time Htime HT)
    as (Hr & Hv & Hc & Ho & Hs).
  rewrite guarded_agrees; [|exact Hstart|].
  - cbn [guarded.result_of guarded.model_of]. split; [exact Hr|].
    eexists. split; [reflexivity|]. auto.
  - intros k Hk. rewrite Hc in Hk. destruct Hk.
Qed.

Lemma create_milp_model_empty_horizon_sample :
  is_Ok (guarded.result_of
           (guarded.create_milp_model sample.gurobi None ∅ sample.no_step
              ∅ ∅ ∅)).
Proof.
  apply (create_milp_model_empty_horizon sample.gurobi None ∅ sample.no_step
           ∅ ∅ ∅ (Times []) eq_refl ltac:(vm_compute; reflexivity) eq_refl).
Defined.

(** X14. The objective is built before any constraint.  With a license:
    if [buy_rates] has no entry for a step [t0] of the horizon (and has one
    for every earlier step, where the selling price was read as well), the
    builder raises [KeyError(t0)]; if instead the selling price is missing
    it raises [KeyError('sell_price')] at step 0.  In both cases the
    variables are declared, no constraint is added and the objective is
    still the constant 0. *)
Theorem objective_is_built_first
    (gurobi : Gurobi)
    (GUROBI_LICENSE_FILE : option string) (environ : gmap string string)
    (data : gmap string pyobj) (battery_params cost_params : gmap string Q)
    (buy_rates : gmap nat Q) (time : pyobj) (t0 : nat) :
  start gurobi (config.setup_gurobi_env GUROBI_LICENSE_FILE environ) = None ->
  data !! "time" = Some time -> (t0 < len time)%nat ->
  (forall t, (t < t0)%nat -> is_Some (buy_rates !! t)) ->
  let run :=
    guarded.create_milp_model gurobi GUROBI_LICENSE_FILE environ
      data battery_params cost_params buy_rates in
  let stopped (e : exn) :=
    guarded.result_of run = Raise e /\
    exists m, guarded.model_of run = Some m /\
      variables m = declared_variables (len time) /\
      constrs m = [] /\ objective m = EConst 0%Q in
  (buy_rates !! t0 = None ->
   (forall t, (t < t0)%nat -> is_Some (cost_params !! "sell_price")) ->
   stopped (KeyErrorInt t0)) /\
  (t0 = 0%nat -> is_Some (buy_rates !! 0%nat) ->
   cost_params !! "sell_price" = None ->
   stopped (KeyError "sell_price")).
Proof.
  intros Hstart Htime Ht0 Hearlier. cbv zeta.
  pose proof (build_objective_first GUROBI_LICENSE_FILE environ data
                battery_params cost_params buy_rates time t0 Htime Ht0
                Hearlier) as [H1 H2].
  split.
  - intros Hnone Hsell. destruct (H1 Hnone Hsell) as (Hr & Hv & Hc & Ho).
    rewrite guarded_agrees; [|exact Hstart|].
    + cbn [guarded.result_of guarded.model_of]. split; [exact Hr|].
      eexists. split; [reflexivity|]. auto.
    + intros k Hk. rewrite Hc in Hk. destruct Hk.
  - intros E0 Hrate Hnone. destruct (H2 E0 Hrate Hnone) as (Hr & Hv & Hc & Ho).
    rewrite guarded_agrees; [|exact Hstart|].
    + cbn [guarded.result_of guarded.model_of]. split; [exact Hr|].
      eexists. split; [reflexivity|]. auto.
    + intros k Hk. rewrite Hc in Hk. destruct Hk.
Qed.

(** Without the rate of step 1, the builder of [sample] raises
    [KeyError(1)]. *)
Lemma objective_is_built_first_sample :
  guarded.result_of
    (guarded.create_milp_model sample.gurobi None ∅ sample.data
       sample.battery_params sample.cost_params
       (delete 1%nat sample.buy_rates)) =
  Raise (KeyErrorInt 1).
Proof.
  apply (proj1
           (objective_is_built_first sample.gurobi None ∅ sample.data
              sample.battery_params sample.cost_params
              (delete 1%nat sample.buy_rates)
              (Times [mkTimestamp 3 0; mkTimestamp 12 5]) 1%nat
              eq_refl ltac:(vm_compute; reflexivity) ltac:(cbn; lia)
              ltac:(intros [|t] Ht; [vm_compute; eauto | lia]))
           ltac:(vm_compute; reflexivity)
           ltac:(intros; vm_compute; eauto)).
Defined.

(** X15. A series shorter than the horizon is met in the middle of the
    construction.  With a license, rates and a selling price: if
    [solar_production] has fewer entries than there are time steps, and
    Gurobi accepts the solar balance of the steps that have an entry, the
    builder raises [IndexError] at the first step without entry; by then the
    constraints of the model are exactly these solar balances, in the order
    of the steps. *)
Theorem short_series_raises_IndexError
    (gurobi : Gurobi)
    (GUROBI_LICENSE_FILE : option string) (environ : gmap string string)
    (data : gmap string pyobj) (battery_params cost_params : gmap string Q)
    (buy_rates : gmap nat Q) (time : pyobj) (solar : list Q) :
  start gurobi (config.setup_gurobi_env GUROBI_LICENSE_FILE environ) = None ->
  data !! "time" = Some time ->
  data !! "solar_production" = Some (Nums solar) ->
  (forall t, (t < len time)%nat -> is_Some (buy_rates !! t)) ->
  is_Some (cost_params !! "sell_price") ->
  (forall t, (t < length solar)%nat ->
     rejects gurobi (solar_balance_of solar t) = None) ->
  (length solar < len time)%nat ->
  let run :=
    guarded.create_milp_model gurobi GUROBI_LICENSE_FILE environ
      data battery_params cost_params buy_rates in
  guarded.result_of run = Raise IndexError /\
  exists m, guarded.model_of run = Some m /\
    constrs m = map (solar_balance_of solar) (range (length solar)).
Proof.
  intros Hstart Htime Hsolar Hrates Hsell Hacc Hshort. cbv zeta.
  destruct (build_short_series GUROBI_LICENSE_FILE environ data
              battery_params cost_params buy_rates time solar
              Htime Hsolar Hrates Hsell Hshort) as [Hr Hc].
  rewrite guarded_agrees; [|exact Hstart|].
  - cbn [guarded.result_of guarded.model_of]. split; [exact Hr|].
    eexists. split; [reflexivity | exact Hc].
  - intros k Hk. rewrite Hc in Hk.
    apply in_map_iff in Hk as (t & <- & [_ Ht]%in_seq). apply Hacc.
    cbn in Ht. lia.
Qed.

(** Two entries of solar production for the three steps of a horizon:
    [IndexError] with two solar balances in the model. *)
Lemma short_series_raises_IndexError_sample :
  guarded.result_of
    (guarded.create_milp_model sample.gurobi None ∅ sample.three_steps
       sample.battery_params sample.cost_params sample.three_rates) =
  Raise IndexError /\
  exists m,
    guarded.model_of
      (guarded.create_milp_model sample.gurobi None ∅ sample.three_steps
         sample.battery_params sample.cost_params sample.three_rates) =
    Some m /\
    constrs m =
    [solar_balance_of [100%Q; 200%Q] 0; solar_balance_of [100%Q; 200%Q] 1].
Proof.
  apply (short_series_raises_IndexError sample.gurobi None ∅
           sample.three_steps sample.battery_params sample.cost_params
           sample.three_rates
           (Times [mkTimestamp 3 0; mkTimestamp 12 5; mkTimestamp 23 10])
           [100%Q; 200%Q]
           eq_refl
           ltac:(vm_compute; reflexivity) ltac:(vm_compute; reflexivity)
           ltac:(intros [|[|[|t]]] Ht;
                 [vm_compute; eauto | vm_compute; eauto
                 | vm_compute; eauto | cbn in Ht; lia])
           ltac:(vm_compute; eauto)
           ltac:(intros; reflexivity)
           ltac:(cbn; lia)).
Defined.

(** X16. A discharge efficiency of 0 stops the construction at the battery
    dynamics of step 0.  With a license, rates, a selling price, series
    that cover the horizon and the keys of the dynamics: if Gurobi accepts
    the two balances of every step, the builder raises [ZeroDivisionError],
    and the constraints of the model are then the solar balances followed
    by the load balances, [2 * T] in all. *)
Theorem zero_discharge_efficiency_raises
    (gurobi : Gurobi)
    (GUROBI_LICENSE_FILE : option string) (environ : gmap string string)
    (data : gmap string pyobj) (battery_params cost_params : gmap string Q)
    (buy_rates : gmap nat Q) (time : pyobj) (solar load : list Q)
    (initial_soc capacity_kwh charge_efficiency discharge_efficiency : Q) :
  start gurobi (config.setup_gurobi_env GUROBI_LICENSE_FILE environ) = None ->
  data !! "time" = Some time ->
  data !! "solar_production" = Some (Nums solar) ->
  data !! "load_demand" = Some (Nums load) ->
  (len time <= length solar)%nat -> (len time <= length load)%nat ->
  (forall t, (t < len time)%nat -> is_Some (buy_rates !! t)) ->
  is_Some (cost_params !! "sell_price") ->
  battery_params !! "initial_soc" = Some initial_soc ->
  battery_params !! "capacity_kwh" = Some capacity_kwh ->
  battery_params !! "charge_efficiency" = Some charge_efficiency ->
  battery_params !! "discharge_efficiency" = Some discharge_efficiency ->
  (forall t, (t < len time)%nat ->
     rejects gurobi (solar_balance_of solar t) = None /\
     rejects gurobi (load_balance_of load t) = None) ->
  (0 < len time)%nat -> (discharge_efficiency == 0)%Q ->
  let run :=
    guarded.create_milp_model gurobi GUROBI_LICENSE_FILE environ
      data battery_params cost_params buy_rates in
  guarded.result_of run = Raise ZeroDivisionError /\
  exists m, guarded.model_of run = Some m /\
    constrs m =
    (map (solar_balance_of solar) (range (len time)) ++
     map (load_balance_of load) (range (len time)))%list /\
    length (constrs m) = (2 * len time)%nat.
Proof.
  intros Hstart Htime Hsolar Hload Hsl Hll Hrates Hsell Hi Hc Hce Hde Hacc
    Hpos Hzero.
  cbv zeta.
  destruct (build_zero_discharge_efficiency GUROBI_LICENSE_FILE environ data
              battery_params cost_params buy_rates time solar
              Htime Hsolar Hrates Hsell load initial_soc capacity_kwh
              charge_efficiency discharge_efficiency
              Hload Hsl Hll Hi Hc Hce Hde Hpos Hzero) as [Hr Hcs].
  rewrite guarded_agrees; [|exact Hstart|].
  - cbn [guarded.result_of guarded.model_of]. split; [exact Hr|].
    eexists. split; [reflexivity|]. split; [exact Hcs|].
    rewrite Hcs, length_app, !length_map. unfold range.
    rewrite length_seq. lia.
  - intros k Hk. rewrite Hcs in Hk.
    apply in_app_or in Hk as [Hk|Hk];
      apply in_map_iff in Hk as (t & <- & [_ Ht]%in_seq);
      cbn in Ht; now apply Hacc.
Qed.

(** [sample] with a discharge efficiency of 0. *)
Lemma zero_discharge_efficiency_raises_sample :
  guarded.result_of
    (guarded.create_milp_model sample.gurobi None ∅ sample.data
       (<["discharge_efficiency" := 0%Q]> sample.battery_params)
       sample.cost_params sample.buy_rates) = Raise ZeroDivisionError.
Proof.
  apply (zero_discharge_efficiency_raises sample.gurobi None ∅ sample.data
           (<["discharge_efficiency" := 0%Q]> sample.battery_params)
           sample.cost_params sample.buy_rates
           (Times [mkTimestamp 3 0; mkTimestamp 12 5])
           [100%Q; 200%Q] [50%Q; 300%Q] (22 # 100)%Q (48 # 10)%Q
           (95 # 100)%Q 0%Q
           eq_refl
           ltac:(vm_compute; reflexivity) ltac:(vm_compute; reflexivity)
           ltac:(vm_compute; reflexivity) ltac:(cbn; lia) ltac:(cbn; lia)
           ltac:(intros [|[|t]] Ht;
                 [vm_compute; eauto | vm_compute; eauto | cbn in Ht; lia])
           ltac:(vm_compute; eauto)
           ltac:(vm_compute; reflexivity) ltac:(vm_compute; reflexivity)
           ltac:(vm_compute; reflexivity) ltac:(vm_compute; reflexivity)
           ltac:(intros; split; reflexivity)
           ltac:(cbn; lia) ltac:(reflexivity)).
Defined.

(** ** main.py: from the loaded data to the model *)

(** X18. The steps of [main.py] compose.  For data as [load_data] builds
    it, a list of timestamps and two numeric series of the same length, the
    tariff mapper returns a rate for every step; and when Gurobi opens a
    license and refuses none of the constraints, the builder, with the
    constants of [main.py], returns a model of ten variables per step.
    Without a license the run ends in Gurobi's error, whatever the data. *)
Theorem main_builds_the_model
    (gurobi : Gurobi)
    (GUROBI_LICENSE_FILE : option string) (environ : gmap string string)
    (times : list Timestamp) (solar load : list Q) :
  length solar = length times -> length load = length times ->
  let data : gmap string pyobj :=
    <["time" := Times times]>
      (<["solar_production" := Nums solar]>
         (<["load_demand" := Nums load]> ∅)) in
  let environ' := config.setup_gurobi_env GUROBI_LICENSE_FILE environ in
  exists run,
    main.rates_and_model gurobi GUROBI_LICENSE_FILE environ data = Ok run /\
    (forall errno, start gurobi environ' = Some errno ->
       guarded.result_of run = Raise (GurobiError errno)) /\
    (start gurobi environ' = None ->
     (forall buy_rates,
        accepts_model gurobi
          (model_builder.model_after
             (model_builder.create_milp_model GUROBI_LICENSE_FILE environ
                data main.battery_params main.cost_params buy_rates))) ->
     is_Ok (guarded.result_of run) /\
     exists m, guarded.model_of run = Some m /\
       length (variables m) = (10 * length times)%nat).
Proof.
  intros Hsolar Hload. cbv zeta.
  destruct (main_input_ok times solar load Hsolar Hload)
    as (buy_rates & Hrates & Htime & Hok).
  cbv zeta in *. set (data := <["time" := Times times]> _) in *.
  unfold main.rates_and_model. rewrite Hrates, bind_Ok.
  eexists. split; [reflexivity|]. split.
  - intros errno Hstart.
    now rewrite (guarded_unlicensed _ _ _ _ _ _ _ errno Hstart).
  - intros Hstart Hacc.
    destruct (guarded_variables gurobi GUROBI_LICENSE_FILE environ data
                main.battery_params main.cost_params buy_rates (Times times)
                Hstart Htime) as (m & Hm & Hvars).
    split.
    + rewrite (guarded_agrees _ _ _ _ _ _ _ Hstart (Hacc buy_rates)).
      cbn [guarded.result_of]. unfold model_builder.create_milp_model.
      destruct (build_model_Ok data main.battery_params main.cost_params
                  buy_rates (Times times) "PV_Battery_Optimization" Htime
                  (or_intror Hok)) as (m' & v & ->).
      exact I.
    + exists m. split; [exact Hm|]. rewrite Hvars.
      unfold declared_variables, model_builder.declared.
      rewrite !length_app, !length_map. unfold range. rewrite !length_seq.
      cbn [len]. lia.
Qed.

Lemma main_builds_the_model_sample :
  exists run,
    main.rates_and_model sample.gurobi None ∅
      (<["time" := Times [mkTimestamp 3 0; mkTimestamp 12 5]]>
         (<["solar_production" := Nums [100%Q; 200%Q]]>
            (<["load_demand" := Nums [50%Q; 300%Q]]> ∅))) = Ok run /\
    is_Ok (guarded.result_of run).
Proof.
  destruct (main_builds_the_model sample.gurobi None ∅
              [mkTimestamp 3 0; mkTimestamp 12 5] [100%Q; 200%Q]
              [50%Q; 300%Q] eq_refl eq_refl) as (run & H1 & _ & H2).
  exists run. split; [exact H1|].
  apply H2; [reflexivity | intros buy_rates k _; reflexivity].
Defined.
